(** * gns3fy services: entity search, link matching and the project facade

    A shallow embedding of [gns3fy/services.py].  The functions of that file
    are translated one by one into a state-and-exception monad; the state
    holds the in-memory [Project] object the functions mutate, the remote
    server the connector talks to, and the trace of HTTP requests issued.

    The model classes ([gns3fy/models.py]: [Connector], [Project], [Node],
    [Port], [Link], [Template], [Drawing], [Snapshot]) and the GNS3 server
    are not part of [services.py]; the little of them the services rely on is
    modelled below, each piece under a comment that says so. *)

From Stdlib Require Import List Ascii String ZArith Bool Arith Lia.
Import ListNotations.

Local Open Scope string_scope.
Local Open Scope list_scope.

(* ================================================================= *)
(** ** Identifiers *)

(** Identifiers are [Optional[str]] attributes: [None] until the server has
    assigned one. *)
Definition Id : Type := option string.

(** Python [==] on two [Optional[str]] values. *)
Definition id_eqb (a b : Id) : bool :=
  match a, b with
  | Some x, Some y => String.eqb x y
  | None, None => true
  | _, _ => false
  end.

(* ================================================================= *)
(** ** The entities

    Only the attributes [services.py] reads or writes are kept. *)

Module Port.
(** A [Port] is used both for the ports of a node ([name],
    [adapter_number], [port_number]) and for the two endpoints of a link
    ([node_id], [adapter_number], [port_number]; the label of an endpoint
    is not kept and its [name] is [None]). *)
Record t : Type := mk {
  name : option string;
  node_id : Id;
  adapter_number : Z;
  port_number : Z
}.
End Port.

Module Node.
Record t : Type := mk {
  node_id : Id;
  name : string;
  template : option string;
  template_id : Id;
  x : Z;
  y : Z;
  ports : list Port.t
}.
End Node.

Module Link.
(** [nodes] is [Optional[List[Port]]]; every use in [services.py] tests it
    for truth first, so [None] and the empty list are both [[]] here. *)
Record t : Type := mk {
  link_id : Id;
  nodes : list Port.t
}.
End Link.

Module Drawing.
Record t : Type := mk {
  drawing_id : Id;
  svg : string
}.
End Drawing.

Module Snapshot.
Record t : Type := mk {
  snapshot_id : Id;
  name : string
}.
End Snapshot.

Module Template.
Record t : Type := mk {
  template_id : Id;
  name : string
}.
End Template.

(* ================================================================= *)
(** ** Python sets of entities *)

(** The [__eq__] and [__hash__] of the model classes are in [models.py].
    The specification states that entities are equal when their server
    identifiers are and that the project's collections are sets unique by
    identifier.  A set is kept as the list of its members in iteration
    order, which is the order of first insertion here; Python leaves the
    iteration order of a set open, and the properties below that speak of
    an order speak of the order of the set itself. *)
Section PySet.
Context {A : Type} (key : A -> Id).

(** Modelled from the spec: [x in s] for the sets of entities, whose
    [__eq__] is missing; equality is by identifier. *)
Definition set_mem (x : A) (s : list A) : bool :=
  existsb (fun y => id_eqb (key y) (key x)) s.

(** Modelled from the spec: [s.add(x)] for the sets of entities; nothing
    happens when a member with the identifier of [x] is present. *)
Definition set_add (x : A) (s : list A) : list A :=
  if set_mem x s then s else s ++ [x].

(** Modelled from the spec: [set(l)] for a list of entities, of which the
    first one is kept under each identifier. *)
Definition set_of_list (l : list A) : list A :=
  fold_left (fun s x => set_add x s) l [].

(** Modelled from the spec: [s.remove(x)] for the sets of entities; it
    drops the member with the identifier of [x], and [None] stands for the
    [KeyError] raised when there is none. *)
Fixpoint set_remove (x : A) (s : list A) : option (list A) :=
  match s with
  | [] => None
  | y :: s' =>
      if id_eqb (key y) (key x) then Some s'
      else match set_remove x s' with
           | Some r => Some (y :: r)
           | None => None
           end
  end.

(** The members of a set are pairwise different. *)
Definition is_set (s : list A) : Prop := NoDup (map key s).
End PySet.

Module Project.
Record t : Type := mk {
  project_id : Id;
  name : string;
  nodes : list Node.t;
  links : list Link.t;
  drawings : list Drawing.t;
  snapshots : list Snapshot.t
}.

Definition with_nodes (v : list Node.t) (p : t) : t :=
  mk (project_id p) (name p) v (links p) (drawings p) (snapshots p).
Definition with_links (v : list Link.t) (p : t) : t :=
  mk (project_id p) (name p) (nodes p) v (drawings p) (snapshots p).
Definition with_drawings (v : list Drawing.t) (p : t) : t :=
  mk (project_id p) (name p) (nodes p) (links p) v (snapshots p).
Definition with_snapshots (v : list Snapshot.t) (p : t) : t :=
  mk (project_id p) (name p) (nodes p) (links p) (drawings p) v.
End Project.

(* ================================================================= *)
(** ** Exceptions and outcomes *)

(** The messages of the [ValueError]s raised in [services.py]. *)
Inductive Reason : Type :=
  | NeedEither (a b : string)
      (** ["Need to submit either <a> or <b>"] (the spec's InvalidArgument) *)
  | AlreadyExists (what : string)
      (** ["<what> with same name already exists: ..."] *)
  | NotFound (what : string)
      (** ["<what> not found"], ["<what>: <name> not found"] *)
  | PortUsed (link_id : Id)
      (** ["At least one port is used, ID: <link_id>"]
          (the spec's AlreadyConnected) *).

Inductive Exn : Type :=
  | ValueError (r : Reason)
  | TransportError   (** raised by [Connector.http_call] *)
  | AttributeError   (** attribute access on [None] *)
  | IndexError
  | KeyError.

Inductive Outcome (A : Type) : Type :=
  | Ok (a : A)
  | Raise (e : Exn).
Arguments Ok {A} a.
Arguments Raise {A} e.

(* ================================================================= *)
(** ** The remote server and the transport *)

Inductive Method : Type := GET | POST | DELETE.

Inductive Resource : Type :=
  | ProjectsR                    (** [/projects] *)
  | ProjectR (project_id : Id)   (** [/projects/<id>] *)
  | TemplatesR                   (** [/templates] *)
  | TemplateR (template_id : Id)
  | NodesR                       (** [/projects/<id>/nodes] *)
  | NodeR (node_id : Id)
  | LinksR
  | LinkR (link_id : Id)
  | DrawingsR
  | DrawingR (drawing_id : Id)
  | SnapshotsR
  | SnapshotR (snapshot_id : Id)
  | SnapshotRestoreR (snapshot_id : Id).

Record Request : Type := Req { meth : Method; resource : Resource }.

Definition is_get (r : Request) : bool :=
  match meth r with GET => true | _ => false end.

Module Server.
(** Modelled from the spec: the GNS3 server, an external collaborator.
    It stores the listing of each kind in the order it serves it; the
    node, link, drawing and snapshot listings are those of the project
    the [Project] object of the state stands for. *)
Record t : Type := mk {
  projects : list (Id * string);     (** raw projects: identifier, name *)
  templates : list Template.t;
  nodes : list Node.t;
  links : list Link.t;
  drawings : list Drawing.t;
  snapshots : list Snapshot.t
}.

Definition with_projects v (s : t) : t :=
  mk v (templates s) (nodes s) (links s) (drawings s) (snapshots s).
Definition with_templates v (s : t) : t :=
  mk (projects s) v (nodes s) (links s) (drawings s) (snapshots s).
Definition with_nodes v (s : t) : t :=
  mk (projects s) (templates s) v (links s) (drawings s) (snapshots s).
Definition with_links v (s : t) : t :=
  mk (projects s) (templates s) (nodes s) v (drawings s) (snapshots s).
Definition with_drawings v (s : t) : t :=
  mk (projects s) (templates s) (nodes s) (links s) v (snapshots s).
Definition with_snapshots v (s : t) : t :=
  mk (projects s) (templates s) (nodes s) (links s) (drawings s) v.
End Server.

(** The state the services run in: the [Project] object passed to them, the
    server behind the connector, the requests issued so far (latest first)
    and, for each request by its position in the trace, whether the
    transport fails on it. *)
Record State : Type := mkState {
  project : Project.t;
  server : Server.t;
  log : list Request;
  fails : nat -> bool
}.

Definition with_project (p : Project.t) (st : State) : State :=
  mkState p (server st) (log st) (fails st).
Definition with_server (s : Server.t) (st : State) : State :=
  mkState (project st) s (log st) (fails st).
Definition with_log (l : list Request) (st : State) : State :=
  mkState (project st) (server st) l (fails st).

(** The transport never fails. *)
Definition healthy (st : State) : Prop := forall n, fails st n = false.

(* ================================================================= *)
(** ** The monad of the services *)

(** A computation runs from a state to an outcome and a state; a raised
    exception keeps the state reached when it was raised, as the mutations
    a Python function made before raising stay visible to its caller. *)
Definition M (A : Type) : Type := State -> Outcome A * State.

Definition ret {A} (a : A) : M A := fun st => (Ok a, st).

Definition raise {A} (e : Exn) : M A := fun st => (Raise e, st).

Definition bind {A B} (m : M A) (k : A -> M B) : M B :=
  fun st =>
    match m st with
    | (Ok a, st') => k a st'
    | (Raise e, st') => (Raise e, st')
    end.

Declare Scope svc_scope.
Delimit Scope svc_scope with svc.
Notation "x <- m ;; k" := (bind m (fun x => k))
  (at level 100, m at next level, right associativity) : svc_scope.
Notation "m ;;; k" := (bind m (fun _ => k))
  (at level 100, right associativity) : svc_scope.
Local Open Scope svc_scope.

Definition gets {A} (f : State -> A) : M A := fun st => (Ok (f st), st).

Definition modify (f : State -> State) : M unit := fun st => (Ok tt, f st).

Definition lift {A} (o : Outcome A) : M A := fun st => (o, st).

(** Modelled from the spec: [Connector.http_call(method, url)] of
    [models.py]; the request is recorded, and the call raises when the
    transport fails on it. *)
Definition http_call (r : Request) : M unit :=
  fun st =>
    let st' := with_log (r :: log st) st in
    if fails st (List.length (log st)) then (Raise TransportError, st')
    else (Ok tt, st').

(** [next(x for x in it if cond x)] inside [try ... except StopIteration:
    return None]: the first member that passes, [None] when the generator
    is exhausted. *)
Fixpoint py_next {A} (cond : A -> bool) (it : list A) : option A :=
  match it with
  | [] => None
  | x :: it' => if cond x then Some x else py_next cond it'
  end.

(* ================================================================= *)
(** ** The server side of the model classes *)

(** The length of the longest identifier in use. *)
Fixpoint longest (ids : list Id) : nat :=
  match ids with
  | [] => 0
  | Some s :: r => Nat.max (String.length s) (longest r)
  | None :: r => longest r
  end.

(** A string of the given length. *)
Fixpoint pad (n : nat) : string :=
  match n with
  | O => EmptyString
  | S k => String "i"%char (pad k)
  end.

(** Modelled from the spec: the identifier the server assigns to a new
    entity, which is missing from the sources; the specification only asks
    that it be unique.  It is longer than every identifier in use. *)
Definition fresh_id (ids : list Id) : Id := Some (pad (S (longest ids))).

(** The listing holds an entity under the identifier. *)
Definition has_id {A} (key : A -> Id) (i : Id) (l : list A) : bool :=
  existsb (fun x => id_eqb (key x) i) l.

(** The listing without the entities under the identifier. *)
Definition drop_id {A} (key : A -> Id) (i : Id) (l : list A) : list A :=
  filter (fun x => negb (id_eqb (key x) i)) l.

(** The methods of the model classes the services call are in
    [models.py]: [create] issues the remote create and takes the
    identifier the server assigned, [delete] issues the remote delete,
    [Node.get] re-reads the node from the server. *)

(** Modelled from the spec: the constructor [Project(connector=connector,
    **proj)] of [models.py], applied to a raw project of the server; the
    collections start empty. *)
Definition Project_of_raw (raw : Id * string) : Project.t :=
  Project.mk (fst raw) (snd raw) [] [] [] [].

(** A change of the server's state. *)
Definition on_server (f : Server.t -> Server.t) : M unit :=
  modify (fun st => with_server (f (server st)) st).

(** An assignment to an attribute of the [Project] object. *)
Definition on_project (f : Project.t -> Project.t) : M unit :=
  modify (fun st => with_project (f (project st)) st).

(** Modelled from the spec: the remote delete behind the [delete] methods
    of [models.py]; the server refuses it for an identifier it does not
    know, and the transport raises then. *)
Definition remote_delete {A} (key : A -> Id) (listing : Server.t -> list A)
    (drop : Server.t -> Server.t) (r : Resource) (i : Id) : M unit :=
  http_call (Req DELETE r) ;;;
  srv <- gets server ;;
  if has_id key i (listing srv) then on_server drop
  else raise TransportError.

(** Modelled from the spec: the remote create behind the [create] methods
    of [models.py]; the server assigns the identifier, stores the entity
    at the end of its listing and returns it. *)
Definition remote_create {A} (r : Resource) (assign : Server.t -> A)
    (store : A -> Server.t -> Server.t) : M A :=
  http_call (Req POST r) ;;;
  srv <- gets server ;;
  let x := assign srv in
  on_server (store x) ;;;
  ret x.

(** Modelled from the spec: [Project.create()] of [models.py]; the object
    takes the identifier the server assigned. *)
Definition Project_create (p : Project.t) : M Project.t :=
  i <- remote_create ProjectsR
         (fun srv => fresh_id (map fst (Server.projects srv)))
         (fun i srv =>
            Server.with_projects (Server.projects srv ++ [(i, Project.name p)])
              srv) ;;
  ret (Project.mk i (Project.name p) (Project.nodes p) (Project.links p)
         (Project.drawings p) (Project.snapshots p)).

(** Modelled from the spec: [Project.delete()] of [models.py]. *)
Definition Project_delete (p : Project.t) : M unit :=
  let i := Project.project_id p in
  remote_delete fst Server.projects
    (fun srv => Server.with_projects (drop_id fst i (Server.projects srv)) srv)
    (ProjectR i) i.

(** Modelled from the spec: [Template.create()] of [models.py]; the object
    takes the identifier the server assigned. *)
Definition Template_create (t : Template.t) : M Template.t :=
  remote_create TemplatesR
    (fun srv =>
       Template.mk (fresh_id (map Template.template_id (Server.templates srv)))
         (Template.name t))
    (fun t' srv => Server.with_templates (Server.templates srv ++ [t']) srv).

(** Modelled from the spec: [Template.delete()] of [models.py]. *)
Definition Template_delete (t : Template.t) : M unit :=
  let i := Template.template_id t in
  remote_delete Template.template_id Server.templates
    (fun srv => Server.with_templates
                  (drop_id Template.template_id i (Server.templates srv)) srv)
    (TemplateR i) i.

(** Modelled from the spec: [Drawing.create()] of [models.py]; the object
    takes the identifier the server assigned. *)
Definition Drawing_create (d : Drawing.t) : M Drawing.t :=
  remote_create DrawingsR
    (fun srv =>
       Drawing.mk (fresh_id (map Drawing.drawing_id (Server.drawings srv)))
         (Drawing.svg d))
    (fun d' srv => Server.with_drawings (Server.drawings srv ++ [d']) srv).

(** Modelled from the spec: [Drawing.delete()] of [models.py]. *)
Definition Drawing_delete (d : Drawing.t) : M unit :=
  let i := Drawing.drawing_id d in
  remote_delete Drawing.drawing_id Server.drawings
    (fun srv => Server.with_drawings
                  (drop_id Drawing.drawing_id i (Server.drawings srv)) srv)
    (DrawingR i) i.

(** Modelled from the spec: [Snapshot.create()] of [models.py]; the object
    takes the identifier the server assigned. *)
Definition Snapshot_create (s : Snapshot.t) : M Snapshot.t :=
  remote_create SnapshotsR
    (fun srv =>
       Snapshot.mk (fresh_id (map Snapshot.snapshot_id (Server.snapshots srv)))
         (Snapshot.name s))
    (fun s' srv => Server.with_snapshots (Server.snapshots srv ++ [s']) srv).

(** Modelled from the spec: [Snapshot.delete()] of [models.py]. *)
Definition Snapshot_delete (s : Snapshot.t) : M unit :=
  let i := Snapshot.snapshot_id s in
  remote_delete Snapshot.snapshot_id Server.snapshots
    (fun srv => Server.with_snapshots
                  (drop_id Snapshot.snapshot_id i (Server.snapshots srv)) srv)
    (SnapshotR i) i.

(** Modelled from the spec: [Node.create()] of [models.py]; the object
    takes the identifier the server assigned. *)
Definition Node_create (n : Node.t) : M Node.t :=
  remote_create NodesR
    (fun srv =>
       Node.mk (fresh_id (map Node.node_id (Server.nodes srv)))
         (Node.name n) (Node.template n) (Node.template_id n)
         (Node.x n) (Node.y n) (Node.ports n))
    (fun n' srv => Server.with_nodes (Server.nodes srv ++ [n']) srv).

(** Modelled from the spec: [Node.delete()] of [models.py]. *)
Definition Node_delete (n : Node.t) : M unit :=
  let i := Node.node_id n in
  remote_delete Node.node_id Server.nodes
    (fun srv => Server.with_nodes (drop_id Node.node_id i (Server.nodes srv)) srv)
    (NodeR i) i.

(** Modelled from the spec: [Link.create()] of [models.py]; the object
    takes the identifier the server assigned. *)
Definition Link_create (l : Link.t) : M Link.t :=
  remote_create LinksR
    (fun srv =>
       Link.mk (fresh_id (map Link.link_id (Server.links srv))) (Link.nodes l))
    (fun l' srv => Server.with_links (Server.links srv ++ [l']) srv).

(** Modelled from the spec: [Link.delete()] of [models.py]. *)
Definition Link_delete (l : Link.t) : M unit :=
  let i := Link.link_id l in
  remote_delete Link.link_id Server.links
    (fun srv => Server.with_links (drop_id Link.link_id i (Server.links srv)) srv)
    (LinkR i) i.

(** Modelled from the spec: [Node.get()] of [models.py], which re-reads the
    node from the server and updates the node object in place.  The object
    the services pass is the member of [project.nodes] that [search_node]
    returned, so the update shows in the project's node set: the member
    with the node's identifier is replaced by what the server returned. *)
Definition Node_get (n : Node.t) : M Node.t :=
  let i := Node.node_id n in
  http_call (Req GET (NodeR i)) ;;;
  srv <- gets server ;;
  match py_next (fun m => id_eqb (Node.node_id m) i) (Server.nodes srv) with
  | None => raise TransportError
  | Some m =>
      on_project (fun p =>
        Project.with_nodes
          (map (fun o => if id_eqb (Node.node_id o) i then m else o)
               (Project.nodes p)) p) ;;;
      ret m
  end.

(** Modelled from the spec: the server's answer to the [POST] on
    [.../snapshots/<id>/restore], through [Connector.http_call] of
    [models.py]: status code [201] for a snapshot the server knows. *)
Definition post_restore (i : Id) : M Z :=
  http_call (Req POST (SnapshotRestoreR i)) ;;;
  srv <- gets server ;;
  if has_id Snapshot.snapshot_id i (Server.snapshots srv) then ret 201%Z
  else raise TransportError.

(* ================================================================= *)
(** ** [services.py]

    The [connector] and [project] arguments of the Python functions are the
    transport and the [Project] object of the state. *)

(** *** Projects *)

Definition get_projects : M (list Project.t) :=
  http_call (Req GET ProjectsR) ;;;
  raw <- gets (fun st => Server.projects (server st)) ;;
  ret (map Project_of_raw raw).

Definition get_drawings : M (list Drawing.t) :=
  http_call (Req GET DrawingsR) ;;;
  gets (fun st => Server.drawings (server st)).

Definition get_nodes : M (list Node.t) :=
  http_call (Req GET NodesR) ;;;
  gets (fun st => Server.nodes (server st)).

Definition get_templates : M (list Template.t) :=
  http_call (Req GET TemplatesR) ;;;
  gets (fun st => Server.templates (server st)).

Definition get_links : M (list Link.t) :=
  http_call (Req GET LinksR) ;;;
  gets (fun st => Server.links (server st)).

Definition get_snapshots : M (list Snapshot.t) :=
  http_call (Req GET SnapshotsR) ;;;
  gets (fun st => Server.snapshots (server st)).

Definition when (b : bool) (m : M unit) : M unit :=
  if b then m else ret tt.

(** Every keyword of [refresh_project] defaults to [True]. *)
Definition refresh_project (links nodes snapshots drawings : bool) : M unit :=
  when snapshots
    (l <- get_snapshots ;;
     on_project (Project.with_snapshots (set_of_list Snapshot.snapshot_id l))) ;;;
  when drawings
    (l <- get_drawings ;;
     on_project (Project.with_drawings (set_of_list Drawing.drawing_id l))) ;;;
  when nodes
    (l <- get_nodes ;;
     on_project (Project.with_nodes (set_of_list Node.node_id l))) ;;;
  when links
    (l <- get_links ;;
     on_project (Project.with_links (set_of_list Link.link_id l))).

Definition search_project (name project_id : option string)
  : M (option Project.t) :=
  match name with
  | Some name =>
      l <- get_projects ;;
      ret (py_next (fun prj => String.eqb (Project.name prj) name) l)
  | None =>
      match project_id with
      | Some project_id =>
          l <- get_projects ;;
          ret (py_next
                 (fun prj => id_eqb (Project.project_id prj) (Some project_id))
                 l)
      | None => raise (ValueError (NeedEither "name" "project_id"))
      end
  end.

Definition create_project (name : string) : M Project.t :=
  _sproject <- search_project (Some name) None ;;
  match _sproject with
  | Some _ => raise (ValueError (AlreadyExists "Project"))
  | None => Project_create (Project.mk None name [] [] [] [])
  end.

Definition delete_project (name project_id : option string) : M unit :=
  _sproject <- search_project name project_id ;;
  match _sproject with
  | None => raise (ValueError (NotFound "Project"))
  | Some _sproject => Project_delete _sproject
  end.

(** *** Drawings *)

Definition search_drawing (svg drawing_id : option string)
  : M (option Drawing.t) :=
  refresh_project true true true true ;;;
  match svg with
  | Some svg =>
      l <- get_drawings ;;
      ret (py_next (fun draw => String.eqb (Drawing.svg draw) svg) l)
  | None =>
      match drawing_id with
      | Some drawing_id =>
          l <- get_drawings ;;
          ret (py_next
                 (fun draw => id_eqb (Drawing.drawing_id draw) (Some drawing_id))
                 l)
      | None => raise (ValueError (NeedEither "svg string" "drawing_id"))
      end
  end.

Definition create_drawing (svg : string) : M Drawing.t :=
  _sdrawing <- search_drawing (Some svg) None ;;
  match _sdrawing with
  | Some _ => raise (ValueError (AlreadyExists "Drawing"))
  | None =>
      _drawing <- Drawing_create (Drawing.mk None svg) ;;
      on_project (fun p =>
        Project.with_drawings
          (set_add Drawing.drawing_id _drawing (Project.drawings p)) p) ;;;
      ret _drawing
  end.

(** [s.remove(x)] on one of the project's sets. *)
Definition remove_from {A} (key : A -> Id) (get : Project.t -> list A)
    (put : list A -> Project.t -> Project.t) (x : A) : M unit :=
  p <- gets project ;;
  match set_remove key x (get p) with
  | Some s => on_project (put s)
  | None => raise KeyError
  end.

(** The message of [delete_drawing] does say "Snapshot". *)
Definition delete_drawing (svg drawing_id : option string) : M unit :=
  _sdrawing <- search_drawing svg drawing_id ;;
  match _sdrawing with
  | None => raise (ValueError (NotFound "Snapshot"))
  | Some _sdrawing =>
      Drawing_delete _sdrawing ;;;
      remove_from Drawing.drawing_id Project.drawings Project.with_drawings
        _sdrawing
  end.

(** *** Ports *)

(** [_p.name == name], the name of a port being [Optional[str]]. *)
Definition port_named (name : string) (_p : Port.t) : bool :=
  match Port.name _p with
  | Some n => String.eqb n name
  | None => false
  end.

Definition search_port (node : Node.t) (name : string) : M (option Port.t) :=
  node <- Node_get node ;;
  ret (py_next (port_named name) (Node.ports node)).

(** *** Nodes *)

Definition search_node (name node_id : option string) : M (option Node.t) :=
  refresh_project true true true true ;;;
  match name with
  | Some name =>
      p <- gets project ;;
      ret (py_next (fun _node => String.eqb (Node.name _node) name)
             (Project.nodes p))
  | None =>
      match node_id with
      | Some node_id =>
          l <- get_nodes ;;
          ret (py_next
                 (fun _node => id_eqb (Node.node_id _node) (Some node_id)) l)
      | None => raise (ValueError (NeedEither "name" "node_id"))
      end
  end.

(** *** Templates *)

Definition search_template (name template_id : option string)
  : M (option Template.t) :=
  match name with
  | Some name =>
      l <- get_templates ;;
      ret (py_next (fun tplt => String.eqb (Template.name tplt) name) l)
  | None =>
      match template_id with
      | Some template_id =>
          l <- get_templates ;;
          ret (py_next
                 (fun tp => id_eqb (Template.template_id tp) (Some template_id))
                 l)
      | None => raise (ValueError (NeedEither "name" "template_id"))
      end
  end.

Definition create_template (name : string) : M Template.t :=
  _stemplate <- search_template (Some name) None ;;
  match _stemplate with
  | Some _ => raise (ValueError (AlreadyExists "Template"))
  | None => Template_create (Template.mk None name)
  end.

Definition delete_template (name template_id : option string) : M unit :=
  _stemplate <- search_template name template_id ;;
  match _stemplate with
  | None => raise (ValueError (NotFound "Template"))
  | Some _stemplate => Template_delete _stemplate
  end.

Definition create_node (name template_name : string) (x y : Z) : M Node.t :=
  _snode <- search_node (Some name) None ;;
  match _snode with
  | Some _ => raise (ValueError (AlreadyExists "Node"))
  | None =>
      _template <- search_template (Some template_name) None ;;
      match _template with
      | None => raise (ValueError (NotFound "Template"))
      | Some _template =>
          _node <- Node_create
                     (Node.mk None name (Some (Template.name _template))
                        (Template.template_id _template) x y []) ;;
          on_project (fun p =>
            Project.with_nodes
              (set_add Node.node_id _node (Project.nodes p)) p) ;;;
          ret _node
      end
  end.

Definition delete_node (name node_id : option string) : M unit :=
  _snode <- search_node name node_id ;;
  match _snode with
  | None => raise (ValueError (NotFound "Node"))
  | Some _snode =>
      Node_delete _snode ;;;
      remove_from Node.node_id Project.nodes Project.with_nodes _snode
  end.

(** *** Links *)

Definition _link_nodes_and_ports (node_a port_a node_b port_b : string)
  : M (Node.t * Port.t * Node.t * Port.t) :=
  _node_a <- search_node (Some node_a) None ;;
  match _node_a with
  | None => raise (ValueError (NotFound (String.append "node_a: " node_a)))
  | Some _node_a =>
  _port_a <- search_port _node_a port_a ;;
  match _port_a with
  | None => raise (ValueError (NotFound (String.append "port_a: " port_a)))
  | Some _port_a =>
  _node_b <- search_node (Some node_b) None ;;
  match _node_b with
  | None => raise (ValueError (NotFound (String.append "node_b: " node_b)))
  | Some _node_b =>
  _port_b <- search_port _node_b port_b ;;
  match _port_b with
  | None => raise (ValueError (NotFound (String.append "port_b: " port_b)))
  | Some _port_b => ret (_node_a, _port_a, _node_b, _port_b)
  end end end end.

(** [_l.nodes[i]] *)
Definition nodes_at (_l : Link.t) (i : nat) : Outcome Port.t :=
  match nth_error (Link.nodes _l) i with
  | Some p => Ok p
  | None => Raise IndexError
  end.

(** [_l.nodes[i].node_id == node.node_id
     and _l.nodes[i].adapter_number == port.adapter_number
     and _l.nodes[i].port_number == port.port_number] *)
Definition side_is (_l : Link.t) (i : nat) (node : Node.t) (port : Port.t)
  : Outcome bool :=
  match nodes_at _l i with
  | Raise e => Raise e
  | Ok q =>
      Ok (id_eqb (Port.node_id q) (Node.node_id node)
          && Z.eqb (Port.adapter_number q) (Port.adapter_number port)
          && Z.eqb (Port.port_number q) (Port.port_number port))
  end.

(** [a and b]: [b] is evaluated only when [a] is true. *)
Definition and_then (a b : Outcome bool) : Outcome bool :=
  match a with
  | Ok true => b
  | _ => a
  end.

(** One turn of the loop of [_search_link]: does [_l] go to [_matches]? *)
Definition link_matches (_l : Link.t)
    (node_a : Node.t) (port_a : Port.t) (node_b : Node.t) (port_b : Port.t)
  : Outcome bool :=
  match Link.nodes _l with
  | [] => Ok false                       (* [if not _l.nodes: continue] *)
  | _ =>
      match and_then (side_is _l 0 node_a port_a) (side_is _l 1 node_b port_b) with
      | Raise e => Raise e
      | Ok true => Ok true
      | Ok false =>
          and_then (side_is _l 1 node_a port_a) (side_is _l 0 node_b port_b)
      end
  end.

Fixpoint _search_link_loop (links : list Link.t)
    (node_a : Node.t) (port_a : Port.t) (node_b : Node.t) (port_b : Port.t)
    (_matches : list Link.t) : Outcome (list Link.t) :=
  match links with
  | [] => Ok _matches
  | _l :: rest =>
      match link_matches _l node_a port_a node_b port_b with
      | Raise e => Raise e
      | Ok true =>
          _search_link_loop rest node_a port_a node_b port_b (_matches ++ [_l])
      | Ok false =>
          _search_link_loop rest node_a port_a node_b port_b _matches
      end
  end.

(** [_matches[0]], [None] on [IndexError]. *)
Definition _search_link (project : Project.t)
    (node_a : Node.t) (port_a : Port.t) (node_b : Node.t) (port_b : Port.t)
  : Outcome (option Link.t) :=
  match _search_link_loop (Project.links project)
          node_a port_a node_b port_b [] with
  | Raise e => Raise e
  | Ok _matches => Ok (hd_error _matches)
  end.

Definition search_link (node_a port_a node_b port_b : string)
  : M (option Link.t) :=
  refresh_project true true true true ;;;
  r <- _link_nodes_and_ports node_a port_a node_b port_b ;;
  let '(_node_a, _port_a, _node_b, _port_b) := r in
  p <- gets project ;;
  lift (_search_link p _node_a _port_a _node_b _port_b).

(** The endpoint [create_link] builds from a node and one of its ports. *)
Definition endpoint (node : Node.t) (port : Port.t) : Port.t :=
  Port.mk None (Node.node_id node)
    (Port.adapter_number port) (Port.port_number port).

Definition create_link (node_a port_a node_b port_b : string) : M Link.t :=
  refresh_project true true true true ;;;
  r <- _link_nodes_and_ports node_a port_a node_b port_b ;;
  let '(_node_a, _port_a, _node_b, _port_b) := r in
  p <- gets project ;;
  _slink <- lift (_search_link p _node_a _port_a _node_b _port_b) ;;
  match _slink with
  | Some _slink => raise (ValueError (PortUsed (Link.link_id _slink)))
  | None =>
      _link <- Link_create
                 (Link.mk None
                    [endpoint _node_a _port_a; endpoint _node_b _port_b]) ;;
      on_project (fun p =>
        Project.with_links (set_add Link.link_id _link (Project.links p)) p) ;;;
      ret _link
  end.

Definition delete_link (node_a port_a node_b port_b : string) : M unit :=
  _link <- search_link node_a port_a node_b port_b ;;
  match _link with
  | None => ret tt
  | Some _link =>
      Link_delete _link ;;;
      remove_from Link.link_id Project.links Project.with_links _link
  end.

(** *** Snapshots *)

(** The identifier is tested for truth here ([elif snapshot_id:]), so the
    empty string counts as not given. *)
Definition search_snapshot (name snapshot_id : option string)
  : M (option Snapshot.t) :=
  refresh_project true true true true ;;;
  match name with
  | Some name =>
      l <- get_snapshots ;;
      ret (py_next (fun snap => String.eqb (Snapshot.name snap) name) l)
  | None =>
      match snapshot_id with
      | Some (String c s) =>
          l <- get_snapshots ;;
          ret (py_next
                 (fun snap =>
                    id_eqb (Snapshot.snapshot_id snap) (Some (String c s)))
                 l)
      | _ => raise (ValueError (NeedEither "name" "snapshot_id"))
      end
  end.

Definition create_snapshot (name : string) : M Snapshot.t :=
  _ssnapshot <- search_snapshot (Some name) None ;;
  match _ssnapshot with
  | Some _ => raise (ValueError (AlreadyExists "Snapshot"))
  | None =>
      _snapshot <- Snapshot_create (Snapshot.mk None name) ;;
      on_project (fun p =>
        Project.with_snapshots
          (set_add Snapshot.snapshot_id _snapshot (Project.snapshots p)) p) ;;;
      ret _snapshot
  end.

Definition delete_snapshot (name snapshot_id : option string) : M unit :=
  _ssnapshot <- search_snapshot name snapshot_id ;;
  match _ssnapshot with
  | None => raise (ValueError (NotFound "Snapshot"))
  | Some _ssnapshot =>
      Snapshot_delete _ssnapshot ;;;
      remove_from Snapshot.snapshot_id Project.snapshots
        Project.with_snapshots _ssnapshot
  end.

(** [_snapshot.snapshot_id] is read to build the URL, before the call. *)
Definition restore_snapshot (name snapshot_id : option string) : M bool :=
  _snapshot <- search_snapshot name snapshot_id ;;
  match _snapshot with
  | None => raise AttributeError
  | Some _snapshot =>
      status_code <- post_restore (Snapshot.snapshot_id _snapshot) ;;
      if Z.eqb status_code 201 then ret true else ret false
  end.

(* ================================================================= *)
(** ** Notions used to state the properties *)

(** The project's four sets hold what the server lists. *)
Definition synced (st : State) : Prop :=
  Project.nodes (project st)
    = set_of_list Node.node_id (Server.nodes (server st))
  /\ Project.links (project st)
    = set_of_list Link.link_id (Server.links (server st))
  /\ Project.drawings (project st)
    = set_of_list Drawing.drawing_id (Server.drawings (server st))
  /\ Project.snapshots (project st)
    = set_of_list Snapshot.snapshot_id (Server.snapshots (server st)).

(** From [st] to [st'] the server was only read and each of the project's
    sets either is what it was or was replaced by the server's listing. *)
Record quiet (st st' : State) : Prop := mkQuiet {
  q_server : server st' = server st;
  q_fails : fails st' = fails st;
  q_log : exists l, log st' = l ++ log st /\ Forall (fun r => is_get r = true) l;
  q_id : Project.project_id (project st') = Project.project_id (project st);
  q_name : Project.name (project st') = Project.name (project st);
  q_nodes : Project.nodes (project st') = Project.nodes (project st)
            \/ Project.nodes (project st')
               = set_of_list Node.node_id (Server.nodes (server st));
  q_links : Project.links (project st') = Project.links (project st)
            \/ Project.links (project st')
               = set_of_list Link.link_id (Server.links (server st));
  q_drawings : Project.drawings (project st') = Project.drawings (project st)
               \/ Project.drawings (project st')
                  = set_of_list Drawing.drawing_id (Server.drawings (server st));
  q_snapshots : Project.snapshots (project st') = Project.snapshots (project st)
                \/ Project.snapshots (project st')
                   = set_of_list Snapshot.snapshot_id
                       (Server.snapshots (server st))
}.

(** Each of the project's sets is what it was in [st] or the server's
    listing of [st]. *)
Definition kept_or_refreshed (st st' : State) : Prop :=
  (Project.nodes (project st') = Project.nodes (project st)
   \/ Project.nodes (project st')
      = set_of_list Node.node_id (Server.nodes (server st)))
  /\ (Project.links (project st') = Project.links (project st)
      \/ Project.links (project st')
         = set_of_list Link.link_id (Server.links (server st)))
  /\ (Project.drawings (project st') = Project.drawings (project st)
      \/ Project.drawings (project st')
         = set_of_list Drawing.drawing_id (Server.drawings (server st)))
  /\ (Project.snapshots (project st') = Project.snapshots (project st)
      \/ Project.snapshots (project st')
         = set_of_list Snapshot.snapshot_id (Server.snapshots (server st))).

(** The state a full refresh leads to when the transport does not fail. *)
Definition refreshed (st : State) : State :=
  mkState
    (Project.mk (Project.project_id (project st)) (Project.name (project st))
       (set_of_list Node.node_id (Server.nodes (server st)))
       (set_of_list Link.link_id (Server.links (server st)))
       (set_of_list Drawing.drawing_id (Server.drawings (server st)))
       (set_of_list Snapshot.snapshot_id (Server.snapshots (server st))))
    (server st)
    ([Req GET LinksR; Req GET NodesR; Req GET DrawingsR; Req GET SnapshotsR]
       ++ log st)
    (fails st).

(** [x] is the first member of [l] that satisfies [P]; [None] when no
    member does. *)
Inductive first_match {A} (P : A -> Prop) : list A -> option A -> Prop :=
  | first_none l : (forall y, In y l -> ~ P y) -> first_match P l None
  | first_some l1 x l2 :
      (forall y, In y l1 -> ~ P y) -> P x ->
      first_match P (l1 ++ x :: l2) (Some x).

(** Two endpoint descriptors denote the same port: node identifier,
    adapter number and port number agree. *)
Definition same_port (p q : Port.t) : bool :=
  id_eqb (Port.node_id p) (Port.node_id q)
  && Z.eqb (Port.adapter_number p) (Port.adapter_number q)
  && Z.eqb (Port.port_number p) (Port.port_number q).

(** The two endpoints of the link are [ea] and [eb], in either order. *)
Definition connects (l : Link.t) (ea eb : Port.t) : bool :=
  match Link.nodes l with
  | p0 :: p1 :: _ =>
      (same_port p0 ea && same_port p1 eb)
      || (same_port p1 ea && same_port p0 eb)
  | _ => false
  end.

(** One of the endpoints of the link is the port [e]. *)
Definition occupies (l : Link.t) (e : Port.t) : bool :=
  existsb (fun p => same_port p e) (Link.nodes l).

(** A link has its two endpoints, or none yet. *)
Definition two_sided (l : Link.t) : Prop := List.length (Link.nodes l) <> 1.

(** What a node name and a port name stand for on the server: the first
    node of that name in the refreshed node set and its first port of that
    name. *)
Definition resolve (srv : Server.t) (node port : string)
  : option (Node.t * Port.t) :=
  match py_next (fun n => String.eqb (Node.name n) node)
          (set_of_list Node.node_id (Server.nodes srv)) with
  | None => None
  | Some n =>
      match py_next (port_named port) (Node.ports n) with
      | None => None
      | Some p => Some (n, p)
      end
  end.

(** Every request issued between [st] and [st'] was a [GET]. *)
Definition only_gets (st st' : State) : Prop :=
  exists l, log st' = l ++ log st /\ Forall (fun r => is_get r = true) l.

(* ================================================================= *)
(** ** A small lab, used to run the services *)

Module Lab.
Definition eth (a p : Z) (name : string) : Port.t :=
  Port.mk (Some name) None a p.

Definition R1 : Node.t :=
  Node.mk (Some "n1") "R1" None None 0 0
    [eth 0 0 "Eth0"; eth 0 1 "Eth1"].
Definition R2 : Node.t :=
  Node.mk (Some "n2") "R2" None None 0 0 [eth 0 0 "Eth0"].
Definition R3 : Node.t :=
  Node.mk (Some "n3") "R3" None None 0 0 [eth 0 0 "Eth0"].

(** An existing link between [R1:Eth0] and [R3:Eth0]. *)
Definition L13 : Link.t :=
  Link.mk (Some "l1")
    [Port.mk None (Some "n1") 0 0; Port.mk None (Some "n3") 0 0].

Definition never (n : nat) : bool := false.

Definition empty_project : Project.t :=
  Project.mk (Some "p1") "lab1" [] [] [] [].

(** The server of the spec's scenario: [R1] with [Eth0] and [Eth1], [R2]
    with [Eth0], no link. *)
Definition srv0 : Server.t :=
  Server.mk [(Some "p1", "lab1")] [Template.mk (Some "t1") "router"]
    [R1; R2] [] [] [Snapshot.mk (Some "s1") "monday"].

Definition st0 : State := mkState empty_project srv0 [] never.

(** A server where [R1:Eth0] is already linked to [R3:Eth0]. *)
Definition srv1 : Server.t :=
  Server.mk [(Some "p1", "lab1")] [Template.mk (Some "t1") "router"]
    [R1; R2; R3] [L13] [] [].

Definition st1 : State := mkState empty_project srv1 [] never.

(** An existing link between [R1:Eth0] and [R2:Eth0]. *)
Definition L12 : Link.t :=
  Link.mk (Some "l2")
    [Port.mk None (Some "n1") 0 0; Port.mk None (Some "n2") 0 0].

Definition srv2 : Server.t :=
  Server.mk [(Some "p1", "lab1")] [Template.mk (Some "t1") "router"]
    [R1; R2] [L12] [] [].

Definition st2 : State := mkState empty_project srv2 [] never.

(** Two snapshots named alike, two nodes named alike. *)
Definition srv3 : Server.t :=
  Server.mk [(Some "p1", "lab1"); (Some "p2", "lab1")]
    [Template.mk (Some "t1") "router"; Template.mk (Some "t2") "router"]
    [R1; Node.mk (Some "n4") "R1" None None 0 0 []] []
    [Drawing.mk (Some "d1") "<svg/>"; Drawing.mk (Some "d2") "<svg/>"]
    [Snapshot.mk (Some "s1") "monday"; Snapshot.mk (Some "s2") "monday"].

Definition st3 : State := mkState empty_project srv3 [] never.

(** A transport that fails on the first request. *)
Definition st0_down : State :=
  mkState empty_project srv0 [] (fun n => Nat.eqb n 0).
End Lab.

(* ================================================================= *)
(** ** [services.py]: the summary of the links *)

(** [[x for x in it if cond x][0]] *)
Definition first_where {A} (cond : A -> bool) (it : list A) : Outcome A :=
  match filter cond it with
  | x :: _ => Ok x
  | [] => Raise IndexError
  end.

(** [x.port_number == side.port_number
     and x.adapter_number == side.adapter_number] *)
Definition port_numbered (side x : Port.t) : bool :=
  Z.eqb (Port.port_number x) (Port.port_number side)
  && Z.eqb (Port.adapter_number x) (Port.adapter_number side).

(** A row of the summary: [(node_a, port_a, node_b, port_b)], the name of a
    port being [Optional[str]]. *)
Definition Row : Type := (string * option string * string * option string)%type.

(** One side of a link in [links_summary]: the node of the project that
    bears the identifier of the endpoint and the name of its port that
    bears the numbers of the endpoint. *)
Definition summary_side (project : Project.t) (_side : Port.t)
  : Outcome (string * option string) :=
  match first_where (fun x => id_eqb (Node.node_id x) (Port.node_id _side))
          (Project.nodes project) with
  | Raise e => Raise e
  | Ok _node =>
      match first_where (port_numbered _side) (Node.ports _node) with
      | Raise e => Raise e
      | Ok x => Ok (Node.name _node, Port.name x)
      end
  end.

(** One turn of the loop of [links_summary]: the row of [_l], or [None] for
    [continue]. *)
Definition links_summary_row (project : Project.t) (_l : Link.t)
  : Outcome (option Row) :=
  match Link.nodes _l with
  | [] => Ok None
  | _ =>
      match nodes_at _l 0 with
      | Raise e => Raise e
      | Ok _side_a =>
      match nodes_at _l 1 with
      | Raise e => Raise e
      | Ok _side_b =>
      match summary_side project _side_a with
      | Raise e => Raise e
      | Ok (_node_a, _port_a) =>
      match summary_side project _side_b with
      | Raise e => Raise e
      | Ok (_node_b, _port_b) => Ok (Some (_node_a, _port_a, _node_b, _port_b))
      end end end end
  end.

Fixpoint links_summary_loop (project : Project.t) (links : list Link.t)
    (_links_summary : list Row) : Outcome (list Row) :=
  match links with
  | [] => Ok _links_summary
  | _l :: rest =>
      match links_summary_row project _l with
      | Raise e => Raise e
      | Ok None => links_summary_loop project rest _links_summary
      | Ok (Some row) =>
          links_summary_loop project rest (_links_summary ++ [row])
      end
  end.

Definition links_summary : M (list Row) :=
  refresh_project true true true true ;;;
  p <- gets project ;;
  lift (links_summary_loop p (Project.links p) []).

(* ================================================================= *)
(** ** More notions used to state the properties *)


(** [c] is the set of the listing [l]: its members are pairwise different,
    come from the listing, and every identifier of the listing has its
    member. *)
Definition set_of_listing {A} (key : A -> Id) (l c : list A) : Prop :=
  is_set key c
  /\ (forall x, In x c -> In x l)
  /\ (forall x, In x l -> set_mem key x c = true).

(** Which of the project's four sets a refresh has replaced by the set of
    the server's listing, the others being what they were in [st]. *)
Definition replaced (snapshots drawings nodes links : bool) (st st' : State)
  : Prop :=
  Project.snapshots (project st')
    = (if snapshots
       then set_of_list Snapshot.snapshot_id (Server.snapshots (server st))
       else Project.snapshots (project st))
  /\ Project.drawings (project st')
     = (if drawings
        then set_of_list Drawing.drawing_id (Server.drawings (server st))
        else Project.drawings (project st))
  /\ Project.nodes (project st')
     = (if nodes
        then set_of_list Node.node_id (Server.nodes (server st))
        else Project.nodes (project st))
  /\ Project.links (project st')
     = (if links
        then set_of_list Link.link_id (Server.links (server st))
        else Project.links (project st)).


(** The endpoint [e] of a link is the port [p] of the node [n] of [nodes],
    which the pair [nm] names. *)
Definition names_side (nodes : list Node.t) (e : Port.t)
    (nm : string * option string) : Prop :=
  exists n p,
    In n nodes /\ In p (Node.ports n)
    /\ same_port (endpoint n p) e = true
    /\ nm = (Node.name n, Port.name p).

(** No port of a node of [nodes] is the endpoint [e]. *)
Definition dangling (nodes : list Node.t) (e : Port.t) : Prop :=
  forall n p, In n nodes -> In p (Node.ports n) ->
              same_port (endpoint n p) e = false.




Module Lab2.

(** A link with a single endpoint. *)
Definition L1 : Link.t :=
  Link.mk (Some "l3") [Port.mk None (Some "n1") 0 0].

(** A link with no endpoint. *)
Definition L0 : Link.t := Link.mk (Some "l0") [].



(** Everything of one kind: a drawing, a snapshot, a link. *)
Definition srv_full : Server.t :=
  Server.mk [(Some "p1", "lab1"); (Some "p2", "lab2")]
    [Template.mk (Some "t1") "router"]
    [Lab.R1; Lab.R2; Lab.R3] [L0; Lab.L12]
    [Drawing.mk (Some "d1") "<svg/>"]
    [Snapshot.mk (Some "s1") "monday"].
Definition st_full : State :=
  mkState Lab.empty_project srv_full [] Lab.never.

(** A transport that fails on the third request. *)
Definition st_third : State :=
  mkState Lab.empty_project srv_full [] (fun n => Nat.eqb n 2).
End Lab2.

(* ================================================================= *)
(** * Properties *)

(** ** Identifiers and sets *)

Lemma id_eqb_eq (a b : Id) : id_eqb a b = true <-> a = b.
Proof.
  destruct a as [x|], b as [y|]; simpl; try (split; congruence).
  rewrite String.eqb_eq. split; congruence.
Qed.

Lemma id_eqb_refl (a : Id) : id_eqb a a = true.
Proof. apply id_eqb_eq. reflexivity. Qed.

Lemma id_eqb_neq (a b : Id) : id_eqb a b = false <-> a <> b.
Proof.
  split.
  - intros E H. subst. rewrite id_eqb_refl in E. discriminate.
  - intros H. destruct (id_eqb a b) eqn:E; [|reflexivity].
    apply id_eqb_eq in E. contradiction.
Qed.

Lemma id_eqb_sym (a b : Id) : id_eqb a b = id_eqb b a.
Proof.
  destruct (id_eqb a b) eqn:E.
  - apply id_eqb_eq in E. subst. symmetry. apply id_eqb_refl.
  - symmetry. apply id_eqb_neq. apply id_eqb_neq in E. congruence.
Qed.

(** The first member that passes. *)
Lemma py_next_app {A} (cond : A -> bool) (l1 l2 : list A) :
  py_next cond (l1 ++ l2)
  = match py_next cond l1 with
    | Some y => Some y
    | None => py_next cond l2
    end.
Proof.
  induction l1 as [|x l1 IH]; simpl; [reflexivity|].
  destruct (cond x); [reflexivity|assumption].
Qed.

Lemma py_next_none {A} (cond : A -> bool) (l : list A) :
  py_next cond l = None <-> forall y, In y l -> cond y = false.
Proof.
  induction l as [|x l IH]; simpl.
  - split; [intros _ y []|reflexivity].
  - destruct (cond x) eqn:E.
    + split; [discriminate|]. intros H. rewrite (H x) in E by auto.
      discriminate.
    + rewrite IH. split.
      * intros H y [<-|Hy]; auto.
      * intros H y Hy. apply H. auto.
Qed.

Lemma py_next_some {A} (cond : A -> bool) (l : list A) (x : A) :
  py_next cond l = Some x ->
  exists l1 l2, l = l1 ++ x :: l2 /\ cond x = true
                /\ forall y, In y l1 -> cond y = false.
Proof.
  induction l as [|a l IH]; simpl; [discriminate|].
  destruct (cond a) eqn:E.
  - intros [= <-]. exists [], l. simpl. intuition.
  - intros H. destruct (IH H) as (l1 & l2 & -> & Hx & Hl1).
    exists (a :: l1), l2. simpl. repeat split; [assumption|].
    intros y [<-|Hy]; auto.
Qed.

Lemma py_next_in {A} (cond : A -> bool) (l : list A) (x : A) :
  py_next cond l = Some x -> In x l /\ cond x = true.
Proof.
  intros H. apply py_next_some in H as (l1 & l2 & -> & Hx & _).
  split; [|assumption]. apply in_elt.
Qed.

Section PySetFacts.
Context {A : Type} (key : A -> Id).

Lemma set_mem_true (x : A) (s : list A) :
  set_mem key x s = true <-> In (key x) (map key s).
Proof.
  unfold set_mem. rewrite existsb_exists, in_map_iff. split.
  - intros [y [Hy E]]. apply id_eqb_eq in E. eauto.
  - intros [y [E Hy]]. exists y. split; [assumption|].
    apply id_eqb_eq. assumption.
Qed.

Lemma set_mem_false (x : A) (s : list A) :
  set_mem key x s = false <-> ~ In (key x) (map key s).
Proof.
  rewrite <- set_mem_true. destruct (set_mem key x s); split; intros;
    congruence.
Qed.

Lemma set_mem_add (x : A) (s : list A) :
  set_mem key x (set_add key x s) = true.
Proof.
  unfold set_add. destruct (set_mem key x s) eqn:E; [assumption|].
  apply set_mem_true. rewrite map_app, in_app_iff. right. simpl. auto.
Qed.

Lemma set_add_is_set (x : A) (s : list A) :
  is_set key s -> is_set key (set_add key x s).
Proof.
  unfold is_set, set_add. intros H.
  destruct (set_mem key x s) eqn:E; [assumption|].
  apply set_mem_false in E. rewrite map_app. simpl.
  apply NoDup_app; [assumption|repeat constructor; simpl; tauto|].
  intros k Hk [<-|[]]. contradiction.
Qed.

Lemma set_add_incl (x y : A) (s : list A) :
  In y (set_add key x s) -> In y s \/ y = x.
Proof.
  unfold set_add. destruct (set_mem key x s); [tauto|].
  rewrite in_app_iff. simpl. intuition.
Qed.

(** [set(l)] is built by [add], starting from the members [s]. *)
Lemma build_is_set (l s : list A) :
  is_set key s -> is_set key (fold_left (fun s x => set_add key x s) l s).
Proof.
  revert s. induction l as [|x l IH]; intros s H; simpl; [assumption|].
  apply IH, set_add_is_set, H.
Qed.

Lemma build_incl (l s : list A) (y : A) :
  In y (fold_left (fun s x => set_add key x s) l s) -> In y s \/ In y l.
Proof.
  revert s. induction l as [|x l IH]; intros s H; simpl in *; [tauto|].
  apply IH in H as [H|H]; [|tauto].
  apply set_add_incl in H. intuition.
Qed.

Lemma set_of_list_is_set (l : list A) : is_set key (set_of_list key l).
Proof. apply build_is_set. constructor. Qed.

Lemma set_of_list_incl (l : list A) (y : A) :
  In y (set_of_list key l) -> In y l.
Proof. intros H. apply build_incl in H as [[]|H]. assumption. Qed.

Lemma set_of_list_snoc (l : list A) (x : A) :
  set_of_list key (l ++ [x]) = set_add key x (set_of_list key l).
Proof. unfold set_of_list. rewrite fold_left_app. reflexivity. Qed.

(** The member a set holds under an identifier is the first entity the
    list it was built from holds under it. *)
Lemma py_next_build (i : Id) (l s : list A) :
  py_next (fun y => id_eqb (key y) i)
    (fold_left (fun s x => set_add key x s) l s)
  = match py_next (fun y => id_eqb (key y) i) s with
    | Some y => Some y
    | None => py_next (fun y => id_eqb (key y) i) l
    end.
Proof.
  revert s. induction l as [|x l IH]; intros s; simpl.
  - destruct (py_next _ s); reflexivity.
  - rewrite IH. unfold set_add.
    destruct (py_next (fun y => id_eqb (key y) i) s) eqn:Es.
    + destruct (set_mem key x s); [rewrite Es; reflexivity|].
      rewrite py_next_app, Es. reflexivity.
    + destruct (id_eqb (key x) i) eqn:Ex.
      * apply id_eqb_eq in Ex. subst i.
        assert (Hm : set_mem key x s = false).
        { unfold set_mem. destruct (existsb _ s) eqn:F; [|reflexivity].
          apply existsb_exists in F as [y [Hy Ey]].
          rewrite py_next_none in Es. rewrite (Es y Hy) in Ey. discriminate. }
        rewrite Hm, py_next_app, Es. simpl. rewrite id_eqb_refl. reflexivity.
      * destruct (set_mem key x s); [rewrite Es; reflexivity|].
        rewrite py_next_app, Es. simpl. rewrite Ex. reflexivity.
Qed.

Lemma py_next_set_of_list (i : Id) (l : list A) :
  py_next (fun y => id_eqb (key y) i) (set_of_list key l)
  = py_next (fun y => id_eqb (key y) i) l.
Proof. unfold set_of_list. rewrite py_next_build. reflexivity. Qed.

(** A set holds one member at most under each identifier. *)
Lemma py_next_unique (s : list A) (x : A) :
  is_set key s -> In x s ->
  py_next (fun y => id_eqb (key y) (key x)) s = Some x.
Proof.
  unfold is_set. induction s as [|a s IH]; simpl; intros Hs Hx; [contradiction|].
  inversion Hs as [|? ? Ha Hs']; subst.
  destruct Hx as [->|Hx].
  - rewrite id_eqb_refl. reflexivity.
  - destruct (id_eqb (key a) (key x)) eqn:E; [|auto].
    apply id_eqb_eq in E. exfalso. apply Ha. rewrite E.
    apply in_map. assumption.
Qed.

Lemma set_remove_absent (x : A) (s r : list A) :
  is_set key s -> set_remove key x s = Some r -> set_mem key x r = false.
Proof.
  unfold is_set. revert r. induction s as [|a s IH]; simpl; intros r Hs H;
    [discriminate|].
  inversion Hs as [|? ? Ha Hs']; subst.
  destruct (id_eqb (key a) (key x)) eqn:E.
  - injection H as <-. apply id_eqb_eq in E. apply set_mem_false.
    rewrite <- E. assumption.
  - destruct (set_remove key x s) as [r'|] eqn:Er; [|discriminate].
    injection H as <-. unfold set_mem. simpl. rewrite E. simpl.
    apply (IH r' Hs' eq_refl).
Qed.

Lemma set_remove_present (x : A) (s : list A) :
  set_mem key x s = true -> exists r, set_remove key x s = Some r.
Proof.
  unfold set_mem. induction s as [|a s IH]; simpl; [discriminate|].
  destruct (id_eqb (key a) (key x)); simpl; [eauto|].
  intros H. destruct (IH H) as [r ->]. eauto.
Qed.
End PySetFacts.

(** ** The monad *)

Lemma bind_inv {A B} (m : M A) (k : A -> M B) (st st' : State) (o : Outcome B) :
  bind m k st = (o, st') ->
  (exists e, m st = (Raise e, st') /\ o = Raise e)
  \/ (exists a st1, m st = (Ok a, st1) /\ k a st1 = (o, st')).
Proof.
  unfold bind. destruct (m st) as [[a|e] st1]; intros H.
  - right. eauto.
  - left. injection H as <- <-. eauto.
Qed.

Lemma bind_ok {A B} (m : M A) (k : A -> M B) (st st1 : State) (a : A) :
  m st = (Ok a, st1) -> bind m k st = k a st1.
Proof. unfold bind. intros ->. reflexivity. Qed.


(** Splits a hypothesis [H] on a run of [bind m k]: either [m] raised
    ([Hm], [Ho]), or [m] returned ([Hm]) and [H] becomes the run of [k]. *)
Ltac inv_bind H :=
  let e := fresh "e" in
  let a := fresh "a" in
  let s := fresh "st" in
  let H1 := fresh "Hm" in
  let H2 := fresh "Ho" in
  apply bind_inv in H;
  destruct H as [(e & H1 & H2) | (a & s & H1 & H)].

(** The same, naming the value [m] returned and the state it reached. *)
Tactic Notation "inv_bind_as" hyp(H) ident(a) ident(s) :=
  let e := fresh "e" in
  let H1 := fresh "Hm" in
  let H2 := fresh "Ho" in
  apply bind_inv in H;
  destruct H as [(e & H1 & H2) | (a & s & H1 & H)].

(** ** Runs that only read the server *)

Lemma trace_nil (P : Request -> Prop) (l0 : list Request) :
  exists l, l0 = l ++ l0 /\ Forall P l.
Proof. exists []. split; [reflexivity|constructor]. Qed.

Lemma trace_cons (P : Request -> Prop) (l0 l1 : list Request) (r : Request) :
  P r -> (exists l, l1 = l ++ l0 /\ Forall P l) ->
  exists l, r :: l1 = l ++ l0 /\ Forall P l.
Proof.
  intros Hr (l & -> & Hl). exists (r :: l). split; [reflexivity|].
  constructor; assumption.
Qed.

Lemma trace_app (P : Request -> Prop) (l0 l1 l2 : list Request) :
  (exists l, l1 = l ++ l0 /\ Forall P l) ->
  (exists l, l2 = l ++ l1 /\ Forall P l) ->
  exists l, l2 = l ++ l0 /\ Forall P l.
Proof.
  intros (a & -> & Ha) (b & -> & Hb). exists (b ++ a).
  split; [apply app_assoc|]. apply Forall_app. split; assumption.
Qed.

Lemma quiet_refl (st : State) : quiet st st.
Proof. constructor; auto. apply trace_nil. Qed.

Lemma quiet_trans (st0 st1 st2 : State) :
  quiet st0 st1 -> quiet st1 st2 -> quiet st0 st2.
Proof.
  intros [S1 F1 L1 I1 N1 A1 B1 C1 D1] [S2 F2 L2 I2 N2 A2 B2 C2 D2].
  rewrite S1 in A2, B2, C2, D2.
  constructor; try congruence.
  - eapply trace_app; eassumption.
  - destruct A2 as [->| ->]; auto.
  - destruct B2 as [->| ->]; auto.
  - destruct C2 as [->| ->]; auto.
  - destruct D2 as [->| ->]; auto.
Qed.

Lemma quiet_healthy (st st' : State) : quiet st st' -> healthy st -> healthy st'.
Proof. intros Q H n. rewrite (q_fails _ _ Q). apply H. Qed.

Lemma quiet_synced (st st' : State) : quiet st st' -> synced st -> synced st'.
Proof.
  intros [S _ _ _ _ A B C D] (HA & HB & HC & HD). unfold synced. rewrite S.
  repeat split.
  - destruct A as [->| ->]; auto.
  - destruct B as [->| ->]; auto.
  - destruct C as [->| ->]; auto.
  - destruct D as [->| ->]; auto.
Qed.

Lemma quiet_only_gets (st st' : State) : quiet st st' -> only_gets st st'.
Proof. intros Q. exact (q_log _ _ Q). Qed.

Lemma only_gets_no_other (st st' : State) (r : Request) :
  only_gets st st' -> In r (log st') -> In r (log st) \/ is_get r = true.
Proof.
  intros (l & -> & Hl) Hr. apply in_app_iff in Hr as [Hr|Hr]; [|auto].
  right. rewrite Forall_forall in Hl. auto.
Qed.

(** ** The transport *)

Lemma http_call_inv (r : Request) (st st' : State) (o : Outcome unit) :
  http_call r st = (o, st') ->
  st' = with_log (r :: log st) st /\ (o = Ok tt \/ o = Raise TransportError).
Proof.
  unfold http_call. destruct (fails st _); intros [= <- <-]; auto.
Qed.

Lemma http_call_healthy (r : Request) (st : State) :
  healthy st -> http_call r st = (Ok tt, with_log (r :: log st) st).
Proof. intros H. unfold http_call. rewrite H. reflexivity. Qed.

Lemma quiet_get (r : Request) (st : State) :
  is_get r = true -> quiet st (with_log (r :: log st) st).
Proof.
  intros Hr. constructor; simpl; auto.
  apply trace_cons; [assumption|apply trace_nil].
Qed.

(** A listing request: the server is read and nothing else happens. *)
Lemma listing_inv {A} (res : Resource) (f : State -> A)
    (st st' : State) (o : Outcome A) :
  bind (http_call (Req GET res)) (fun _ => gets f) st = (o, st') ->
  st' = with_log (Req GET res :: log st) st
  /\ (o = Ok (f st') \/ o = Raise TransportError).
Proof.
  intros H. inv_bind H.
  - apply http_call_inv in Hm as [-> [?|?]]; [congruence|].
    split; [reflexivity|right; congruence].
  - apply http_call_inv in Hm as [-> _]. unfold gets in H.
    injection H as <- <-. auto.
Qed.

Lemma listing_healthy {A} (res : Resource) (f : State -> A) (st : State) :
  healthy st ->
  bind (http_call (Req GET res)) (fun _ => gets f) st
  = (Ok (f (with_log (Req GET res :: log st) st)),
     with_log (Req GET res :: log st) st).
Proof.
  intros H. erewrite bind_ok by (apply http_call_healthy, H). reflexivity.
Qed.

Lemma remote_create_inv {A} (r : Resource) (assign : Server.t -> A)
    (store : A -> Server.t -> Server.t) (st st' : State) (o : Outcome A) :
  remote_create r assign store st = (o, st') ->
  (o = Raise TransportError /\ st' = with_log (Req POST r :: log st) st)
  \/ (o = Ok (assign (server st))
      /\ st' = with_server (store (assign (server st)) (server st))
                (with_log (Req POST r :: log st) st)).
Proof.
  unfold remote_create. intros H. inv_bind_as H u s0.
  - apply http_call_inv in Hm as [-> [?|?]]; [congruence|].
    left. split; congruence.
  - apply http_call_inv in Hm as [-> _].
    unfold bind, gets, on_server, modify, ret in H.
    injection H as <- <-. right. split; reflexivity.
Qed.

(** ** [refresh_project] *)

Ltac quiet_tac :=
  constructor; simpl; auto;
  repeat (apply trace_cons; [reflexivity|]); apply trace_nil.

(** One stage of the refresh: a listing is fetched and replaces a set. *)
Lemma refresh_stage_inv {A} (res : Resource) (f : State -> list A)
    (g : list A -> Project.t -> Project.t) (st st' : State) (o : Outcome unit) :
  bind (bind (http_call (Req GET res)) (fun _ => gets f))
       (fun l => on_project (g l)) st = (o, st') ->
  (o = Raise TransportError /\ st' = with_log (Req GET res :: log st) st)
  \/ (o = Ok tt
      /\ st' = with_project
                (g (f (with_log (Req GET res :: log st) st)) (project st))
                (with_log (Req GET res :: log st) st)).
Proof.
  intros H. inv_bind H.
  - apply listing_inv in Hm as [-> [?|?]]; [congruence|].
    left. split; congruence.
  - apply listing_inv in Hm as [-> [E|?]]; [|congruence].
    injection E as ->. unfold on_project, modify in H.
    injection H as <- <-. right. split; reflexivity.
Qed.

Lemma refresh_project_inv (st st' : State) (o : Outcome unit) :
  refresh_project true true true true st = (o, st') ->
  quiet st st'
  /\ ((o = Ok tt /\ st' = refreshed st) \/ o = Raise TransportError).
Proof.
  unfold refresh_project, when, get_snapshots, get_drawings, get_nodes,
    get_links.
  intros H.
  do 3 (inv_bind H;
        [apply refresh_stage_inv in Hm as [[E ->]|[E ->]];
         [subst; split; [quiet_tac|auto]|congruence]|];
        apply refresh_stage_inv in Hm as [[E ->]|[_ ->]]; [congruence|]).
  apply refresh_stage_inv in H as [[E ->]|[E ->]];
    subst; (split; [quiet_tac|auto]).
Qed.

Lemma healthy_with_log (l : list Request) (st : State) :
  healthy st -> healthy (with_log l st).
Proof. intros H n. apply H. Qed.

Lemma healthy_with_project (p : Project.t) (st : State) :
  healthy st -> healthy (with_project p st).
Proof. intros H n. apply H. Qed.

Lemma healthy_with_server (s : Server.t) (st : State) :
  healthy st -> healthy (with_server s st).
Proof. intros H n. apply H. Qed.

#[local] Hint Resolve healthy_with_log healthy_with_project
  healthy_with_server : core.

Lemma refresh_stage_healthy {A} (res : Resource) (f : State -> list A)
    (g : list A -> Project.t -> Project.t) (st : State) :
  healthy st ->
  bind (bind (http_call (Req GET res)) (fun _ => gets f))
       (fun l => on_project (g l)) st
  = (Ok tt,
     with_project (g (f (with_log (Req GET res :: log st) st)) (project st))
       (with_log (Req GET res :: log st) st)).
Proof.
  intros H. erewrite bind_ok by (apply listing_healthy, H). reflexivity.
Qed.

Lemma refresh_project_healthy (st : State) :
  healthy st -> refresh_project true true true true st = (Ok tt, refreshed st).
Proof.
  intros H.
  unfold refresh_project, when, get_snapshots, get_drawings, get_nodes,
    get_links.
  do 3 (erewrite bind_ok by (apply refresh_stage_healthy; auto)).
  rewrite refresh_stage_healthy by auto. reflexivity.
Qed.

Lemma refreshed_synced (st : State) : synced (refreshed st).
Proof. repeat split. Qed.

Lemma refreshed_server (st : State) : server (refreshed st) = server st.
Proof. reflexivity. Qed.

Lemma refreshed_healthy (st : State) : healthy st -> healthy (refreshed st).
Proof. intros H n. apply H. Qed.

(** ** The link matcher *)

Lemma link_matches_sym (l : Link.t) (a : Node.t) (pa : Port.t)
    (b : Node.t) (pb : Port.t) :
  link_matches l a pa b pb = link_matches l b pb a pa.
Proof.
  unfold link_matches, and_then, side_is, nodes_at.
  destruct (Link.nodes l) as [|p0 [|p1 r]]; simpl; [reflexivity| |].
  - destruct (id_eqb (Port.node_id p0) (Node.node_id a)
              && Z.eqb (Port.adapter_number p0) (Port.adapter_number pa)
              && Z.eqb (Port.port_number p0) (Port.port_number pa));
    destruct (id_eqb (Port.node_id p0) (Node.node_id b)
              && Z.eqb (Port.adapter_number p0) (Port.adapter_number pb)
              && Z.eqb (Port.port_number p0) (Port.port_number pb));
    reflexivity.
  - destruct (id_eqb (Port.node_id p0) (Node.node_id a)
              && Z.eqb (Port.adapter_number p0) (Port.adapter_number pa)
              && Z.eqb (Port.port_number p0) (Port.port_number pa));
    destruct (id_eqb (Port.node_id p0) (Node.node_id b)
              && Z.eqb (Port.adapter_number p0) (Port.adapter_number pb)
              && Z.eqb (Port.port_number p0) (Port.port_number pb));
    destruct (id_eqb (Port.node_id p1) (Node.node_id a)
              && Z.eqb (Port.adapter_number p1) (Port.adapter_number pa)
              && Z.eqb (Port.port_number p1) (Port.port_number pa));
    destruct (id_eqb (Port.node_id p1) (Node.node_id b)
              && Z.eqb (Port.adapter_number p1) (Port.adapter_number pb)
              && Z.eqb (Port.port_number p1) (Port.port_number pb));
    reflexivity.
Qed.

Lemma _search_link_loop_sym (links : list Link.t) (a : Node.t) (pa : Port.t)
    (b : Node.t) (pb : Port.t) (acc : list Link.t) :
  _search_link_loop links a pa b pb acc = _search_link_loop links b pb a pa acc.
Proof.
  revert acc. induction links as [|l links IH]; intros acc; simpl;
    [reflexivity|].
  rewrite (link_matches_sym l a pa b pb).
  destruct (link_matches l b pb a pa) as [[|]|e]; auto.
Qed.

(** C3.  Link matching is symmetric in its two endpoints: [_search_link]
    gives the same result, be it a link, absence or an exception, when
    the two endpoints are exchanged. *)
Theorem search_link_symmetric (project : Project.t)
    (node_a : Node.t) (port_a : Port.t) (node_b : Node.t) (port_b : Port.t) :
  _search_link project node_a port_a node_b port_b
  = _search_link project node_b port_b node_a port_a.
Proof.
  unfold _search_link. rewrite _search_link_loop_sym. reflexivity.
Qed.

Lemma link_matches_connects (l : Link.t) (a : Node.t) (pa : Port.t)
    (b : Node.t) (pb : Port.t) :
  two_sided l ->
  link_matches l a pa b pb = Ok (connects l (endpoint a pa) (endpoint b pb)).
Proof.
  unfold two_sided, link_matches, connects, and_then, side_is, nodes_at,
    same_port, endpoint.
  destruct (Link.nodes l) as [|p0 [|p1 r]]; simpl; intros H;
    [reflexivity|congruence|].
  destruct (id_eqb (Port.node_id p0) (Node.node_id a)
            && Z.eqb (Port.adapter_number p0) (Port.adapter_number pa)
            && Z.eqb (Port.port_number p0) (Port.port_number pa));
  destruct (id_eqb (Port.node_id p1) (Node.node_id b)
            && Z.eqb (Port.adapter_number p1) (Port.adapter_number pb)
            && Z.eqb (Port.port_number p1) (Port.port_number pb));
  destruct (id_eqb (Port.node_id p1) (Node.node_id a)
            && Z.eqb (Port.adapter_number p1) (Port.adapter_number pa)
            && Z.eqb (Port.port_number p1) (Port.port_number pa));
  reflexivity.
Qed.

Lemma _search_link_loop_filter (links : list Link.t) (a : Node.t) (pa : Port.t)
    (b : Node.t) (pb : Port.t) (acc : list Link.t) :
  Forall two_sided links ->
  _search_link_loop links a pa b pb acc
  = Ok (acc ++ filter (fun l => connects l (endpoint a pa) (endpoint b pb))
                  links).
Proof.
  revert acc. induction links as [|l links IH]; intros acc H; simpl.
  - rewrite app_nil_r. reflexivity.
  - inversion H as [|? ? Hl Hr]; subst.
    rewrite (link_matches_connects l a pa b pb Hl).
    destruct (connects l (endpoint a pa) (endpoint b pb)).
    + rewrite (IH _ Hr), <- app_assoc. reflexivity.
    + apply IH, Hr.
Qed.

Lemma hd_error_filter {A} (f : A -> bool) (l : list A) :
  hd_error (filter f l) = py_next f l.
Proof.
  induction l as [|x l IH]; simpl; [reflexivity|].
  destruct (f x); [reflexivity|assumption].
Qed.

(** On links that have their two endpoints, [_search_link] returns the
    first link of the set that connects the two ports. *)
Lemma _search_link_two_sided (p : Project.t) (a : Node.t) (pa : Port.t)
    (b : Node.t) (pb : Port.t) :
  Forall two_sided (Project.links p) ->
  _search_link p a pa b pb
  = Ok (py_next (fun l => connects l (endpoint a pa) (endpoint b pb))
          (Project.links p)).
Proof.
  intros H. unfold _search_link.
  rewrite (_search_link_loop_filter _ a pa b pb [] H). simpl.
  rewrite hd_error_filter. reflexivity.
Qed.

(** ** Resolving nodes and ports *)

Lemma search_node_healthy (name : string) (node_id : option string)
    (st : State) :
  healthy st ->
  search_node (Some name) node_id st
  = (Ok (py_next (fun n => String.eqb (Node.name n) name)
           (set_of_list Node.node_id (Server.nodes (server st)))),
     refreshed st).
Proof.
  intros H. unfold search_node.
  erewrite bind_ok by (apply refresh_project_healthy, H). reflexivity.
Qed.

Lemma search_node_inv (name node_id : option string)
    (st st' : State) (o : Outcome (option Node.t)) :
  search_node name node_id st = (o, st') ->
  quiet st st'
  /\ (forall r, o = Ok r ->
      synced st'
      /\ forall n, r = Some n ->
           set_mem Node.node_id n (Project.nodes (project st')) = true).
Proof.
  unfold search_node. intros H. inv_bind H.
  { apply refresh_project_inv in Hm as [Q _]. subst. split; [assumption|].
    discriminate. }
  apply refresh_project_inv in Hm as [Q [[_ ->]|?]]; [|congruence].
  destruct name as [name|]; [|destruct node_id as [node_id|]].
  - inv_bind H; [unfold gets in Hm; congruence|].
    unfold gets in Hm. injection Hm as <- <-.
    unfold ret in H. injection H as <- <-.
    split; [assumption|]. intros r [= <-].
    split; [apply refreshed_synced|]. intros n Hn.
    apply py_next_in in Hn as [Hn _].
    apply (set_mem_true Node.node_id). apply in_map. exact Hn.
  - unfold get_nodes in H. inv_bind H.
    + apply listing_inv in Hm as [-> _]. subst.
      split; [|discriminate].
      eapply quiet_trans; [exact Q|apply quiet_get; reflexivity].
    + apply listing_inv in Hm as [-> [E|?]]; [|congruence].
      injection E as ->. unfold ret in H. injection H as <- <-.
      split; [eapply quiet_trans; [exact Q|apply quiet_get; reflexivity]|].
      intros r [= <-]. split; [apply refreshed_synced|].
      intros n Hn. simpl in Hn. simpl.
      apply py_next_in in Hn as [Hn Hid]. apply id_eqb_eq in Hid.
      destruct (py_next (fun y => id_eqb (Node.node_id y) (Node.node_id n))
                  (set_of_list Node.node_id (Server.nodes (server st))))
        as [m|] eqn:Em.
      * apply py_next_in in Em as [Hm Hk]. apply id_eqb_eq in Hk.
        apply (set_mem_true Node.node_id). rewrite <- Hk.
        apply in_map. exact Hm.
      * rewrite py_next_set_of_list in Em. rewrite py_next_none in Em.
        specialize (Em n Hn). rewrite id_eqb_refl in Em. discriminate.
  - unfold raise in H. injection H as <- <-. split; [assumption|discriminate].
Qed.

(** Writing back what the server holds under an identifier changes nothing
    in a node set that was just built from the server's listing. *)
Lemma write_back_synced (i : Id) (m : Node.t) (l : list Node.t) :
  py_next (fun y => id_eqb (Node.node_id y) i) l = Some m ->
  map (fun o => if id_eqb (Node.node_id o) i then m else o)
      (set_of_list Node.node_id l)
  = set_of_list Node.node_id l.
Proof.
  intros Hm. rewrite <- (map_id (set_of_list Node.node_id l)) at 2.
  apply map_ext_in. intros o Ho.
  destruct (id_eqb (Node.node_id o) i) eqn:E; [|reflexivity].
  apply id_eqb_eq in E. subst i.
  rewrite <- (py_next_set_of_list Node.node_id) in Hm.
  rewrite (py_next_unique Node.node_id _ o) in Hm;
    [congruence|apply set_of_list_is_set|assumption].
Qed.

Lemma Node_get_inv (n : Node.t) (st st' : State) (o : Outcome Node.t) :
  Project.nodes (project st)
    = set_of_list Node.node_id (Server.nodes (server st)) ->
  Node_get n st = (o, st') ->
  st' = with_log (Req GET (NodeR (Node.node_id n)) :: log st) st
  /\ (o = Raise TransportError
      \/ exists m, o = Ok m
           /\ py_next (fun y => id_eqb (Node.node_id y) (Node.node_id n))
                (Server.nodes (server st)) = Some m).
Proof.
  intros Hs H. unfold Node_get in H. inv_bind H.
  { apply http_call_inv in Hm as [-> [?|?]]; [congruence|].
    split; [reflexivity|left; congruence]. }
  apply http_call_inv in Hm as [-> _].
  inv_bind H; [unfold gets in Hm; congruence|].
  unfold gets in Hm. injection Hm as <- <-. simpl in H.
  destruct (py_next _ (Server.nodes (server st))) as [m|] eqn:Em.
  - inv_bind H; [unfold on_project, modify in Hm; congruence|].
    unfold on_project, modify in Hm. injection Hm as _ <-.
    unfold ret in H. injection H as <- <-. split; [|right; eauto].
    simpl. rewrite Hs, (write_back_synced _ m _ Em), <- Hs.
    destruct st as [[] ? ? ?]. reflexivity.
  - unfold raise in H. injection H as <- <-. auto.
Qed.

Lemma Node_get_healthy (n : Node.t) (st : State) :
  healthy st ->
  Project.nodes (project st)
    = set_of_list Node.node_id (Server.nodes (server st)) ->
  In n (Project.nodes (project st)) ->
  Node_get n st
  = (Ok n, with_log (Req GET (NodeR (Node.node_id n)) :: log st) st).
Proof.
  intros H Hs Hn.
  assert (Em : py_next (fun y => id_eqb (Node.node_id y) (Node.node_id n))
                 (Server.nodes (server st)) = Some n).
  { rewrite <- (py_next_set_of_list Node.node_id), <- Hs.
    apply py_next_unique; [|assumption].
    rewrite Hs. apply set_of_list_is_set. }
  destruct (Node_get n st) as [o st'] eqn:E.
  pose proof (Node_get_inv _ _ _ _ Hs E) as [-> [->|[m [-> Hm]]]].
  - exfalso. revert E. unfold Node_get.
    erewrite bind_ok by (apply http_call_healthy, H).
    unfold bind, gets. simpl. rewrite Em.
    unfold on_project, modify, ret. discriminate.
  - congruence.
Qed.

Lemma search_port_inv (n : Node.t) (name : string)
    (st st' : State) (o : Outcome (option Port.t)) :
  Project.nodes (project st)
    = set_of_list Node.node_id (Server.nodes (server st)) ->
  search_port n name st = (o, st') ->
  st' = with_log (Req GET (NodeR (Node.node_id n)) :: log st) st
  /\ (o = Raise TransportError \/ exists r, o = Ok r).
Proof.
  intros Hs H. unfold search_port in H. inv_bind H.
  - apply (Node_get_inv _ _ _ _ Hs) in Hm as [-> [?|[m [? _]]]];
      [|congruence]. split; [reflexivity|left; congruence].
  - apply (Node_get_inv _ _ _ _ Hs) in Hm as [-> _].
    unfold ret in H. injection H as <- <-. eauto.
Qed.

Lemma search_port_healthy (n : Node.t) (name : string) (st : State) :
  healthy st ->
  Project.nodes (project st)
    = set_of_list Node.node_id (Server.nodes (server st)) ->
  In n (Project.nodes (project st)) ->
  search_port n name st
  = (Ok (py_next (port_named name) (Node.ports n)),
     with_log (Req GET (NodeR (Node.node_id n)) :: log st) st).
Proof.
  intros H Hs Hn. unfold search_port.
  erewrite bind_ok by (apply Node_get_healthy; assumption). reflexivity.
Qed.

Lemma _link_nodes_and_ports_inv (node_a port_a node_b port_b : string)
    (st st' : State) (o : Outcome (Node.t * Port.t * Node.t * Port.t)) :
  _link_nodes_and_ports node_a port_a node_b port_b st = (o, st') ->
  quiet st st'
  /\ (forall r, o = Ok r -> synced st')
  /\ (forall e, o = Raise e ->
      e = TransportError \/ exists w, e = ValueError (NotFound w)).
Proof.
  unfold _link_nodes_and_ports. intros H.
  inv_bind H.
  { pose proof Hm as Hm'. apply search_node_inv in Hm as [Q _]. subst.
    split; [assumption|]. split; [discriminate|].
    intros e' [= <-]. left.
    unfold search_node in Hm'. inv_bind Hm'.
    - apply refresh_project_inv in Hm as [_ [[? _]|?]]; congruence.
    - inv_bind Hm'; unfold gets, ret in *; congruence. }
  apply search_node_inv in Hm as [Q1 S1].
  destruct a as [na|];
    [|unfold raise in H; injection H as <- <-;
      split; [assumption|split; [discriminate|intros ? [= <-]; eauto]]].
  destruct (S1 _ eq_refl) as [S1' _]. clear S1.
  inv_bind H.
  { apply search_port_inv in Hm as [-> [?|[? ?]]];
      [|congruence|apply S1']. subst.
    split; [eapply quiet_trans; [exact Q1|apply quiet_get; reflexivity]|].
    split; [discriminate|]. intros ? [= <-]. injection H as <-. auto. }
  apply search_port_inv in Hm as [-> _]; [|apply S1'].
  assert (Q2 : quiet st (with_log (Req GET (NodeR (Node.node_id na)) :: log st0) st0))
    by (eapply quiet_trans; [exact Q1|apply quiet_get; reflexivity]).
  destruct a as [ppa|];
    [|unfold raise in H; injection H as <- <-;
      split; [assumption|split; [discriminate|intros ? [= <-]; eauto]]].
  inv_bind H.
  { pose proof Hm as Hm'. apply search_node_inv in Hm as [Q _]. subst.
    split; [eapply quiet_trans; eassumption|]. split; [discriminate|].
    intros e' [= <-]. left.
    unfold search_node in Hm'. inv_bind Hm'.
    - apply refresh_project_inv in Hm as [_ [[? _]|?]]; congruence.
    - inv_bind Hm'; unfold gets, ret in *; congruence. }
  apply search_node_inv in Hm as [Q3 S3].
  assert (Q4 : quiet st st1) by (eapply quiet_trans; eassumption).
  destruct a as [nb|];
    [|unfold raise in H; injection H as <- <-;
      split; [assumption|split; [discriminate|intros ? [= <-]; eauto]]].
  destruct (S3 _ eq_refl) as [S3' _]. clear S3.
  inv_bind H.
  { apply search_port_inv in Hm as [-> [?|[? ?]]];
      [|congruence|apply S3']. subst.
    split; [eapply quiet_trans; [exact Q4|apply quiet_get; reflexivity]|].
    split; [discriminate|]. intros ? [= <-]. injection H as <-. auto. }
  apply search_port_inv in Hm as [-> _]; [|apply S3'].
  assert (Q5 : quiet st1 (with_log (Req GET (NodeR (Node.node_id nb)) :: log st1) st1))
    by (apply quiet_get; reflexivity).
  destruct a as [ppb|];
    [|unfold raise in H; injection H as <- <-;
      split; [eapply quiet_trans; eassumption
             |split; [discriminate|intros ? [= <-]; eauto]]].
  unfold ret in H. injection H as <- <-.
  split; [eapply quiet_trans; eassumption|].
  split; [|discriminate]. intros _ _.
  eapply quiet_synced; eassumption.
Qed.

Lemma resolve_inv (srv : Server.t) (node port : string)
    (n : Node.t) (p : Port.t) :
  resolve srv node port = Some (n, p) ->
  py_next (fun x => String.eqb (Node.name x) node)
    (set_of_list Node.node_id (Server.nodes srv)) = Some n
  /\ py_next (port_named port) (Node.ports n) = Some p.
Proof.
  unfold resolve.
  destruct (py_next _ (set_of_list _ _)) as [m|]; [|discriminate].
  destruct (py_next _ (Node.ports m)) as [q|] eqn:E; [|discriminate].
  intros [= <- <-]. auto.
Qed.

(** With a transport that does not fail, names that resolve are resolved,
    and the project is left in step with the server. *)
Lemma _link_nodes_and_ports_healthy (node_a port_a node_b port_b : string)
    (st : State) (na nb : Node.t) (pa pb : Port.t) :
  healthy st ->
  resolve (server st) node_a port_a = Some (na, pa) ->
  resolve (server st) node_b port_b = Some (nb, pb) ->
  exists st',
    _link_nodes_and_ports node_a port_a node_b port_b st
    = (Ok (na, pa, nb, pb), st')
    /\ quiet st st' /\ synced st' /\ healthy st'.
Proof.
  intros H Ha Hb.
  apply resolve_inv in Ha as [Hna Hpa]. apply resolve_inv in Hb as [Hnb Hpb].
  destruct (_link_nodes_and_ports node_a port_a node_b port_b st)
    as [o st'] eqn:E.
  pose proof (_link_nodes_and_ports_inv _ _ _ _ _ _ _ E) as (Q & S & _).
  exists st'. revert E S. unfold _link_nodes_and_ports.
  erewrite bind_ok by (apply search_node_healthy, H). rewrite Hna.
  erewrite bind_ok
    by (apply search_port_healthy;
        [apply refreshed_healthy, H|reflexivity
        |apply py_next_in in Hna; apply Hna]).
  rewrite Hpa.
  erewrite bind_ok by (apply search_node_healthy; auto using refreshed_healthy).
  cbn [server with_log refreshed]. rewrite Hnb.
  erewrite bind_ok
    by (apply search_port_healthy;
        [auto using refreshed_healthy|reflexivity
        |apply py_next_in in Hnb; apply Hnb]).
  rewrite Hpb. unfold ret. intros [= <- <-] S.
  split; [reflexivity|]. split; [assumption|]. split; [eauto|].
  eapply quiet_healthy; eassumption.
Qed.

Lemma search_node_name_inv (name : string) (node_id : option string)
    (st st' : State) (r : option Node.t) :
  search_node (Some name) node_id st = (Ok r, st') ->
  st' = refreshed st
  /\ r = py_next (fun n => String.eqb (Node.name n) name)
           (set_of_list Node.node_id (Server.nodes (server st))).
Proof.
  unfold search_node. intros H. inv_bind H; [congruence|].
  apply refresh_project_inv in Hm as [_ [[_ ->]|?]]; [|congruence].
  unfold bind, gets, ret in H. injection H as <- <-. auto.
Qed.

Lemma search_port_ok_inv (n : Node.t) (name : string)
    (st st' : State) (r : option Port.t) :
  Project.nodes (project st)
    = set_of_list Node.node_id (Server.nodes (server st)) ->
  In n (Project.nodes (project st)) ->
  search_port n name st = (Ok r, st') ->
  r = py_next (port_named name) (Node.ports n).
Proof.
  intros Hs Hn H. unfold search_port in H. inv_bind H; [congruence|].
  apply (Node_get_inv _ _ _ _ Hs) in Hm as [-> [?|[m [E Hm]]]]; [congruence|].
  injection E as ->. unfold ret in H. injection H as <- _.
  rewrite <- (py_next_set_of_list Node.node_id), <- Hs in Hm.
  rewrite (py_next_unique Node.node_id _ n) in Hm;
    [|rewrite Hs; apply set_of_list_is_set|assumption].
  congruence.
Qed.

(** What [_link_nodes_and_ports] returns is what the names stand for on
    the server. *)
Lemma _link_nodes_and_ports_ok_inv (node_a port_a node_b port_b : string)
    (st st' : State) (na nb : Node.t) (pa pb : Port.t) :
  _link_nodes_and_ports node_a port_a node_b port_b st
  = (Ok (na, pa, nb, pb), st') ->
  resolve (server st) node_a port_a = Some (na, pa)
  /\ resolve (server st) node_b port_b = Some (nb, pb).
Proof.
  unfold _link_nodes_and_ports. intros H.
  inv_bind H; [congruence|].
  apply search_node_name_inv in Hm as [-> ->].
  destruct (py_next _ (set_of_list _ _)) as [n1|] eqn:E1;
    [|unfold raise in H; congruence].
  inv_bind H; [congruence|].
  pose proof Hm as Hm'.
  apply search_port_inv in Hm' as [-> _]; [|reflexivity].
  apply search_port_ok_inv in Hm;
    [|reflexivity|apply py_next_in in E1; apply E1].
  subst.
  destruct (py_next (port_named port_a) (Node.ports n1)) as [p1|] eqn:F1;
    [|unfold raise in H; congruence].
  inv_bind H; [congruence|].
  apply search_node_name_inv in Hm as [-> ->].
  cbn [server with_log refreshed] in H.
  destruct (py_next (fun n => String.eqb (Node.name n) node_b)
              (set_of_list Node.node_id (Server.nodes (server st))))
    as [n2|] eqn:E2; [|unfold raise in H; congruence].
  inv_bind H; [congruence|].
  apply search_port_ok_inv in Hm;
    [|reflexivity|apply py_next_in in E2; apply E2].
  subst.
  destruct (py_next (port_named port_b) (Node.ports n2)) as [p2|] eqn:F2;
    [|unfold raise in H; congruence].
  unfold ret in H. injection H as <- <- <- <- _.
  unfold resolve. rewrite E1, F1, E2, F2. auto.
Qed.

(** ** [create_link] *)

Lemma py_next_found {A} (cond : A -> bool) (l : list A) (x : A) :
  In x l -> cond x = true ->
  exists y, py_next cond l = Some y /\ In y l /\ cond y = true.
Proof.
  intros Hx Hc. destruct (py_next cond l) as [y|] eqn:E.
  - exists y. split; [reflexivity|]. apply py_next_in in E. exact E.
  - rewrite py_next_none in E. rewrite (E x Hx) in Hc. discriminate.
Qed.


Lemma quiet_links (st st1 : State) :
  quiet st st1 -> synced st1 ->
  Project.links (project st1)
  = set_of_list Link.link_id (Server.links (server st)).
Proof.
  intros Q (_ & HL & _). rewrite HL, (q_server _ _ Q). reflexivity.
Qed.


Lemma length_pad (n : nat) : String.length (pad n) = n.
Proof. induction n as [|n IH]; simpl; congruence. Qed.

Lemma longest_bound (ids : list Id) (s : string) :
  In (Some s) ids -> String.length s <= longest ids.
Proof.
  induction ids as [|[t|] ids IH]; simpl; [tauto| |].
  - intros [[= ->]|H]; [lia|]. specialize (IH H). lia.
  - intros [[=]|H]. auto.
Qed.

Lemma fresh_id_fresh (ids : list Id) : ~ In (fresh_id ids) ids.
Proof.
  unfold fresh_id. intros H. apply longest_bound in H.
  rewrite length_pad in H. lia.
Qed.

Lemma same_port_refl (p : Port.t) : same_port p p = true.
Proof.
  unfold same_port. rewrite id_eqb_refl, !Z.eqb_refl. reflexivity.
Qed.

Lemma connects_comm (l : Link.t) (ea eb : Port.t) :
  connects l ea eb = connects l eb ea.
Proof.
  unfold connects. destruct (Link.nodes l) as [|p0 [|p1 r]]; try reflexivity.
  rewrite orb_comm, (andb_comm (same_port p1 eb)),
    (andb_comm (same_port p0 eb)). reflexivity.
Qed.

Lemma link_matches_ok_two_sided (l : Link.t) (a : Node.t) (pa : Port.t)
    (b : Node.t) (pb : Port.t) (r : bool) :
  link_matches l a pa b pb = Ok r -> two_sided l.
Proof.
  unfold link_matches, two_sided, and_then, side_is, nodes_at.
  destruct (Link.nodes l) as [|p0 [|p1 t]]; simpl; try discriminate.
  destruct (id_eqb (Port.node_id p0) (Node.node_id a)
            && Z.eqb (Port.adapter_number p0) (Port.adapter_number pa)
            && Z.eqb (Port.port_number p0) (Port.port_number pa));
    discriminate.
Qed.

Lemma _search_link_loop_ok_two_sided (links : list Link.t) (a : Node.t)
    (pa : Port.t) (b : Node.t) (pb : Port.t) (acc m : list Link.t) :
  _search_link_loop links a pa b pb acc = Ok m -> Forall two_sided links.
Proof.
  revert acc. induction links as [|l links IH]; intros acc; simpl;
    [constructor|].
  destruct (link_matches l a pa b pb) as [r|e] eqn:E; [|discriminate].
  apply link_matches_ok_two_sided in E.
  destruct r; intros H; constructor; eauto.
Qed.

Lemma _search_link_ok_inv (p : Project.t) (a : Node.t) (pa : Port.t)
    (b : Node.t) (pb : Port.t) (r : option Link.t) :
  _search_link p a pa b pb = Ok r ->
  Forall two_sided (Project.links p)
  /\ r = py_next (fun l => connects l (endpoint a pa) (endpoint b pb))
           (Project.links p).
Proof.
  intros H.
  assert (W : Forall two_sided (Project.links p)).
  { unfold _search_link in H.
    destruct (_search_link_loop _ a pa b pb []) as [m|e] eqn:E;
      [|discriminate].
    eapply _search_link_loop_ok_two_sided, E. }
  split; [assumption|].
  rewrite (_search_link_two_sided _ _ _ _ _ W) in H. congruence.
Qed.

(** What a successful [create_link] did. *)
Lemma create_link_ok_inv (node_a port_a node_b port_b : string)
    (st st' : State) (l : Link.t) :
  create_link node_a port_a node_b port_b st = (Ok l, st') ->
  exists na pa nb pb st1,
    resolve (server st) node_a port_a = Some (na, pa)
    /\ resolve (server st) node_b port_b = Some (nb, pb)
    /\ quiet st st1 /\ synced st1
    /\ _search_link (project st1) na pa nb pb = Ok None
    /\ l = Link.mk (fresh_id (map Link.link_id (Server.links (server st))))
             [endpoint na pa; endpoint nb pb]
    /\ st' = mkState
               (Project.with_links
                  (set_add Link.link_id l (Project.links (project st1)))
                  (project st1))
               (Server.with_links (Server.links (server st) ++ [l]) (server st))
               (Req POST LinksR :: log st1)
               (fails st).
Proof.
  unfold create_link. intros H.
  inv_bind_as H u0 s0; [congruence|].
  apply refresh_project_inv in Hm as [Q0 [[_ ->]|?]]; [|congruence].
  inv_bind_as H r st1; [congruence|].
  destruct r as [[[na pa] nb] pb].
  pose proof (_link_nodes_and_ports_ok_inv _ _ _ _ _ _ _ _ _ _ Hm) as [Ra Rb].
  apply _link_nodes_and_ports_inv in Hm as (Q1 & S1 & _).
  specialize (S1 _ eq_refl).
  assert (Q : quiet st st1) by (eapply quiet_trans; eassumption).
  inv_bind_as H p s2; [unfold gets in Hm; congruence|].
  unfold gets in Hm. injection Hm as <- <-.
  inv_bind_as H sl s3; [congruence|].
  unfold lift in Hm. injection Hm as Hs <-.
  destruct sl as [sl|]; [unfold raise in H; congruence|].
  inv_bind_as H l' s4; [congruence|].
  apply remote_create_inv in Hm as [[? _]|[E ->]]; [congruence|].
  injection E as ->.
  inv_bind_as H u3 s8; [congruence|].
  unfold on_project, modify in Hm. injection Hm as _ <-.
  unfold ret in H. injection H as <- <-.
  exists na, pa, nb, pb, st1.
  unfold with_project, with_server, with_log.
  cbn [server project log fails].
  rewrite (q_server _ _ Q), (q_fails _ _ Q).
  change (server (refreshed st)) with (server st) in Ra, Rb.
  split; [exact Ra|]. split; [exact Rb|]. split; [exact Q|].
  split; [exact S1|]. split; [exact Hs|]. split; reflexivity.
Qed.

Lemma set_add_fresh {A} (key : A -> Id) (x : A) (l : list A) :
  ~ In (key x) (map key l) ->
  set_of_list key (l ++ [x]) = set_of_list key l ++ [x].
Proof.
  intros H. rewrite set_of_list_snoc. unfold set_add.
  destruct (set_mem key x (set_of_list key l)) eqn:E; [|reflexivity].
  exfalso. apply H. apply set_mem_true in E. apply in_map_iff in E.
  destruct E as (y & <- & Hy). apply in_map.
  apply set_of_list_incl in Hy. exact Hy.
Qed.


(** ** [search_link] and [delete_link] *)

Lemma search_link_healthy (node_a port_a node_b port_b : string)
    (st : State) (na nb : Node.t) (pa pb : Port.t) :
  healthy st ->
  resolve (server st) node_a port_a = Some (na, pa) ->
  resolve (server st) node_b port_b = Some (nb, pb) ->
  exists st1,
    quiet st st1 /\ synced st1 /\ healthy st1
    /\ search_link node_a port_a node_b port_b st
       = (_search_link (project st1) na pa nb pb, st1).
Proof.
  intros H Ha Hb.
  destruct (_link_nodes_and_ports_healthy node_a port_a node_b port_b
              (refreshed st) na nb pa pb)
    as (st1 & E & Q & S & H1);
    [apply refreshed_healthy, H|exact Ha|exact Hb|].
  exists st1. split; [|split; [assumption|split; [assumption|]]].
  { eapply quiet_trans; [|exact Q].
    destruct (refresh_project_inv st (refreshed st) (Ok tt)) as [Q0 _];
      [apply refresh_project_healthy, H|exact Q0]. }
  unfold search_link.
  erewrite bind_ok by (apply refresh_project_healthy, H).
  erewrite bind_ok by exact E. reflexivity.
Qed.

(** ** The resolvers *)

Lemma py_next_first_match {A} (cond : A -> bool) (P : A -> Prop) (l : list A) :
  (forall x, cond x = true <-> P x) ->
  first_match P l (py_next cond l).
Proof.
  intros HP. destruct (py_next cond l) as [x|] eqn:E.
  - apply py_next_some in E as (l1 & l2 & -> & Hx & Hl1).
    constructor; [|apply HP, Hx].
    intros y Hy Py. apply HP in Py. rewrite (Hl1 y Hy) in Py. discriminate.
  - constructor. intros y Hy Py. apply HP in Py.
    rewrite py_next_none in E. rewrite (E y Hy) in Py. discriminate.
Qed.

Lemma search_project_healthy (name : string) (project_id : option string)
    (st : State) :
  healthy st ->
  search_project (Some name) project_id st
  = (Ok (py_next (fun prj => String.eqb (Project.name prj) name)
           (map Project_of_raw (Server.projects (server st)))),
     with_log (Req GET ProjectsR :: log st) st).
Proof.
  intros H. unfold search_project, get_projects.
  erewrite bind_ok.
  2:{ erewrite bind_ok by (apply http_call_healthy, H).
      unfold bind, gets, ret. reflexivity. }
  reflexivity.
Qed.

Lemma search_template_healthy (name : string) (template_id : option string)
    (st : State) :
  healthy st ->
  search_template (Some name) template_id st
  = (Ok (py_next (fun tplt => String.eqb (Template.name tplt) name)
           (Server.templates (server st))),
     with_log (Req GET TemplatesR :: log st) st).
Proof.
  intros H. unfold search_template, get_templates.
  erewrite bind_ok by (apply listing_healthy, H). reflexivity.
Qed.

Lemma search_snapshot_healthy (name : string) (snapshot_id : option string)
    (st : State) :
  healthy st ->
  search_snapshot (Some name) snapshot_id st
  = (Ok (py_next (fun snap => String.eqb (Snapshot.name snap) name)
           (Server.snapshots (server st))),
     with_log (Req GET SnapshotsR :: log (refreshed st)) (refreshed st)).
Proof.
  intros H. unfold search_snapshot, get_snapshots.
  erewrite bind_ok by (apply refresh_project_healthy, H).
  erewrite bind_ok by (apply listing_healthy, refreshed_healthy, H).
  reflexivity.
Qed.

Lemma search_drawing_healthy (svg : string) (drawing_id : option string)
    (st : State) :
  healthy st ->
  search_drawing (Some svg) drawing_id st
  = (Ok (py_next (fun draw => String.eqb (Drawing.svg draw) svg)
           (Server.drawings (server st))),
     with_log (Req GET DrawingsR :: log (refreshed st)) (refreshed st)).
Proof.
  intros H. unfold search_drawing, get_drawings.
  erewrite bind_ok by (apply refresh_project_healthy, H).
  erewrite bind_ok by (apply listing_healthy, refreshed_healthy, H).
  reflexivity.
Qed.

(** A search that is given a key only reads the server; when it returns,
    the project is in step with the server. *)
Lemma search_snapshot_inv (name snapshot_id : option string)
    (st st' : State) (o : Outcome (option Snapshot.t)) :
  search_snapshot name snapshot_id st = (o, st') ->
  quiet st st' /\ (forall r, o = Ok r -> synced st').
Proof.
  unfold search_snapshot, get_snapshots. intros H.
  inv_bind_as H u s0;
    [apply refresh_project_inv in Hm as [Q _]; subst;
     split; [assumption|discriminate]|].
  apply refresh_project_inv in Hm as [Q [[_ ->]|?]]; [|congruence].
  assert (G : forall (c : Snapshot.t -> bool),
             bind (bind (http_call (Req GET SnapshotsR))
                     (fun _ => gets (fun st => Server.snapshots (server st))))
               (fun l => ret (py_next c l)) (refreshed st) = (o, st') ->
             quiet st st' /\ (forall r, o = Ok r -> synced st')).
  { intros c G. inv_bind_as G l s1.
    - apply listing_inv in Hm as [-> _]. subst.
      split; [|discriminate].
      eapply quiet_trans; [exact Q|apply quiet_get; reflexivity].
    - apply listing_inv in Hm as [-> _]. unfold ret in G.
      injection G as <- <-.
      split; [eapply quiet_trans; [exact Q|apply quiet_get; reflexivity]|].
      intros _ _. apply refreshed_synced. }
  destruct name as [name|]; [eapply G, H|].
  destruct snapshot_id as [[|c i]|]; [|eapply G, H|];
    unfold raise in H; injection H as <- <-;
    (split; [assumption|discriminate]).
Qed.

Lemma search_drawing_inv (svg drawing_id : option string)
    (st st' : State) (o : Outcome (option Drawing.t)) :
  search_drawing svg drawing_id st = (o, st') ->
  quiet st st' /\ (forall r, o = Ok r -> synced st').
Proof.
  unfold search_drawing, get_drawings. intros H.
  inv_bind_as H u s0;
    [apply refresh_project_inv in Hm as [Q _]; subst;
     split; [assumption|discriminate]|].
  apply refresh_project_inv in Hm as [Q [[_ ->]|?]]; [|congruence].
  assert (G : forall (c : Drawing.t -> bool),
             bind (bind (http_call (Req GET DrawingsR))
                     (fun _ => gets (fun st => Server.drawings (server st))))
               (fun l => ret (py_next c l)) (refreshed st) = (o, st') ->
             quiet st st' /\ (forall r, o = Ok r -> synced st')).
  { intros c G. inv_bind_as G l s1.
    - apply listing_inv in Hm as [-> _]. subst.
      split; [|discriminate].
      eapply quiet_trans; [exact Q|apply quiet_get; reflexivity].
    - apply listing_inv in Hm as [-> _]. unfold ret in G.
      injection G as <- <-.
      split; [eapply quiet_trans; [exact Q|apply quiet_get; reflexivity]|].
      intros _ _. apply refreshed_synced. }
  destruct svg as [svg|]; [eapply G, H|].
  destruct drawing_id as [i|]; [eapply G, H|].
  unfold raise in H; injection H as <- <-.
  split; [assumption|discriminate].
Qed.

(* ================================================================= *)
(** * The claims *)

Lemma lab_healthy (p : Project.t) (s : Server.t) (l : list Request) :
  healthy (mkState p s l Lab.never).
Proof. intros n. reflexivity. Qed.

(** C1.  The claim: a link that occupies one of the two proposed endpoints
    makes [create_link] fail before the remote create.  The code only
    refuses a link that joins both endpoints.  Here [R1:Eth0] is linked to
    [R3:Eth0] and [create_link "R1" "Eth0" "R2" "Eth0"] is run: the link
    [L13] occupies the endpoint [R1:Eth0], and yet the call issues the
    [POST] and returns the new link. *)
Theorem create_link_one_endpoint_occupied :
  In Lab.L13 (set_of_list Link.link_id (Server.links (server Lab.st1)))
  /\ occupies Lab.L13 (endpoint Lab.R1 (Lab.eth 0 0 "Eth0")) = true
  /\ exists l st',
       create_link "R1" "Eth0" "R2" "Eth0" Lab.st1 = (Ok l, st')
       /\ In (Req POST LinksR) (log st')
       /\ In l (Project.links (project st')).
Proof.
  split; [left; reflexivity|]. split; [reflexivity|].
  eexists. eexists. split; [vm_compute; reflexivity|].
  split; [left; reflexivity|]. simpl. auto.
Qed.





(** C9.  When the search for the snapshot returns absence,
    [restore_snapshot] raises [AttributeError]: it returns neither [True]
    nor [False], raises no [ValueError], and leaves the state the search
    reached, in which [GET] requests only were issued.  The search does
    return absence for every name that no snapshot of the server bears,
    when the transport does not fail. *)
Theorem restore_snapshot_absent
    (st : State) (name snapshot_id : option string) :
  (forall st1,
     search_snapshot name snapshot_id st = (Ok None, st1) ->
     restore_snapshot name snapshot_id st = (Raise AttributeError, st1)
     /\ only_gets st st1
     /\ server st1 = server st)
  /\ (forall n,
        healthy st -> name = Some n ->
        (forall s, In s (Server.snapshots (server st)) ->
                   Snapshot.name s <> n) ->
        exists st1,
          restore_snapshot name snapshot_id st = (Raise AttributeError, st1)
          /\ only_gets st st1
          /\ server st1 = server st).
Proof.
  assert (G : forall st1,
             search_snapshot name snapshot_id st = (Ok None, st1) ->
             restore_snapshot name snapshot_id st = (Raise AttributeError, st1)
             /\ only_gets st st1 /\ server st1 = server st).
  { intros st1 E. split.
    - unfold restore_snapshot. erewrite bind_ok by exact E. reflexivity.
    - apply search_snapshot_inv in E as [Q _].
      split; [apply quiet_only_gets, Q|apply (q_server _ _ Q)]. }
  split; [exact G|].
  intros n H -> Hn. eexists. apply G.
  rewrite (search_snapshot_healthy n snapshot_id st H).
  replace (py_next (fun snap => String.eqb (Snapshot.name snap) n)
             (Server.snapshots (server st))) with (@None Snapshot.t);
    [reflexivity|].
  symmetry. apply py_next_none. intros s Hs.
  apply String.eqb_neq, Hn, Hs.
Qed.

Lemma restore_snapshot_absent_witness :
  exists st1,
    search_snapshot (Some "tuesday") None Lab.st0 = (Ok None, st1)
    /\ restore_snapshot (Some "tuesday") None Lab.st0
       = (Raise AttributeError, st1)
    /\ only_gets Lab.st0 st1.
Proof.
  destruct (search_snapshot (Some "tuesday") None Lab.st0) as [o st1] eqn:E.
  assert (E' := E). vm_compute in E'. injection E' as Ho _.
  rewrite <- Ho in E.
  destruct (restore_snapshot_absent Lab.st0 (Some "tuesday") None) as [G _].
  destruct (G st1 E) as (R & Og & _).
  exists st1. rewrite <- Ho. auto.
Defined.

(** A search given no key, after its refresh. *)
Lemma refresh_then_raise {A} (e : Exn) (st st' : State) (o : Outcome A) :
  bind (refresh_project true true true true) (fun _ => raise e) st = (o, st') ->
  (exists e', o = Raise e')
  /\ (healthy st -> o = Raise e /\ st' = refreshed st).
Proof.
  intros H. split.
  - inv_bind_as H u s0; [eauto|]. unfold raise in H. injection H as <- _. eauto.
  - intros Hh. erewrite bind_ok in H by (apply refresh_project_healthy, Hh).
    unfold raise in H. injection H as <- <-. auto.
Qed.

(** C6.  A search called with neither key raises the [ValueError] "Need
    to submit either ...": [search_project] and [search_template] at once,
    without any request; [search_node], [search_snapshot] and
    [search_drawing] after their refresh, so that they raise it when the
    transport does not fail, and in no case return a value. *)
Theorem search_without_key_raises (st : State) :
  search_project None None st
  = (Raise (ValueError (NeedEither "name" "project_id")), st)
  /\ search_template None None st
     = (Raise (ValueError (NeedEither "name" "template_id")), st)
  /\ (forall o st', search_node None None st = (o, st') ->
        (exists e, o = Raise e)
        /\ (healthy st ->
            o = Raise (ValueError (NeedEither "name" "node_id"))
            /\ st' = refreshed st))
  /\ (forall o st', search_snapshot None None st = (o, st') ->
        (exists e, o = Raise e)
        /\ (healthy st ->
            o = Raise (ValueError (NeedEither "name" "snapshot_id"))
            /\ st' = refreshed st))
  /\ (forall o st', search_drawing None None st = (o, st') ->
        (exists e, o = Raise e)
        /\ (healthy st ->
            o = Raise (ValueError (NeedEither "svg string" "drawing_id"))
            /\ st' = refreshed st)).
Proof.
  split; [reflexivity|]. split; [reflexivity|].
  split; [|split]; intros o st'; apply refresh_then_raise.
Qed.

Lemma search_without_key_raises_witness :
  healthy Lab.st0
  /\ search_node None None Lab.st0
     = (Raise (ValueError (NeedEither "name" "node_id")), refreshed Lab.st0)
  /\ search_snapshot None None Lab.st0
     = (Raise (ValueError (NeedEither "name" "snapshot_id")),
        refreshed Lab.st0)
  /\ search_drawing None None Lab.st0
     = (Raise (ValueError (NeedEither "svg string" "drawing_id")),
        refreshed Lab.st0).
Proof.
  split; [apply lab_healthy|].
  destruct (search_without_key_raises Lab.st0) as (_ & _ & Hn & Hs & Hd).
  split; [|split].
  - destruct (search_node None None Lab.st0) as [o st'] eqn:E.
    destruct (Hn o st' eq_refl) as [_ G].
    destruct (G (lab_healthy _ _ _)) as [-> ->]. reflexivity.
  - destruct (search_snapshot None None Lab.st0) as [o st'] eqn:E.
    destruct (Hs o st' eq_refl) as [_ G].
    destruct (G (lab_healthy _ _ _)) as [-> ->]. reflexivity.
  - destruct (search_drawing None None Lab.st0) as [o st'] eqn:E.
    destruct (Hd o st' eq_refl) as [_ G].
    destruct (G (lab_healthy _ _ _)) as [-> ->]. reflexivity.
Defined.



(** A search by name ends with the value it found or with the exception
    of the transport. *)
Lemma find_in_listing_outcome {A} (res : Resource) (f : State -> list A)
    (c : A -> bool) (st st' : State) (o : Outcome (option A)) :
  bind (bind (http_call (Req GET res)) (fun _ => gets f))
       (fun l => ret (py_next c l)) st = (o, st') ->
  (exists r, o = Ok r) \/ o = Raise TransportError.
Proof.
  intros H. inv_bind_as H l s0.
  - apply listing_inv in Hm as [_ [?|?]]; [congruence|]. right. congruence.
  - unfold ret in H. injection H as <- _. eauto.
Qed.

Lemma after_refresh_outcome {A} (k : M (option A)) (st st' : State)
    (o : Outcome (option A)) :
  (forall s s' o', k s = (o', s') ->
                   (exists r, o' = Ok r) \/ o' = Raise TransportError) ->
  bind (refresh_project true true true true) (fun _ => k) st = (o, st') ->
  (exists r, o = Ok r) \/ o = Raise TransportError.
Proof.
  intros Hk H. inv_bind_as H u s0.
  - apply refresh_project_inv in Hm as [_ [[? _]|?]]; [congruence|].
    right. congruence.
  - eapply Hk, H.
Qed.

Lemma search_by_name_outcome (st : State) (name : string)
    (i : option string) :
  (forall o st', search_project (Some name) i st = (o, st') ->
     (exists r, o = Ok r) \/ o = Raise TransportError)
  /\ (forall o st', search_node (Some name) i st = (o, st') ->
        (exists r, o = Ok r) \/ o = Raise TransportError)
  /\ (forall o st', search_template (Some name) i st = (o, st') ->
        (exists r, o = Ok r) \/ o = Raise TransportError)
  /\ (forall o st', search_snapshot (Some name) i st = (o, st') ->
        (exists r, o = Ok r) \/ o = Raise TransportError)
  /\ (forall o st', search_drawing (Some name) i st = (o, st') ->
        (exists r, o = Ok r) \/ o = Raise TransportError).
Proof.
  repeat split; intros o st' H.
  - unfold search_project, get_projects in H. inv_bind_as H l s0.
    + inv_bind_as Hm u s1.
      * apply http_call_inv in Hm0 as [_ [?|?]]; [congruence|].
        right. congruence.
      * unfold bind, gets, ret in Hm. congruence.
    + unfold ret in H. injection H as <- _. eauto.
  - unfold search_node in H. revert H. apply after_refresh_outcome.
    intros s s' o' H. unfold bind, gets, ret in H. injection H as <- _. eauto.
  - unfold search_template, get_templates in H.
    eapply find_in_listing_outcome, H.
  - unfold search_snapshot, get_snapshots in H. revert H.
    apply after_refresh_outcome. intros s s' o'.
    apply find_in_listing_outcome.
  - unfold search_drawing, get_drawings in H. revert H.
    apply after_refresh_outcome. intros s s' o'.
    apply find_in_listing_outcome.
Qed.

(** C10.  A search given both a name and an identifier runs exactly as the
    search given the name alone, whatever the identifier, and so never
    raises the [ValueError] of a missing key: it ends with what the search
    by name finds, or with the exception of the transport. *)
Theorem search_with_both_keys_uses_name
    (st : State) (name identifier : string) :
  (search_project (Some name) (Some identifier) st
   = search_project (Some name) None st
   /\ search_node (Some name) (Some identifier) st
      = search_node (Some name) None st
   /\ search_template (Some name) (Some identifier) st
      = search_template (Some name) None st
   /\ search_snapshot (Some name) (Some identifier) st
      = search_snapshot (Some name) None st
   /\ search_drawing (Some name) (Some identifier) st
      = search_drawing (Some name) None st)
  /\ (forall r,
        fst (search_project (Some name) (Some identifier) st)
          <> Raise (ValueError r)
        /\ fst (search_node (Some name) (Some identifier) st)
             <> Raise (ValueError r)
        /\ fst (search_template (Some name) (Some identifier) st)
             <> Raise (ValueError r)
        /\ fst (search_snapshot (Some name) (Some identifier) st)
             <> Raise (ValueError r)
        /\ fst (search_drawing (Some name) (Some identifier) st)
             <> Raise (ValueError r)).
Proof.
  split; [repeat split|].
  intros r.
  destruct (search_by_name_outcome st name (Some identifier))
    as (H1 & H2 & H3 & H4 & H5).
  repeat split.
  - destruct (search_project _ _ st) as [o s] eqn:E. simpl.
    destruct (H1 o s eq_refl) as [[? ->]| ->]; discriminate.
  - destruct (search_node _ _ st) as [o s] eqn:E. simpl.
    destruct (H2 o s eq_refl) as [[? ->]| ->]; discriminate.
  - destruct (search_template _ _ st) as [o s] eqn:E. simpl.
    destruct (H3 o s eq_refl) as [[? ->]| ->]; discriminate.
  - destruct (search_snapshot _ _ st) as [o s] eqn:E. simpl.
    destruct (H4 o s eq_refl) as [[? ->]| ->]; discriminate.
  - destruct (search_drawing _ _ st) as [o s] eqn:E. simpl.
    destruct (H5 o s eq_refl) as [[? ->]| ->]; discriminate.
Qed.

(** ** Creating and deleting *)

(** A remote delete leaves the project object alone. *)
Lemma remote_delete_project {A} (key : A -> Id) (listing : Server.t -> list A)
    (drop : Server.t -> Server.t) (r : Resource) (i : Id)
    (st st' : State) (o : Outcome unit) :
  remote_delete key listing drop r i st = (o, st') ->
  project st' = project st /\ fails st' = fails st.
Proof.
  unfold remote_delete. intros H. inv_bind_as H u s0.
  - apply http_call_inv in Hm as [-> _]. auto.
  - apply http_call_inv in Hm as [-> _].
    inv_bind_as H srv s1; [unfold gets in Hm; congruence|].
    unfold gets in Hm. injection Hm as <- <-.
    destruct (has_id key i (listing _)).
    + unfold on_server, modify in H. injection H as _ <-. auto.
    + unfold raise in H. injection H as _ <-. auto.
Qed.

Lemma remove_from_inv {A} (key : A -> Id) (get : Project.t -> list A)
    (put : list A -> Project.t -> Project.t) (x : A)
    (st st' : State) (o : Outcome unit) :
  remove_from key get put x st = (o, st') ->
  (o = Raise KeyError /\ st' = st)
  \/ (exists s, o = Ok tt /\ set_remove key x (get (project st)) = Some s
                /\ st' = with_project (put s (project st)) st).
Proof.
  unfold remove_from. intros H.
  inv_bind_as H p s0; [unfold gets in Hm; congruence|].
  unfold gets in Hm. injection Hm as <- <-.
  destruct (set_remove key x (get (project st))) as [s|] eqn:E.
  - unfold on_project, modify in H. injection H as <- <-. right. eauto.
  - unfold raise in H. injection H as <- <-. left. auto.
Qed.

Lemma create_node_ok (name template_name : string) (x y : Z)
    (st st' : State) (n : Node.t) :
  create_node name template_name x y st = (Ok n, st') ->
  (exists i, Node.node_id n = Some i)
  /\ set_mem Node.node_id n (Project.nodes (project st')) = true.
Proof.
  unfold create_node. intros H.
  inv_bind_as H sn s0; [congruence|]. clear Hm.
  destruct sn as [sn|]; [unfold raise in H; congruence|].
  inv_bind_as H tp s1; [congruence|]. clear Hm.
  destruct tp as [tp|]; [|unfold raise in H; congruence].
  inv_bind_as H n' s2; [congruence|]. rename Hm into Hc.
  inv_bind_as H u s3; [congruence|].
  unfold on_project, modify in Hm. injection Hm as _ <-.
  unfold ret in H. injection H as <- <-.
  split; [|apply set_mem_add].
  apply remote_create_inv in Hc as [[? _]|[E _]]; [congruence|].
  injection E as ->. simpl. unfold fresh_id. eauto.
Qed.

Lemma delete_node_ok (name node_id : option string) (st st' : State) :
  delete_node name node_id st = (Ok tt, st') ->
  exists n st1,
    search_node name node_id st = (Ok (Some n), st1)
    /\ set_mem Node.node_id n (Project.nodes (project st')) = false.
Proof.
  unfold delete_node. intros H.
  inv_bind_as H sn s1; [congruence|].
  destruct sn as [n|]; [|unfold raise in H; congruence].
  exists n, s1. split; [assumption|].
  apply search_node_inv in Hm as [_ S].
  destruct (S _ eq_refl) as [(HN & _) _].
  inv_bind_as H u s2; [congruence|].
  apply remote_delete_project in Hm as [Hp _].
  apply remove_from_inv in H as [[? _]|(s & _ & Hr & ->)]; [congruence|].
  simpl. rewrite Hp, HN in Hr.
  eapply set_remove_absent; [|exact Hr]. apply set_of_list_is_set.
Qed.

(** C8.  When [create_node] returns a node, the node bears an identifier
    assigned by the server and is a member of [project.nodes]; when
    [delete_node] returns, the node its search had found is no longer a
    member of [project.nodes]. *)
Theorem node_membership_after_create_and_delete (st : State) :
  (forall name template_name x y n st',
     create_node name template_name x y st = (Ok n, st') ->
     (exists i, Node.node_id n = Some i)
     /\ set_mem Node.node_id n (Project.nodes (project st')) = true)
  /\ (forall name node_id st',
        delete_node name node_id st = (Ok tt, st') ->
        exists n st1,
          search_node name node_id st = (Ok (Some n), st1)
          /\ set_mem Node.node_id n (Project.nodes (project st')) = false).
Proof.
  split.
  - intros name template_name x y n st'. apply create_node_ok.
  - intros name node_id st'. apply delete_node_ok.
Qed.

Lemma node_membership_after_create_and_delete_witness :
  (exists n st',
     create_node "R9" "router" 10 20 Lab.st0 = (Ok n, st')
     /\ set_mem Node.node_id n (Project.nodes (project st')) = true)
  /\ (exists st',
        delete_node (Some "R1") None Lab.st0 = (Ok tt, st')
        /\ set_mem Node.node_id Lab.R1 (Project.nodes (project st')) = false)
  /\ (exists st',
        delete_node None (Some "n2") Lab.st0 = (Ok tt, st')
        /\ set_mem Node.node_id Lab.R2 (Project.nodes (project st')) = false).
Proof.
  destruct (node_membership_after_create_and_delete Lab.st0) as [C D].
  split; [|split].
  - destruct (create_node "R9" "router" 10 20 Lab.st0) as [o st'] eqn:E.
    assert (E' := E). vm_compute in E'. injection E' as Ho _.
    destruct o as [n|e]; [|discriminate Ho].
    exists n, st'. split; [reflexivity|]. apply (C _ _ _ _ _ _ E).
  - destruct (delete_node (Some "R1") None Lab.st0) as [o st'] eqn:E.
    assert (E' := E). vm_compute in E'. injection E' as Ho _.
    rewrite <- Ho in E. destruct (D _ _ _ E) as (n & st1 & Es & Hn).
    exists st'. rewrite <- Ho. split; [reflexivity|].
    vm_compute in Es. injection Es as <- _. exact Hn.
  - destruct (delete_node None (Some "n2") Lab.st0) as [o st'] eqn:E.
    assert (E' := E). vm_compute in E'. injection E' as Ho _.
    rewrite <- Ho in E. destruct (D _ _ _ E) as (n & st1 & Es & Hn).
    exists st'. rewrite <- Ho. split; [reflexivity|].
    vm_compute in Es. injection Es as <- _. exact Hn.
Defined.

(** ** Failed creations and deletions *)

Lemma quiet_kept (st st' : State) : quiet st st' -> kept_or_refreshed st st'.
Proof. intros [? ? ? ? ? A B C D]. repeat split; assumption. Qed.

Lemma kept_same_project (st s1 st' : State) :
  kept_or_refreshed st s1 -> project st' = project s1 ->
  kept_or_refreshed st st'.
Proof. unfold kept_or_refreshed. intros K ->. exact K. Qed.

Lemma remote_create_project {A} (r : Resource) (assign : Server.t -> A)
    (store : A -> Server.t -> Server.t) (st st' : State) (o : Outcome A) :
  remote_create r assign store st = (o, st') -> project st' = project st.
Proof.
  intros H. apply remote_create_inv in H as [[_ ->]|[_ ->]]; reflexivity.
Qed.

Lemma search_project_inv (name project_id : option string)
    (st st' : State) (o : Outcome (option Project.t)) :
  search_project name project_id st = (o, st') -> project st' = project st.
Proof.
  assert (G : forall (c : Project.t -> bool),
             bind get_projects (fun l => ret (py_next c l)) st = (o, st') ->
             project st' = project st).
  { intros c G. unfold get_projects in G. inv_bind_as G l s0.
    - inv_bind_as Hm u s1.
      + apply http_call_inv in Hm0 as [-> _]. reflexivity.
      + apply http_call_inv in Hm0 as [-> _].
        unfold bind, gets, ret in Hm. congruence.
    - inv_bind_as Hm u s1; [congruence|].
      apply http_call_inv in Hm0 as [-> _].
      unfold bind, gets, ret in Hm. injection Hm as _ <-.
      unfold ret in G. injection G as _ <-. reflexivity. }
  unfold search_project. destruct name as [name|]; [apply G|].
  destruct project_id as [i|]; [apply G|].
  unfold raise. intros [= _ <-]. reflexivity.
Qed.

Lemma search_template_inv (name template_id : option string)
    (st st' : State) (o : Outcome (option Template.t)) :
  search_template name template_id st = (o, st') ->
  quiet st st' /\ project st' = project st.
Proof.
  assert (G : forall (c : Template.t -> bool),
             bind get_templates (fun l => ret (py_next c l)) st = (o, st') ->
             quiet st st' /\ project st' = project st).
  { intros c G. unfold get_templates in G. inv_bind_as G l s0.
    - apply listing_inv in Hm as [-> _].
      split; [apply quiet_get|]; reflexivity.
    - apply listing_inv in Hm as [-> _]. unfold ret in G.
      injection G as _ <-. split; [apply quiet_get|]; reflexivity. }
  unfold search_template. destruct name as [name|]; [apply G|].
  destruct template_id as [i|]; [apply G|].
  unfold raise. intros [= _ <-]. split; [apply quiet_refl|reflexivity].
Qed.

Lemma create_project_fails (name : string) (st st' : State) (e : Exn) :
  create_project name st = (Raise e, st') -> project st' = project st.
Proof.
  unfold create_project. intros H. inv_bind_as H sp s0.
  - eapply search_project_inv, Hm.
  - apply search_project_inv in Hm. rewrite <- Hm.
    destruct sp as [sp|]; [unfold raise in H; congruence|].
    unfold Project_create in H. inv_bind_as H i s1.
    + eapply remote_create_project, Hm0.
    + unfold ret in H. congruence.
Qed.

Lemma delete_project_fails (name project_id : option string)
    (st st' : State) (e : Exn) :
  delete_project name project_id st = (Raise e, st') ->
  project st' = project st.
Proof.
  unfold delete_project. intros H. inv_bind_as H sp s0.
  - eapply search_project_inv, Hm.
  - apply search_project_inv in Hm. rewrite <- Hm.
    destruct sp as [sp|]; [|unfold raise in H; congruence].
    unfold Project_delete in H. eapply remote_delete_project, H.
Qed.

Lemma create_template_fails (name : string) (st st' : State) (e : Exn) :
  create_template name st = (Raise e, st') -> project st' = project st.
Proof.
  unfold create_template. intros H. inv_bind_as H sp s0.
  - eapply search_template_inv, Hm.
  - apply search_template_inv in Hm as [_ Hm]. rewrite <- Hm.
    destruct sp as [sp|]; [unfold raise in H; congruence|].
    eapply remote_create_project, H.
Qed.

Lemma delete_template_fails (name template_id : option string)
    (st st' : State) (e : Exn) :
  delete_template name template_id st = (Raise e, st') ->
  project st' = project st.
Proof.
  unfold delete_template. intros H. inv_bind_as H sp s0.
  - eapply search_template_inv, Hm.
  - apply search_template_inv in Hm as [_ Hm]. rewrite <- Hm.
    destruct sp as [sp|]; [|unfold raise in H; congruence].
    eapply remote_delete_project, H.
Qed.

(** The end of a creation: the remote create, then the [add]. *)
Lemma create_then_add_fails {A} (create : M A) (add : A -> Project.t -> Project.t)
    (st st' : State) (e : Exn) :
  (forall s s' o, create s = (o, s') -> project s' = project s) ->
  bind create (fun x => bind (on_project (add x)) (fun _ => ret x)) st
  = (Raise e, st') ->
  project st' = project st.
Proof.
  intros Hc H. inv_bind_as H x s0.
  - eapply Hc, Hm.
  - unfold bind, on_project, modify, ret in H. congruence.
Qed.

(** The end of a deletion: the remote delete, then the [remove]. *)
Lemma delete_then_remove_fails {A} (delete : M unit) (key : A -> Id)
    (get : Project.t -> list A) (put : list A -> Project.t -> Project.t)
    (x : A) (st st' : State) (e : Exn) :
  (forall s s' o, delete s = (o, s') -> project s' = project s) ->
  bind delete (fun _ => remove_from key get put x) st = (Raise e, st') ->
  project st' = project st.
Proof.
  intros Hd H. inv_bind_as H u s0.
  - eapply Hd, Hm.
  - apply Hd in Hm. rewrite <- Hm.
    apply remove_from_inv in H as [[_ ->]|(s & ? & _)];
      [reflexivity|congruence].
Qed.

(** A search, then a step that leaves the project alone when it fails. *)
Lemma guarded_fails {A B} (search : M (option A)) (k : option A -> M B)
    (st st' : State) (e : Exn) :
  (forall s s' o, search s = (o, s') -> quiet s s') ->
  (forall r s s' e', k r s = (Raise e', s') -> project s' = project s) ->
  bind search k st = (Raise e, st') ->
  kept_or_refreshed st st'.
Proof.
  intros Hs Hk H. inv_bind_as H r s0.
  - apply quiet_kept. eapply Hs, Hm.
  - apply Hs in Hm. apply Hk in H.
    eapply kept_same_project; [apply quiet_kept, Hm|exact H].
Qed.

Lemma raise_same_project {A} (e e' : Exn) (s s' : State) :
  @raise A e s = (Raise e', s') -> project s' = project s.
Proof. unfold raise. intros [= _ <-]. reflexivity. Qed.

Lemma create_drawing_fails (svg : string) (st st' : State) (e : Exn) :
  create_drawing svg st = (Raise e, st') -> kept_or_refreshed st st'.
Proof.
  unfold create_drawing. apply guarded_fails.
  - intros s s' o H. eapply search_drawing_inv, H.
  - intros [d|] s s' e' H; [eapply raise_same_project, H|].
    revert H. apply create_then_add_fails.
    intros s1 s2 o. apply remote_create_project.
Qed.

Lemma delete_drawing_fails (svg drawing_id : option string)
    (st st' : State) (e : Exn) :
  delete_drawing svg drawing_id st = (Raise e, st') ->
  kept_or_refreshed st st'.
Proof.
  unfold delete_drawing. apply guarded_fails.
  - intros s s' o H. eapply search_drawing_inv, H.
  - intros [d|] s s' e' H; [|eapply raise_same_project, H].
    revert H. apply delete_then_remove_fails.
    intros s1 s2 o H. eapply remote_delete_project, H.
Qed.

Lemma create_snapshot_fails (name : string) (st st' : State) (e : Exn) :
  create_snapshot name st = (Raise e, st') -> kept_or_refreshed st st'.
Proof.
  unfold create_snapshot. apply guarded_fails.
  - intros s s' o H. eapply search_snapshot_inv, H.
  - intros [d|] s s' e' H; [eapply raise_same_project, H|].
    revert H. apply create_then_add_fails.
    intros s1 s2 o. apply remote_create_project.
Qed.

Lemma delete_snapshot_fails (name snapshot_id : option string)
    (st st' : State) (e : Exn) :
  delete_snapshot name snapshot_id st = (Raise e, st') ->
  kept_or_refreshed st st'.
Proof.
  unfold delete_snapshot. apply guarded_fails.
  - intros s s' o H. eapply search_snapshot_inv, H.
  - intros [d|] s s' e' H; [|eapply raise_same_project, H].
    revert H. apply delete_then_remove_fails.
    intros s1 s2 o H. eapply remote_delete_project, H.
Qed.

Lemma create_node_fails (name template_name : string) (x y : Z)
    (st st' : State) (e : Exn) :
  create_node name template_name x y st = (Raise e, st') ->
  kept_or_refreshed st st'.
Proof.
  unfold create_node. apply guarded_fails.
  - intros s s' o H. eapply search_node_inv, H.
  - intros [d|] s s' e' H; [eapply raise_same_project, H|].
    inv_bind_as H tp s1; [eapply search_template_inv, Hm|].
    apply search_template_inv in Hm as [_ Hm]. rewrite <- Hm.
    destruct tp as [tp|]; [|eapply raise_same_project, H].
    revert H. apply create_then_add_fails.
    intros s2 s3 o. apply remote_create_project.
Qed.

Lemma delete_node_fails (name node_id : option string)
    (st st' : State) (e : Exn) :
  delete_node name node_id st = (Raise e, st') ->
  kept_or_refreshed st st'.
Proof.
  unfold delete_node. apply guarded_fails.
  - intros s s' o H. eapply search_node_inv, H.
  - intros [d|] s s' e' H; [|eapply raise_same_project, H].
    revert H. apply delete_then_remove_fails.
    intros s1 s2 o H. eapply remote_delete_project, H.
Qed.

Lemma search_link_inv (node_a port_a node_b port_b : string)
    (st st' : State) (o : Outcome (option Link.t)) :
  search_link node_a port_a node_b port_b st = (o, st') -> quiet st st'.
Proof.
  unfold search_link. intros H. inv_bind_as H u s0.
  - eapply refresh_project_inv, Hm.
  - apply refresh_project_inv in Hm as [Q0 _].
    eapply quiet_trans; [exact Q0|]. inv_bind_as H r s1.
    + eapply _link_nodes_and_ports_inv, Hm.
    + apply _link_nodes_and_ports_inv in Hm as [Q1 _].
      destruct r as [[[na pa] nb] pb].
      unfold bind, gets, lift in H. injection H as _ <-. exact Q1.
Qed.

Lemma delete_link_fails (node_a port_a node_b port_b : string)
    (st st' : State) (e : Exn) :
  delete_link node_a port_a node_b port_b st = (Raise e, st') ->
  kept_or_refreshed st st'.
Proof.
  unfold delete_link. apply guarded_fails.
  - intros s s' o H. eapply search_link_inv, H.
  - intros [d|] s s' e' H; [|unfold ret in H; congruence].
    revert H. apply delete_then_remove_fails.
    intros s1 s2 o H. eapply remote_delete_project, H.
Qed.

Lemma create_link_fails (node_a port_a node_b port_b : string)
    (st st' : State) (e : Exn) :
  create_link node_a port_a node_b port_b st = (Raise e, st') ->
  kept_or_refreshed st st'.
Proof.
  unfold create_link. intros H. inv_bind_as H u s0.
  - apply quiet_kept. eapply refresh_project_inv, Hm.
  - apply refresh_project_inv in Hm as [Q0 _]. inv_bind_as H r s1.
    + apply quiet_kept. eapply quiet_trans; [exact Q0|].
      eapply _link_nodes_and_ports_inv, Hm.
    + apply _link_nodes_and_ports_inv in Hm as [Q1 _].
      assert (Q : quiet st s1) by (eapply quiet_trans; eassumption).
      eapply kept_same_project; [apply quiet_kept, Q|].
      destruct r as [[[na pa] nb] pb].
      inv_bind_as H p s2; [unfold gets in Hm; congruence|].
      unfold gets in Hm. injection Hm as _ <-.
      inv_bind_as H sl s3.
      * unfold lift in Hm. injection Hm as _ <-. reflexivity.
      * unfold lift in Hm. injection Hm as _ <-.
        destruct sl as [sl|]; [eapply raise_same_project, H|].
        revert H. apply create_then_add_fails.
        intros s4 s5 o. apply remote_create_project.
Qed.

(** C5, as the specification states it, fails: [create_link] refreshes the
    project before its pre-create check, so that a call that is refused
    leaves the project's sets replaced by the server's listings.  Here the
    project object holds no link yet, the server holds the link [L12], and
    the refused call leaves [L12] in [project.links]. *)
Lemma failed_create_link_refreshes_project :
  exists st',
    create_link "R1" "Eth0" "R2" "Eth0" Lab.st2
    = (Raise (ValueError (PortUsed (Some "l2"))), st')
    /\ Project.links (project Lab.st2) = []
    /\ Project.links (project st') = [Lab.L12]
    /\ Project.nodes (project Lab.st2) = []
    /\ Project.nodes (project st') = [Lab.R1; Lab.R2]
    /\ project st' <> project Lab.st2.
Proof.
  eexists. split; [vm_compute; reflexivity|].
  repeat split; try reflexivity. discriminate.
Qed.

(** C5, amended.  When a creation or a deletion raises, whatever the
    exception, each of the project's sets (nodes, links, drawings,
    snapshots) is either what it was before the call or the set of the
    server's listing as the call found it, put there by the refresh the
    operation starts with: nothing was added for the entity to create,
    nothing removed for the entity to delete.  The creations and deletions
    of projects and templates leave the project object as it was. *)
Theorem failed_mutation_keeps_or_refreshes (st st' : State) (e : Exn) :
  (forall name,
     create_project name st = (Raise e, st') -> project st' = project st)
  /\ (forall name project_id,
        delete_project name project_id st = (Raise e, st') ->
        project st' = project st)
  /\ (forall name,
        create_template name st = (Raise e, st') -> project st' = project st)
  /\ (forall name template_id,
        delete_template name template_id st = (Raise e, st') ->
        project st' = project st)
  /\ (forall name template_name x y,
        create_node name template_name x y st = (Raise e, st') ->
        kept_or_refreshed st st')
  /\ (forall name node_id,
        delete_node name node_id st = (Raise e, st') ->
        kept_or_refreshed st st')
  /\ (forall node_a port_a node_b port_b,
        create_link node_a port_a node_b port_b st = (Raise e, st') ->
        kept_or_refreshed st st')
  /\ (forall node_a port_a node_b port_b,
        delete_link node_a port_a node_b port_b st = (Raise e, st') ->
        kept_or_refreshed st st')
  /\ (forall svg,
        create_drawing svg st = (Raise e, st') -> kept_or_refreshed st st')
  /\ (forall svg drawing_id,
        delete_drawing svg drawing_id st = (Raise e, st') ->
        kept_or_refreshed st st')
  /\ (forall name,
        create_snapshot name st = (Raise e, st') -> kept_or_refreshed st st')
  /\ (forall name snapshot_id,
        delete_snapshot name snapshot_id st = (Raise e, st') ->
        kept_or_refreshed st st').
Proof.
  split; [intros name; apply create_project_fails|].
  split; [intros name i; apply delete_project_fails|].
  split; [intros name; apply create_template_fails|].
  split; [intros name i; apply delete_template_fails|].
  split; [intros name t x y; apply create_node_fails|].
  split; [intros name i; apply delete_node_fails|].
  split; [intros a pa b pb; apply create_link_fails|].
  split; [intros a pa b pb; apply delete_link_fails|].
  split; [intros svg; apply create_drawing_fails|].
  split; [intros svg i; apply delete_drawing_fails|].
  split; [intros name; apply create_snapshot_fails|].
  intros name i; apply delete_snapshot_fails.
Qed.

(** A refused [create_link], a [delete_node] of a node that is not there
    and a [create_snapshot] cut short by the transport. *)
Lemma failed_mutation_keeps_or_refreshes_witness :
  (exists st',
     create_link "R1" "Eth0" "R2" "Eth0" Lab.st2
     = (Raise (ValueError (PortUsed (Some "l2"))), st')
     /\ kept_or_refreshed Lab.st2 st')
  /\ (exists st',
        delete_node (Some "R7") None Lab.st0
        = (Raise (ValueError (NotFound "Node")), st')
        /\ kept_or_refreshed Lab.st0 st')
  /\ (exists st',
        create_snapshot "friday" Lab.st0_down = (Raise TransportError, st')
        /\ kept_or_refreshed Lab.st0_down st').
Proof.
  split; [|split].
  - destruct (create_link "R1" "Eth0" "R2" "Eth0" Lab.st2) as [o st'] eqn:E.
    assert (E' := E). vm_compute in E'. injection E' as Ho _.
    rewrite <- Ho in E. exists st'. rewrite <- Ho. split; [reflexivity|].
    destruct (failed_mutation_keeps_or_refreshes Lab.st2 st'
                (ValueError (PortUsed (Some "l2"))))
      as (_ & _ & _ & _ & _ & _ & G & _).
    exact (G _ _ _ _ E).
  - destruct (delete_node (Some "R7") None Lab.st0) as [o st'] eqn:E.
    assert (E' := E). vm_compute in E'. injection E' as Ho _.
    rewrite <- Ho in E. exists st'. rewrite <- Ho. split; [reflexivity|].
    destruct (failed_mutation_keeps_or_refreshes Lab.st0 st'
                (ValueError (NotFound "Node")))
      as (_ & _ & _ & _ & _ & G & _).
    exact (G _ _ E).
  - destruct (create_snapshot "friday" Lab.st0_down) as [o st'] eqn:E.
    assert (E' := E). vm_compute in E'. injection E' as Ho _.
    rewrite <- Ho in E. exists st'. rewrite <- Ho. split; [reflexivity|].
    destruct (failed_mutation_keeps_or_refreshes Lab.st0_down st'
                TransportError)
      as (_ & _ & _ & _ & _ & _ & _ & _ & _ & _ & G & _).
    exact (G _ E).
Defined.

(* ================================================================= *)
(** * Further properties of the services *)

#[local] Hint Resolve refreshed_healthy lab_healthy : core.

(** ** Searching by identifier *)

Lemma find_in_listing_healthy {A} (res : Resource) (f : State -> list A)
    (c : A -> bool) (st : State) :
  healthy st ->
  bind (bind (http_call (Req GET res)) (fun _ => gets f))
       (fun l => ret (py_next c l)) st
  = (Ok (py_next c (f (with_log (Req GET res :: log st) st))),
     with_log (Req GET res :: log st) st).
Proof.
  intros H. erewrite bind_ok by (apply listing_healthy, H). reflexivity.
Qed.

Lemma search_project_id_healthy (i : string) (st : State) :
  healthy st ->
  search_project None (Some i) st
  = (Ok (py_next (fun prj => id_eqb (Project.project_id prj) (Some i))
           (map Project_of_raw (Server.projects (server st)))),
     with_log (Req GET ProjectsR :: log st) st).
Proof.
  intros H. unfold search_project, get_projects.
  erewrite bind_ok.
  2:{ erewrite bind_ok by (apply http_call_healthy, H).
      unfold bind, gets, ret. reflexivity. }
  reflexivity.
Qed.

Lemma search_template_id_healthy (i : string) (st : State) :
  healthy st ->
  search_template None (Some i) st
  = (Ok (py_next (fun tp => id_eqb (Template.template_id tp) (Some i))
           (Server.templates (server st))),
     with_log (Req GET TemplatesR :: log st) st).
Proof.
  intros H. unfold search_template, get_templates.
  apply find_in_listing_healthy, H.
Qed.

Lemma search_node_id_healthy (i : string) (st : State) :
  healthy st ->
  search_node None (Some i) st
  = (Ok (py_next (fun n => id_eqb (Node.node_id n) (Some i))
           (Server.nodes (server st))),
     with_log (Req GET NodesR :: log (refreshed st)) (refreshed st)).
Proof.
  intros H. unfold search_node, get_nodes.
  erewrite bind_ok by (apply refresh_project_healthy, H).
  apply find_in_listing_healthy. auto.
Qed.

Lemma search_drawing_id_healthy (i : string) (st : State) :
  healthy st ->
  search_drawing None (Some i) st
  = (Ok (py_next (fun d => id_eqb (Drawing.drawing_id d) (Some i))
           (Server.drawings (server st))),
     with_log (Req GET DrawingsR :: log (refreshed st)) (refreshed st)).
Proof.
  intros H. unfold search_drawing, get_drawings.
  erewrite bind_ok by (apply refresh_project_healthy, H).
  apply find_in_listing_healthy. auto.
Qed.

Lemma search_snapshot_id_healthy (c : ascii) (i : string) (st : State) :
  healthy st ->
  search_snapshot None (Some (String c i)) st
  = (Ok (py_next
           (fun s => id_eqb (Snapshot.snapshot_id s) (Some (String c i)))
           (Server.snapshots (server st))),
     with_log (Req GET SnapshotsR :: log (refreshed st)) (refreshed st)).
Proof.
  intros H. unfold search_snapshot, get_snapshots.
  erewrite bind_ok by (apply refresh_project_healthy, H).
  apply find_in_listing_healthy. auto.
Qed.

Lemma id_is (i : string) (x : Id) : id_eqb x (Some i) = true <-> x = Some i.
Proof. apply id_eqb_eq. Qed.

(** X1.  With a transport that does not fail, a search by identifier
    returns the first member of the fetched listing that bears the
    identifier, and absence when there is none.  For nodes the listing is
    fetched anew: the search by identifier does not go through the node set
    of the project, as the search by name does. *)
Theorem search_by_identifier_first_wins (st : State) (i : string) :
  healthy st ->
  (exists r st',
     search_project None (Some i) st = (Ok r, st')
     /\ first_match (fun prj => Project.project_id prj = Some i)
          (map Project_of_raw (Server.projects (server st))) r)
  /\ (exists r st',
        search_node None (Some i) st = (Ok r, st')
        /\ first_match (fun n => Node.node_id n = Some i)
             (Server.nodes (server st)) r
        /\ synced st')
  /\ (exists r st',
        search_template None (Some i) st = (Ok r, st')
        /\ first_match (fun t => Template.template_id t = Some i)
             (Server.templates (server st)) r)
  /\ (exists r st',
        search_drawing None (Some i) st = (Ok r, st')
        /\ first_match (fun d => Drawing.drawing_id d = Some i)
             (Server.drawings (server st)) r)
  /\ (i <> EmptyString ->
      exists r st',
        search_snapshot None (Some i) st = (Ok r, st')
        /\ first_match (fun s => Snapshot.snapshot_id s = Some i)
             (Server.snapshots (server st)) r).
Proof.
  intros H. repeat split.
  - eexists. eexists. split; [apply search_project_id_healthy, H|].
    apply py_next_first_match. intros x. apply id_is.
  - eexists. eexists. split; [apply search_node_id_healthy, H|].
    split; [|apply refreshed_synced].
    apply py_next_first_match. intros x. apply id_is.
  - eexists. eexists. split; [apply search_template_id_healthy, H|].
    apply py_next_first_match. intros x. apply id_is.
  - eexists. eexists. split; [apply search_drawing_id_healthy, H|].
    apply py_next_first_match. intros x. apply id_is.
  - intros Hi. destruct i as [|c i]; [congruence|].
    eexists. eexists. split; [apply search_snapshot_id_healthy, H|].
    apply py_next_first_match. intros x. apply id_is.
Qed.

Lemma search_by_identifier_first_wins_witness :
  healthy Lab.st3
  /\ (exists st',
        search_node None (Some "n4") Lab.st3
        = (Ok (Some (Node.mk (Some "n4") "R1" None None 0 0 [])), st'))
  /\ (exists st',
        search_snapshot None (Some "s2") Lab.st3
        = (Ok (Some (Snapshot.mk (Some "s2") "monday")), st'))
  /\ (exists st',
        search_project None (Some "p9") Lab.st3 = (Ok None, st')).
Proof.
  split; [apply lab_healthy|].
  destruct (search_by_identifier_first_wins Lab.st3 "n4" (lab_healthy _ _ _))
    as (_ & (r2 & s2 & E2 & _) & _).
  destruct (search_by_identifier_first_wins Lab.st3 "s2" (lab_healthy _ _ _))
    as (_ & _ & _ & _ & G).
  destruct G as (r5 & s5 & E5 & _); [discriminate|].
  destruct (search_by_identifier_first_wins Lab.st3 "p9" (lab_healthy _ _ _))
    as ((r1 & s1 & E1 & _) & _).
  repeat split.
  - exists s2. rewrite E2. vm_compute in E2.
    injection E2 as <- _. reflexivity.
  - exists s5. rewrite E5. vm_compute in E5.
    injection E5 as <- _. reflexivity.
  - exists s1. rewrite E1. vm_compute in E1.
    injection E1 as <- _. reflexivity.
Defined.

(** X2.  [search_snapshot] tests its identifier for truth where the other
    searches test theirs against [None]: given no name and the empty string
    as identifier it raises the [ValueError] of a missing key (after its
    refresh, so when the transport does not fail, and never returns),
    while [search_node], [search_drawing], [search_project] and
    [search_template] run the search for the empty identifier and return
    what they find. *)
Theorem search_snapshot_empty_identifier (st : State) :
  healthy st ->
  search_snapshot None (Some EmptyString) st
  = (Raise (ValueError (NeedEither "name" "snapshot_id")), refreshed st)
  /\ (exists r st', search_node None (Some EmptyString) st = (Ok r, st'))
  /\ (exists r st', search_drawing None (Some EmptyString) st = (Ok r, st'))
  /\ (exists r st', search_project None (Some EmptyString) st = (Ok r, st'))
  /\ (exists r st', search_template None (Some EmptyString) st = (Ok r, st')).
Proof.
  intros H. split.
  - unfold search_snapshot.
    erewrite bind_ok by (apply refresh_project_healthy, H). reflexivity.
  - split; [|split; [|split]]; eexists; eexists.
    + apply search_node_id_healthy, H.
    + apply search_drawing_id_healthy, H.
    + apply search_project_id_healthy, H.
    + apply search_template_id_healthy, H.
Qed.

Lemma search_snapshot_empty_identifier_witness :
  healthy Lab.st0
  /\ search_snapshot None (Some EmptyString) Lab.st0
     = (Raise (ValueError (NeedEither "name" "snapshot_id")),
        refreshed Lab.st0)
  /\ exists st', search_node None (Some EmptyString) Lab.st0 = (Ok None, st').
Proof.
  split; [apply lab_healthy|].
  destruct (search_snapshot_empty_identifier Lab.st0 (lab_healthy _ _ _))
    as (E & (r & st' & En) & _).
  split; [exact E|]. exists st'. rewrite En. vm_compute in En.
  injection En as <- _. reflexivity.
Defined.

(** ** More on [refresh_project] *)

Lemma build_mem {A} (key : A -> Id) (l s : list A) (x : A) :
  set_mem key x s = true \/ In x l ->
  set_mem key x (fold_left (fun s x => set_add key x s) l s) = true.
Proof.
  revert s. induction l as [|y l IH]; intros s [H|H]; simpl in *;
    try assumption; try contradiction.
  - apply IH. left. unfold set_add.
    destruct (set_mem key y s); [assumption|].
    unfold set_mem in *. rewrite existsb_app, H. reflexivity.
  - apply IH. destruct H as [->|H]; [left; apply set_mem_add|right; exact H].
Qed.

Lemma set_of_list_listing {A} (key : A -> Id) (l : list A) :
  set_of_listing key l (set_of_list key l).
Proof.
  split; [apply set_of_list_is_set|]. split.
  - intros x. apply set_of_list_incl.
  - intros x Hx. apply build_mem. right. exact Hx.
Qed.

(** A stage of the refresh under its flag. *)
Lemma when_stage_inv {A} (b : bool) (res : Resource) (f : State -> list A)
    (g : list A -> Project.t -> Project.t) (st st' : State) (o : Outcome unit) :
  when b (bind (bind (http_call (Req GET res)) (fun _ => gets f))
               (fun l => on_project (g l))) st = (o, st') ->
  (b = false /\ o = Ok tt /\ st' = st)
  \/ (b = true /\ o = Raise TransportError
      /\ fails st (List.length (log st)) = true
      /\ st' = with_log (Req GET res :: log st) st)
  \/ (b = true /\ o = Ok tt
      /\ fails st (List.length (log st)) = false
      /\ st' = with_project
                 (g (f (with_log (Req GET res :: log st) st)) (project st))
                 (with_log (Req GET res :: log st) st)).
Proof.
  destruct b; simpl.
  - intros H. right.
    assert (F : fails st (List.length (log st)) = true \/
                fails st (List.length (log st)) = false)
      by (destruct (fails st _); auto).
    pose proof H as H'. apply refresh_stage_inv in H' as [[-> ->]|[-> ->]].
    + left. repeat split. destruct F as [F|F]; [exact F|].
      exfalso. revert H. unfold bind, http_call. rewrite F.
      unfold gets, on_project, modify. discriminate.
    + right. repeat split. destruct F as [F|F]; [|exact F].
      exfalso. revert H. unfold bind, http_call. rewrite F. discriminate.
  - unfold ret. intros [= <- <-]. left. auto.
Qed.

Ltac stage H :=
  apply when_stage_inv in H;
  destruct H as [(-> & ? & ->)|[(-> & ? & ? & ->)|(-> & ? & ? & ->)]];
  try congruence.

Ltac refresh_done :=
  subst; unfold only_gets, replaced, with_project, with_log in *;
  cbn in *;
  repeat match goal with
         | |- _ /\ _ => split
         | |- healthy _ -> _ =>
             let Hh := fresh "Hh" in
             intros Hh; unfold healthy in Hh;
             repeat match goal with
                    | F : fails _ _ = true |- _ => rewrite Hh in F; discriminate F
                    end
         end;
  try reflexivity;
  try (repeat (apply trace_cons; [reflexivity|]); apply trace_nil).

(** X3.  Whatever its four flags, [refresh_project] only issues [GET]
    requests and leaves the server as it is.  When it returns, the sets
    whose flag is set are the sets of the server's listings and the others
    are untouched.  When it raises, the exception is that of the transport,
    and the sets are replaced up to the stage that failed, in the order
    snapshots, drawings, nodes, links: a refresh cut short leaves the
    project half refreshed.  It returns whenever the transport does not
    fail. *)
Theorem refresh_project_by_flags
    (links nodes snapshots drawings : bool) (st st' : State)
    (o : Outcome unit) :
  refresh_project links nodes snapshots drawings st = (o, st') ->
  server st' = server st
  /\ only_gets st st'
  /\ ((o = Ok tt /\ replaced snapshots drawings nodes links st st')
      \/ (o = Raise TransportError
          /\ ((snapshots = true /\ replaced false false false false st st')
              \/ (drawings = true
                  /\ replaced snapshots false false false st st')
              \/ (nodes = true
                  /\ replaced snapshots drawings false false st st')
              \/ (links = true
                  /\ replaced snapshots drawings nodes false st st'))))
  /\ (healthy st -> o = Ok tt).
Proof.
  unfold refresh_project, get_snapshots, get_drawings, get_nodes, get_links.
  intros H.
  inv_bind_as H u1 s1.
  { stage Hm. refresh_done. right. split; [congruence|]. left.
    refresh_done. }
  inv_bind_as H u2 s2.
  { stage Hm0; stage Hm; refresh_done;
      (right; split; [congruence|]; right; left; refresh_done). }
  inv_bind_as H u3 s3.
  { stage Hm1; stage Hm0; stage Hm; refresh_done;
      (right; split; [congruence|]; right; right; left; refresh_done). }
  stage Hm1; stage Hm0; stage Hm; stage H; refresh_done;
    first [ left; split; [reflexivity|]; refresh_done
          | right; split; [reflexivity|]; right; right; right; refresh_done ].
Qed.

Lemma refresh_project_by_flags_witness :
  (exists st',
     refresh_project false true false false Lab2.st_full = (Ok tt, st')
     /\ Project.nodes (project st') = [Lab.R1; Lab.R2; Lab.R3]
     /\ Project.links (project st') = []
     /\ only_gets Lab2.st_full st')
  /\ (exists st',
        refresh_project true true true true Lab2.st_third
        = (Raise TransportError, st')
        /\ Project.snapshots (project st') = [Snapshot.mk (Some "s1") "monday"]
        /\ Project.drawings (project st') = [Drawing.mk (Some "d1") "<svg/>"]
        /\ Project.nodes (project st') = []
        /\ Project.links (project st') = []
        /\ only_gets Lab2.st_third st').
Proof.
  split.
  - destruct (refresh_project false true false false Lab2.st_full)
      as [o st'] eqn:E.
    destruct (refresh_project_by_flags _ _ _ _ _ _ _ E)
      as (_ & Og & _ & Hh).
    rewrite (Hh (lab_healthy _ _ _)) in *.
    exists st'. split; [reflexivity|].
    vm_compute in E. injection E as <-.
    repeat split. exact Og.
  - destruct (refresh_project true true true true Lab2.st_third)
      as [o st'] eqn:E.
    destruct (refresh_project_by_flags _ _ _ _ _ _ _ E) as (_ & Og & _ & _).
    exists st'. vm_compute in E. injection E as <- <-.
    repeat split. exact Og.
Defined.

(** X4.  When a full [refresh_project] returns, each of the project's four
    sets is the set of the server's listing: its members bear pairwise
    different identifiers, all come from the listing, and every identifier
    of the listing has its member.  A second refresh, the server being
    what it was, leaves the project as the first one made it. *)
Theorem refresh_project_sets (st st' : State) :
  refresh_project true true true true st = (Ok tt, st') ->
  set_of_listing Node.node_id (Server.nodes (server st))
    (Project.nodes (project st'))
  /\ set_of_listing Link.link_id (Server.links (server st))
       (Project.links (project st'))
  /\ set_of_listing Drawing.drawing_id (Server.drawings (server st))
       (Project.drawings (project st'))
  /\ set_of_listing Snapshot.snapshot_id (Server.snapshots (server st))
       (Project.snapshots (project st'))
  /\ (forall st'',
        refresh_project true true true true st' = (Ok tt, st'') ->
        project st'' = project st').
Proof.
  intros H. apply refresh_project_inv in H as [_ [[_ ->]|?]]; [|congruence].
  repeat split; try apply set_of_list_is_set;
    try (intros x; apply set_of_list_incl);
    try (intros x Hx; apply build_mem; right; exact Hx).
  intros st'' H.
  apply refresh_project_inv in H as [_ [[_ ->]|?]]; [|congruence].
  reflexivity.
Qed.

Lemma refresh_project_sets_witness :
  exists st',
    refresh_project true true true true Lab.st3 = (Ok tt, st')
    /\ set_of_listing Node.node_id (Server.nodes (server Lab.st3))
         (Project.nodes (project st'))
    /\ List.length (Project.nodes (project st')) = 2.
Proof.
  exists (refreshed Lab.st3).
  assert (E : refresh_project true true true true Lab.st3
              = (Ok tt, refreshed Lab.st3)) by reflexivity.
  split; [exact E|].
  split; [apply (refresh_project_sets _ _ E)|reflexivity].
Defined.

(** ** Creating *)

Lemma remote_create_healthy {A} (r : Resource) (assign : Server.t -> A)
    (store : A -> Server.t -> Server.t) (st : State) :
  healthy st ->
  remote_create r assign store st
  = (Ok (assign (server st)),
     with_server (store (assign (server st)) (server st))
       (with_log (Req POST r :: log st) st)).
Proof.
  intros H. unfold remote_create.
  erewrite bind_ok by (apply http_call_healthy, H). reflexivity.
Qed.

Lemma remote_delete_healthy {A} (key : A -> Id) (listing : Server.t -> list A)
    (drop : Server.t -> Server.t) (r : Resource) (i : Id) (st : State) :
  healthy st ->
  remote_delete key listing drop r i st
  = if has_id key i (listing (server st))
    then (Ok tt, with_server (drop (server st))
                   (with_log (Req DELETE r :: log st) st))
    else (Raise TransportError, with_log (Req DELETE r :: log st) st).
Proof.
  intros H. unfold remote_delete.
  erewrite bind_ok by (apply http_call_healthy, H).
  unfold bind, gets. cbn [server with_log].
  destruct (has_id key i (listing (server st))); reflexivity.
Qed.

(** The state a search of snapshots or drawings reaches: the refresh, then
    the listing. *)
Lemma create_snapshot_run (name : string) (st : State) :
  healthy st ->
  let st1 := with_log (Req GET SnapshotsR :: log (refreshed st)) (refreshed st) in
  let s := Snapshot.mk
             (fresh_id (map Snapshot.snapshot_id (Server.snapshots (server st))))
             name in
  create_snapshot name st
  = match py_next (fun x => String.eqb (Snapshot.name x) name)
            (Server.snapshots (server st)) with
    | Some _ => (Raise (ValueError (AlreadyExists "Snapshot")), st1)
    | None =>
        (Ok s,
         mkState
           (Project.with_snapshots
              (set_add Snapshot.snapshot_id s
                 (set_of_list Snapshot.snapshot_id
                    (Server.snapshots (server st))))
              (project (refreshed st)))
           (Server.with_snapshots (Server.snapshots (server st) ++ [s])
              (server st))
           (Req POST SnapshotsR :: log st1)
           (fails st))
    end.
Proof.
  intros H st1 s. unfold create_snapshot.
  rewrite (bind_ok _ _ _ _ _ (search_snapshot_healthy name None st H)).
  destruct (py_next _ (Server.snapshots (server st))); [reflexivity|].
  unfold Snapshot_create.
  erewrite bind_ok by (apply remote_create_healthy; auto).
  reflexivity.
Qed.

Lemma create_drawing_run (svg : string) (st : State) :
  healthy st ->
  let st1 := with_log (Req GET DrawingsR :: log (refreshed st)) (refreshed st) in
  let d := Drawing.mk
             (fresh_id (map Drawing.drawing_id (Server.drawings (server st))))
             svg in
  create_drawing svg st
  = match py_next (fun x => String.eqb (Drawing.svg x) svg)
            (Server.drawings (server st)) with
    | Some _ => (Raise (ValueError (AlreadyExists "Drawing")), st1)
    | None =>
        (Ok d,
         mkState
           (Project.with_drawings
              (set_add Drawing.drawing_id d
                 (set_of_list Drawing.drawing_id
                    (Server.drawings (server st))))
              (project (refreshed st)))
           (Server.with_drawings (Server.drawings (server st) ++ [d])
              (server st))
           (Req POST DrawingsR :: log st1)
           (fails st))
    end.
Proof.
  intros H st1 d. unfold create_drawing.
  rewrite (bind_ok _ _ _ _ _ (search_drawing_healthy svg None st H)).
  destruct (py_next _ (Server.drawings (server st))); [reflexivity|].
  unfold Drawing_create.
  erewrite bind_ok by (apply remote_create_healthy; auto).
  reflexivity.
Qed.

Lemma create_project_run (name : string) (st : State) :
  healthy st ->
  let st1 := with_log (Req GET ProjectsR :: log st) st in
  let i := fresh_id (map fst (Server.projects (server st))) in
  create_project name st
  = match py_next (fun x => String.eqb (Project.name x) name)
            (map Project_of_raw (Server.projects (server st))) with
    | Some _ => (Raise (ValueError (AlreadyExists "Project")), st1)
    | None =>
        (Ok (Project.mk i name [] [] [] []),
         mkState (project st)
           (Server.with_projects (Server.projects (server st) ++ [(i, name)])
              (server st))
           (Req POST ProjectsR :: log st1)
           (fails st))
    end.
Proof.
  intros H st1 i. unfold create_project.
  rewrite (bind_ok _ _ _ _ _ (search_project_healthy name None st H)).
  destruct (py_next _ (map Project_of_raw _)); [reflexivity|].
  unfold Project_create.
  erewrite bind_ok by (apply remote_create_healthy; auto).
  reflexivity.
Qed.

Lemma create_template_run (name : string) (st : State) :
  healthy st ->
  let st1 := with_log (Req GET TemplatesR :: log st) st in
  let t := Template.mk
             (fresh_id (map Template.template_id (Server.templates (server st))))
             name in
  create_template name st
  = match py_next (fun x => String.eqb (Template.name x) name)
            (Server.templates (server st)) with
    | Some _ => (Raise (ValueError (AlreadyExists "Template")), st1)
    | None =>
        (Ok t,
         mkState (project st)
           (Server.with_templates (Server.templates (server st) ++ [t])
              (server st))
           (Req POST TemplatesR :: log st1)
           (fails st))
    end.
Proof.
  intros H st1 t. unfold create_template.
  rewrite (bind_ok _ _ _ _ _ (search_template_healthy name None st H)).
  destruct (py_next _ (Server.templates (server st))); [reflexivity|].
  unfold Template_create.
  rewrite remote_create_healthy by auto. reflexivity.
Qed.

Lemma create_node_run (name template_name : string) (x y : Z) (st : State) :
  healthy st ->
  let st1 := refreshed st in
  let st2 := with_log (Req GET TemplatesR :: log st1) st1 in
  create_node name template_name x y st
  = match py_next (fun n => String.eqb (Node.name n) name)
            (set_of_list Node.node_id (Server.nodes (server st))) with
    | Some _ => (Raise (ValueError (AlreadyExists "Node")), st1)
    | None =>
        match py_next (fun t => String.eqb (Template.name t) template_name)
                (Server.templates (server st)) with
        | None => (Raise (ValueError (NotFound "Template")), st2)
        | Some t =>
            let n := Node.mk
                       (fresh_id (map Node.node_id (Server.nodes (server st))))
                       name (Some (Template.name t)) (Template.template_id t)
                       x y [] in
            (Ok n,
             mkState
               (Project.with_nodes
                  (set_add Node.node_id n
                     (set_of_list Node.node_id (Server.nodes (server st))))
                  (project st1))
               (Server.with_nodes (Server.nodes (server st) ++ [n]) (server st))
               (Req POST NodesR :: log st2)
               (fails st))
        end
    end.
Proof.
  intros H st1 st2. unfold create_node.
  rewrite (bind_ok _ _ _ _ _ (search_node_healthy name None st H)).
  destruct (py_next _ (set_of_list _ _)); [reflexivity|].
  erewrite bind_ok by (apply search_template_healthy; auto).
  cbn [server refreshed].
  destruct (py_next _ (Server.templates (server st))) as [t|]; [|reflexivity].
  unfold Node_create.
  erewrite bind_ok by (apply remote_create_healthy; auto).
  reflexivity.
Qed.

Lemma py_next_snoc_new {A} (c : A -> bool) (l : list A) (x : A) :
  py_next c l = None -> c x = true -> py_next c (l ++ [x]) = Some x.
Proof. intros Hl Hx. rewrite py_next_app, Hl. simpl. rewrite Hx. reflexivity. Qed.

Lemma py_next_absent {A} (c : A -> bool) (P : A -> Prop) (l : list A) :
  (forall x, c x = true -> P x) ->
  (forall x, In x l -> ~ P x) ->
  py_next c l = None.
Proof.
  intros HP Hl. apply py_next_none. intros y Hy.
  destruct (c y) eqn:E; [|reflexivity]. exfalso. apply (Hl y Hy), HP, E.
Qed.

Ltac gets_done :=
  unfold only_gets, refreshed, with_log; cbn [log];
  repeat (apply trace_cons; [reflexivity|]); apply trace_nil.

Lemma only_gets_after_search (res : Resource) (st : State) :
  only_gets st (with_log (Req GET res :: log (refreshed st)) (refreshed st)).
Proof. gets_done. Qed.

Lemma only_gets_refreshed (st : State) : only_gets st (refreshed st).
Proof. gets_done. Qed.

Lemma only_gets_one (res : Resource) (st : State) :
  only_gets st (with_log (Req GET res :: log st) st).
Proof. gets_done. Qed.

(** X5.  With a transport that does not fail, a creation under a name that
    is taken raises the [ValueError] "... with same name already exists"
    after [GET] requests only, the server being left as it is: a project or
    a template listed under the name, a node of the refreshed node set
    under the name, a snapshot listed under the name, a drawing listed with
    the SVG string. *)
Theorem create_refuses_taken_name (st : State) (name : string) :
  healthy st ->
  ((exists p, In p (Server.projects (server st)) /\ snd p = name) ->
   exists st',
     create_project name st = (Raise (ValueError (AlreadyExists "Project")), st')
     /\ only_gets st st' /\ server st' = server st)
  /\ ((exists t, In t (Server.templates (server st)) /\ Template.name t = name) ->
      exists st',
        create_template name st
        = (Raise (ValueError (AlreadyExists "Template")), st')
        /\ only_gets st st' /\ server st' = server st)
  /\ ((exists n, In n (set_of_list Node.node_id (Server.nodes (server st)))
                 /\ Node.name n = name) ->
      forall template_name x y,
      exists st',
        create_node name template_name x y st
        = (Raise (ValueError (AlreadyExists "Node")), st')
        /\ only_gets st st' /\ server st' = server st)
  /\ ((exists s, In s (Server.snapshots (server st)) /\ Snapshot.name s = name) ->
      exists st',
        create_snapshot name st
        = (Raise (ValueError (AlreadyExists "Snapshot")), st')
        /\ only_gets st st' /\ server st' = server st)
  /\ ((exists d, In d (Server.drawings (server st)) /\ Drawing.svg d = name) ->
      exists st',
        create_drawing name st
        = (Raise (ValueError (AlreadyExists "Drawing")), st')
        /\ only_gets st st' /\ server st' = server st).
Proof.
  intros H. split; [|split; [|split; [|split]]].
  - intros (p & Hp & Hn). rewrite (create_project_run name st H).
    destruct (py_next_found
                (fun x => String.eqb (Project.name x) name)
                (map Project_of_raw (Server.projects (server st)))
                (Project_of_raw p)) as (y & -> & _);
      [apply in_map, Hp|simpl; rewrite Hn; apply String.eqb_refl|].
    eexists. split; [reflexivity|]. split; [apply only_gets_one|reflexivity].
  - intros (t & Ht & Hn). rewrite (create_template_run name st H).
    destruct (py_next_found
                (fun x => String.eqb (Template.name x) name)
                (Server.templates (server st)) t) as (y & -> & _);
      [exact Ht|rewrite Hn; apply String.eqb_refl|].
    eexists. split; [reflexivity|]. split; [apply only_gets_one|reflexivity].
  - intros (n & Hn & Hm) template_name x y.
    rewrite (create_node_run name template_name x y st H).
    destruct (py_next_found
                (fun x => String.eqb (Node.name x) name)
                (set_of_list Node.node_id (Server.nodes (server st))) n)
      as (z & -> & _);
      [exact Hn|rewrite Hm; apply String.eqb_refl|].
    eexists. split; [reflexivity|].
    split; [apply only_gets_refreshed|reflexivity].
  - intros (s & Hs & Hn). rewrite (create_snapshot_run name st H).
    destruct (py_next_found
                (fun x => String.eqb (Snapshot.name x) name)
                (Server.snapshots (server st)) s) as (y & -> & _);
      [exact Hs|rewrite Hn; apply String.eqb_refl|].
    eexists. split; [reflexivity|].
    split; [apply only_gets_after_search|reflexivity].
  - intros (d & Hd & Hn). rewrite (create_drawing_run name st H).
    destruct (py_next_found
                (fun x => String.eqb (Drawing.svg x) name)
                (Server.drawings (server st)) d) as (y & -> & _);
      [exact Hd|rewrite Hn; apply String.eqb_refl|].
    eexists. split; [reflexivity|].
    split; [apply only_gets_after_search|reflexivity].
Qed.

Lemma create_refuses_taken_name_witness :
  healthy Lab2.st_full
  /\ (exists st',
        create_project "lab2" Lab2.st_full
        = (Raise (ValueError (AlreadyExists "Project")), st')
        /\ only_gets Lab2.st_full st')
  /\ (exists st',
        create_node "R2" "router" 0 0 Lab2.st_full
        = (Raise (ValueError (AlreadyExists "Node")), st')
        /\ only_gets Lab2.st_full st')
  /\ (exists st',
        create_snapshot "monday" Lab2.st_full
        = (Raise (ValueError (AlreadyExists "Snapshot")), st')
        /\ only_gets Lab2.st_full st').
Proof.
  split; [apply lab_healthy|].
  destruct (create_refuses_taken_name Lab2.st_full "lab2" (lab_healthy _ _ _))
    as (P & _).
  destruct (create_refuses_taken_name Lab2.st_full "R2" (lab_healthy _ _ _))
    as (_ & _ & N & _).
  destruct (create_refuses_taken_name Lab2.st_full "monday" (lab_healthy _ _ _))
    as (_ & _ & _ & S & _).
  split; [|split].
  - destruct P as (st' & E & Og & _);
      [exists (Some "p2", "lab2"); simpl; auto|]. eauto.
  - destruct (N (ex_intro _ Lab.R2 (conj (or_intror (or_introl eq_refl))
                                          eq_refl)) "router" 0%Z 0%Z)
      as (st' & E & Og & _). eauto.
  - destruct S as (st' & E & Og & _);
      [exists (Snapshot.mk (Some "s1") "monday"); simpl; auto|]. eauto.
Defined.

(** X6.  With a transport that does not fail, [create_node] under a free
    name and with the name of a template the server does not list raises
    the [ValueError] "Template not found" after [GET] requests only: no
    node is created. *)
Theorem create_node_without_template
    (st : State) (name template_name : string) (x y : Z) :
  healthy st ->
  (forall n, In n (set_of_list Node.node_id (Server.nodes (server st))) ->
             Node.name n <> name) ->
  (forall t, In t (Server.templates (server st)) ->
             Template.name t <> template_name) ->
  exists st',
    create_node name template_name x y st
    = (Raise (ValueError (NotFound "Template")), st')
    /\ only_gets st st' /\ server st' = server st /\ synced st'.
Proof.
  intros H Hn Ht. rewrite (create_node_run name template_name x y st H).
  rewrite (py_next_absent _ (fun n => Node.name n = name) _
             (fun n => proj1 (String.eqb_eq _ _)) Hn).
  rewrite (py_next_absent _ (fun t => Template.name t = template_name) _
             (fun t => proj1 (String.eqb_eq _ _)) Ht).
  eexists. split; [reflexivity|].
  split; [apply only_gets_after_search|]. split; [reflexivity|].
  apply refreshed_synced.
Qed.

Lemma create_node_without_template_witness :
  healthy Lab2.st_full
  /\ exists st',
       create_node "R9" "switch" 0 0 Lab2.st_full
       = (Raise (ValueError (NotFound "Template")), st')
       /\ only_gets Lab2.st_full st'.
Proof.
  split; [apply lab_healthy|].
  destruct (create_node_without_template Lab2.st_full "R9" "switch" 0 0
              (lab_healthy _ _ _)) as (st' & E & Og & _).
  - intros n [<-|[<-|[<-|[]]]]; discriminate.
  - intros t [<-|[]]; discriminate.
  - eauto.
Defined.

Lemma one_write_after_search (w : Request) (res : Resource) (st : State) :
  exists l,
    w :: log (with_log (Req GET res :: log (refreshed st)) (refreshed st))
    = w :: l ++ log st
    /\ Forall (fun r => is_get r = true) l.
Proof.
  exists [Req GET res; Req GET LinksR; Req GET NodesR; Req GET DrawingsR;
          Req GET SnapshotsR].
  split; [reflexivity|]. repeat constructor.
Qed.

(** X7.  With a transport that does not fail, [create_snapshot] under a
    name no snapshot of the server bears returns a snapshot of that name
    with an identifier no snapshot bore; the server lists it last, the
    project's snapshot set is the set of the server's new listing, and the
    [POST] is the only request that is not a [GET].  Thereafter the search
    by that name returns this snapshot, and a second [create_snapshot]
    under the name is refused. *)
Theorem create_snapshot_then_found (st : State) (name : string) :
  healthy st ->
  (forall s, In s (Server.snapshots (server st)) -> Snapshot.name s <> name) ->
  exists s st',
    create_snapshot name st = (Ok s, st')
    /\ Snapshot.name s = name
    /\ ~ In (Snapshot.snapshot_id s)
         (map Snapshot.snapshot_id (Server.snapshots (server st)))
    /\ Server.snapshots (server st') = Server.snapshots (server st) ++ [s]
    /\ Project.snapshots (project st')
       = set_of_list Snapshot.snapshot_id (Server.snapshots (server st'))
    /\ (exists l, log st' = Req POST SnapshotsR :: l ++ log st
                  /\ Forall (fun r => is_get r = true) l)
    /\ (exists st2,
          search_snapshot (Some name) None st' = (Ok (Some s), st2))
    /\ (exists st2,
          create_snapshot name st'
          = (Raise (ValueError (AlreadyExists "Snapshot")), st2)
          /\ only_gets st' st2).
Proof.
  intros H Hn.
  pose proof (py_next_absent _ (fun s => Snapshot.name s = name) _
                (fun s => proj1 (String.eqb_eq _ _)) Hn) as N.
  rewrite (create_snapshot_run name st H), N.
  eexists. eexists. split; [reflexivity|].
  set (s := Snapshot.mk _ name).
  set (st' := mkState _ _ _ _).
  assert (H' : healthy st') by (intros n; apply H).
  assert (F : py_next (fun x => String.eqb (Snapshot.name x) name)
                (Server.snapshots (server st')) = Some s).
  { apply py_next_snoc_new; [exact N|apply String.eqb_refl]. }
  split; [reflexivity|]. split; [apply fresh_id_fresh|].
  split; [reflexivity|].
  split; [symmetry; apply set_of_list_snoc|].
  split; [apply one_write_after_search|]. split.
  - rewrite (search_snapshot_healthy name None st' H'), F. eauto.
  - rewrite (create_snapshot_run name st' H'), F.
    eexists. split; [reflexivity|apply only_gets_after_search].
Qed.

Lemma create_snapshot_then_found_witness :
  healthy Lab2.st_full
  /\ exists s st' st2,
       create_snapshot "friday" Lab2.st_full = (Ok s, st')
       /\ Server.snapshots (server st')
          = [Snapshot.mk (Some "s1") "monday"; s]
       /\ search_snapshot (Some "friday") None st' = (Ok (Some s), st2).
Proof.
  split; [apply lab_healthy|].
  destruct (create_snapshot_then_found Lab2.st_full "friday" (lab_healthy _ _ _))
    as (s & st' & E & _ & _ & Hs & _ & _ & (st2 & F) & _).
  - intros s [<-|[]]; discriminate.
  - exists s, st', st2. auto.
Defined.

(** X8.  The same for [create_drawing], the SVG string standing for the
    name: a drawing with the string and a new identifier, listed last by
    the server, the project's drawing set in step, one [POST]; then found
    by its string and not created twice. *)
Theorem create_drawing_then_found (st : State) (svg : string) :
  healthy st ->
  (forall d, In d (Server.drawings (server st)) -> Drawing.svg d <> svg) ->
  exists d st',
    create_drawing svg st = (Ok d, st')
    /\ Drawing.svg d = svg
    /\ ~ In (Drawing.drawing_id d)
         (map Drawing.drawing_id (Server.drawings (server st)))
    /\ Server.drawings (server st') = Server.drawings (server st) ++ [d]
    /\ Project.drawings (project st')
       = set_of_list Drawing.drawing_id (Server.drawings (server st'))
    /\ (exists l, log st' = Req POST DrawingsR :: l ++ log st
                  /\ Forall (fun r => is_get r = true) l)
    /\ (exists st2,
          search_drawing (Some svg) None st' = (Ok (Some d), st2))
    /\ (exists st2,
          create_drawing svg st'
          = (Raise (ValueError (AlreadyExists "Drawing")), st2)
          /\ only_gets st' st2).
Proof.
  intros H Hn.
  pose proof (py_next_absent _ (fun d => Drawing.svg d = svg) _
                (fun d => proj1 (String.eqb_eq _ _)) Hn) as N.
  rewrite (create_drawing_run svg st H), N.
  eexists. eexists. split; [reflexivity|].
  set (d := Drawing.mk _ svg).
  set (st' := mkState _ _ _ _).
  assert (H' : healthy st') by (intros n; apply H).
  assert (F : py_next (fun x => String.eqb (Drawing.svg x) svg)
                (Server.drawings (server st')) = Some d).
  { apply py_next_snoc_new; [exact N|apply String.eqb_refl]. }
  split; [reflexivity|]. split; [apply fresh_id_fresh|].
  split; [reflexivity|].
  split; [symmetry; apply set_of_list_snoc|].
  split; [apply one_write_after_search|]. split.
  - rewrite (search_drawing_healthy svg None st' H'), F. eauto.
  - rewrite (create_drawing_run svg st' H'), F.
    eexists. split; [reflexivity|apply only_gets_after_search].
Qed.

Lemma create_drawing_then_found_witness :
  healthy Lab2.st_full
  /\ exists d st' st2,
       create_drawing "<svg>x</svg>" Lab2.st_full = (Ok d, st')
       /\ Server.drawings (server st')
          = [Drawing.mk (Some "d1") "<svg/>"; d]
       /\ search_drawing (Some "<svg>x</svg>") None st' = (Ok (Some d), st2).
Proof.
  split; [apply lab_healthy|].
  destruct (create_drawing_then_found Lab2.st_full "<svg>x</svg>"
              (lab_healthy _ _ _))
    as (d & st' & E & _ & _ & Hs & _ & _ & (st2 & F) & _).
  - intros d [<-|[]]; discriminate.
  - exists d, st', st2. auto.
Defined.

Lemma fresh_not_listed {A} (key : A -> Id) (l : list A) :
  py_next (fun x => id_eqb (key x) (fresh_id (map key l))) l = None.
Proof.
  apply py_next_none. intros y Hy. apply id_eqb_neq. intros E.
  apply (fresh_id_fresh (map key l)). rewrite <- E. apply in_map, Hy.
Qed.

(** X9.  With a transport that does not fail, [create_node] under a name
    no node of the refreshed node set bears and with the name of a listed
    template returns a node of that name, placed at the coordinates given,
    with the name and the identifier of the first template of that name
    and with an identifier no node bore; the server lists it last, the
    project's node set is the set of the server's new listing, and the
    [POST] is the only request that is not a [GET].  Thereafter the search
    by that name and the search by the new identifier both return this
    node, and a second [create_node] under the name is refused. *)
Theorem create_node_then_found
    (st : State) (name template_name : string) (x y : Z) (t : Template.t) :
  healthy st ->
  (forall n, In n (set_of_list Node.node_id (Server.nodes (server st))) ->
             Node.name n <> name) ->
  py_next (fun t => String.eqb (Template.name t) template_name)
    (Server.templates (server st)) = Some t ->
  exists n st' i,
    create_node name template_name x y st = (Ok n, st')
    /\ n = Node.mk (Some i) name (Some (Template.name t))
             (Template.template_id t) x y []
    /\ ~ In (Some i) (map Node.node_id (Server.nodes (server st)))
    /\ Server.nodes (server st') = Server.nodes (server st) ++ [n]
    /\ Project.nodes (project st')
       = set_of_list Node.node_id (Server.nodes (server st'))
    /\ (exists l, log st' = Req POST NodesR :: l ++ log st
                  /\ Forall (fun r => is_get r = true) l)
    /\ (exists st2, search_node (Some name) None st' = (Ok (Some n), st2))
    /\ (exists st2, search_node None (Some i) st' = (Ok (Some n), st2))
    /\ (exists st2,
          create_node name template_name x y st'
          = (Raise (ValueError (AlreadyExists "Node")), st2)
          /\ only_gets st' st2).
Proof.
  intros H Hn Ht.
  pose proof (py_next_absent _ (fun n => Node.name n = name) _
                (fun n => proj1 (String.eqb_eq _ _)) Hn) as N.
  rewrite (create_node_run name template_name x y st H), N, Ht.
  eexists. eexists. eexists. split; [reflexivity|].
  set (n := Node.mk _ name _ _ x y []).
  set (st' := mkState _ _ _ _).
  assert (H' : healthy st') by (intros k; apply H).
  assert (S' : set_of_list Node.node_id (Server.nodes (server st'))
               = set_of_list Node.node_id (Server.nodes (server st)) ++ [n]).
  { apply (set_add_fresh Node.node_id n). apply fresh_id_fresh. }
  assert (F : py_next (fun z => String.eqb (Node.name z) name)
                (set_of_list Node.node_id (Server.nodes (server st')))
              = Some n).
  { rewrite S'. apply py_next_snoc_new; [exact N|apply String.eqb_refl]. }
  split; [reflexivity|]. split; [apply fresh_id_fresh|].
  split; [reflexivity|].
  split; [symmetry; apply set_of_list_snoc|].
  split.
  { exists [Req GET TemplatesR; Req GET LinksR; Req GET NodesR;
            Req GET DrawingsR; Req GET SnapshotsR].
    split; [reflexivity|repeat constructor]. }
  split; [rewrite (search_node_healthy name None st' H'), F; eauto|].
  split.
  - rewrite (search_node_id_healthy _ st' H').
    change (Server.nodes (server st')) with (Server.nodes (server st) ++ [n]).
    rewrite py_next_snoc_new; [eauto|apply fresh_not_listed|apply id_eqb_refl].
  - rewrite (create_node_run name template_name x y st' H'), F.
    eexists. split; [reflexivity|apply only_gets_refreshed].
Qed.

Lemma create_node_then_found_witness :
  healthy Lab2.st_full
  /\ exists n st' st2,
       create_node "R9" "router" 30 40 Lab2.st_full = (Ok n, st')
       /\ Node.name n = "R9" /\ Node.x n = 30%Z /\ Node.y n = 40%Z
       /\ Node.template_id n = Some "t1"
       /\ Server.nodes (server st') = [Lab.R1; Lab.R2; Lab.R3; n]
       /\ search_node (Some "R9") None st' = (Ok (Some n), st2).
Proof.
  split; [apply lab_healthy|].
  destruct (create_node_then_found Lab2.st_full "R9" "router" 30 40
              (Template.mk (Some "t1") "router") (lab_healthy _ _ _))
    as (n & st' & i & E & -> & _ & Hs & _ & _ & (st2 & F) & _).
  - intros n [<-|[<-|[<-|[]]]]; discriminate.
  - reflexivity.
  - eexists. exists st', st2.
    split; [exact E|]. repeat (split; [reflexivity|]).
    split; [exact Hs|exact F].
Defined.

(** X10.  With a transport that does not fail, [create_project] under a
    name no project of the server bears returns a project of that name
    with a new identifier and empty collections; the server lists it last
    and the [POST] follows a single [GET].  Thereafter the search by that
    name returns this project and a second [create_project] under the name
    is refused.  So it is for [create_template].  Neither touches the
    [Project] object at hand. *)
Theorem create_project_or_template_then_found (st : State) (name : string) :
  healthy st ->
  ((forall p, In p (Server.projects (server st)) -> snd p <> name) ->
   exists p st',
     create_project name st = (Ok p, st')
     /\ (exists i, p = Project.mk (Some i) name [] [] [] []
                   /\ ~ In (Some i) (map fst (Server.projects (server st))))
     /\ Server.projects (server st')
        = Server.projects (server st) ++ [(Project.project_id p, name)]
     /\ log st' = Req POST ProjectsR :: Req GET ProjectsR :: log st
     /\ project st' = project st
     /\ (exists st2, search_project (Some name) None st' = (Ok (Some p), st2))
     /\ (exists st2,
           create_project name st'
           = (Raise (ValueError (AlreadyExists "Project")), st2)
           /\ only_gets st' st2))
  /\ ((forall t, In t (Server.templates (server st)) ->
                 Template.name t <> name) ->
      exists t st',
        create_template name st = (Ok t, st')
        /\ (exists i, t = Template.mk (Some i) name
                      /\ ~ In (Some i)
                           (map Template.template_id
                              (Server.templates (server st))))
        /\ Server.templates (server st') = Server.templates (server st) ++ [t]
        /\ log st' = Req POST TemplatesR :: Req GET TemplatesR :: log st
        /\ project st' = project st
        /\ (exists st2,
              search_template (Some name) None st' = (Ok (Some t), st2))
        /\ (exists st2,
              create_template name st'
              = (Raise (ValueError (AlreadyExists "Template")), st2)
              /\ only_gets st' st2)).
Proof.
  intros H. split.
  - intros Hn.
    assert (N : py_next (fun x => String.eqb (Project.name x) name)
                  (map Project_of_raw (Server.projects (server st))) = None).
    { apply py_next_none. intros y Hy. apply in_map_iff in Hy.
      destruct Hy as (p & <- & Hp). apply String.eqb_neq. simpl.
      apply Hn, Hp. }
    rewrite (create_project_run name st H), N.
    eexists. eexists. split; [reflexivity|].
    set (st' := mkState _ _ _ _).
    assert (H' : healthy st') by (intros k; apply H).
    assert (F : py_next (fun x => String.eqb (Project.name x) name)
                  (map Project_of_raw (Server.projects (server st')))
                = Some (Project.mk
                          (fresh_id (map fst (Server.projects (server st))))
                          name [] [] [] [])).
    { change (Server.projects (server st'))
        with (Server.projects (server st)
              ++ [(fresh_id (map fst (Server.projects (server st))), name)]).
      rewrite map_app. apply py_next_snoc_new; [exact N|apply String.eqb_refl]. }
    split; [eexists; split; [reflexivity|apply fresh_id_fresh]|].
    split; [reflexivity|]. split; [reflexivity|]. split; [reflexivity|].
    split.
    + rewrite (search_project_healthy name None st' H'), F. eauto.
    + rewrite (create_project_run name st' H'), F.
      eexists. split; [reflexivity|apply only_gets_one].
  - intros Hn.
    pose proof (py_next_absent _ (fun t => Template.name t = name) _
                  (fun t => proj1 (String.eqb_eq _ _)) Hn) as N.
    rewrite (create_template_run name st H), N.
    eexists. eexists. split; [reflexivity|].
    set (t := Template.mk _ name).
    set (st' := mkState _ _ _ _).
    assert (H' : healthy st') by (intros k; apply H).
    assert (F : py_next (fun x => String.eqb (Template.name x) name)
                  (Server.templates (server st')) = Some t).
    { apply py_next_snoc_new; [exact N|apply String.eqb_refl]. }
    split; [eexists; split; [reflexivity|apply fresh_id_fresh]|].
    split; [reflexivity|]. split; [reflexivity|]. split; [reflexivity|].
    split.
    + rewrite (search_template_healthy name None st' H'), F. eauto.
    + rewrite (create_template_run name st' H'), F.
      eexists. split; [reflexivity|apply only_gets_one].
Qed.

Lemma create_project_or_template_then_found_witness :
  healthy Lab2.st_full
  /\ (exists p st' st2,
        create_project "lab3" Lab2.st_full = (Ok p, st')
        /\ Project.name p = "lab3"
        /\ create_project "lab3" st'
           = (Raise (ValueError (AlreadyExists "Project")), st2))
  /\ (exists t st' st2,
        create_template "switch" Lab2.st_full = (Ok t, st')
        /\ search_template (Some "switch") None st' = (Ok (Some t), st2)).
Proof.
  split; [apply lab_healthy|].
  destruct (create_project_or_template_then_found Lab2.st_full "lab3"
              (lab_healthy _ _ _)) as (P & _).
  destruct (create_project_or_template_then_found Lab2.st_full "switch"
              (lab_healthy _ _ _)) as (_ & T).
  split.
  - destruct P as (p & st' & E & (i & -> & _) & _ & _ & _ & _ & (st2 & E2 & _)).
    + intros p [<-|[<-|[]]]; discriminate.
    + exists (Project.mk (Some i) "lab3" [] [] [] []), st', st2. auto.
  - destruct T as (t & st' & E & _ & _ & _ & _ & (st2 & F) & _).
    + intros t [<-|[]]; discriminate.
    + exists t, st', st2. auto.
Defined.

(** ** Deleting *)

Section RemoveFacts.
Context {A : Type} (key : A -> Id).

Lemma set_remove_filter (x : A) (s : list A) :
  is_set key s -> set_mem key x s = true ->
  set_remove key x s = Some (drop_id key (key x) s).
Proof.
  unfold is_set, set_mem, drop_id.
  induction s as [|a s IH]; simpl; intros Hs Hm; [discriminate|].
  inversion Hs as [|? ? Ha Hs']; subst.
  destruct (id_eqb (key a) (key x)) eqn:E; simpl.
  - f_equal. symmetry. apply id_eqb_eq in E.
    rewrite <- E. clear IH Hm Hs Hs'.
    induction s as [|b s IH]; simpl; [reflexivity|].
    destruct (id_eqb (key b) (key a)) eqn:F; simpl.
    + exfalso. apply Ha. apply id_eqb_eq in F. rewrite <- F. simpl. auto.
    + f_equal. apply IH. intros H. apply Ha. simpl. auto.
  - rewrite (IH Hs' Hm). reflexivity.
Qed.

Lemma set_mem_drop (x : A) (i : Id) (s : list A) :
  key x <> i -> set_mem key x (drop_id key i s) = set_mem key x s.
Proof.
  intros Hx. unfold set_mem, drop_id.
  induction s as [|a s IH]; simpl; [reflexivity|].
  destruct (id_eqb (key a) i) eqn:E; simpl.
  - rewrite IH. apply id_eqb_eq in E.
    assert (F : id_eqb (key a) (key x) = false)
      by (apply id_eqb_neq; congruence).
    rewrite F. reflexivity.
  - rewrite IH. reflexivity.
Qed.

Lemma drop_build (i : Id) (l s : list A) :
  drop_id key i (fold_left (fun s x => set_add key x s) l s)
  = fold_left (fun s x => set_add key x s) (drop_id key i l) (drop_id key i s).
Proof.
  revert s. induction l as [|y l IH]; intros s; simpl; [reflexivity|].
  rewrite IH. destruct (id_eqb (key y) i) eqn:E; simpl.
  - f_equal. unfold set_add. destruct (set_mem key y s); [reflexivity|].
    unfold drop_id. rewrite filter_app. simpl. rewrite E. simpl.
    apply app_nil_r.
  - f_equal. unfold set_add.
    rewrite set_mem_drop by (apply id_eqb_neq, E).
    destruct (set_mem key y s); [reflexivity|].
    unfold drop_id. rewrite filter_app. simpl. rewrite E. reflexivity.
Qed.

(** Removing a member from the set of a listing gives the set of the
    listing without the entities under its identifier. *)
Lemma set_remove_set_of_list (x : A) (l : list A) :
  In x l ->
  set_remove key x (set_of_list key l)
  = Some (set_of_list key (drop_id key (key x) l)).
Proof.
  intros Hx. rewrite set_remove_filter.
  - unfold set_of_list. rewrite drop_build. reflexivity.
  - apply set_of_list_is_set.
  - apply build_mem. right. exact Hx.
Qed.

Lemma has_id_in (x : A) (l : list A) : In x l -> has_id key (key x) l = true.
Proof.
  intros Hx. unfold has_id. apply existsb_exists. exists x.
  split; [exact Hx|apply id_eqb_refl].
Qed.

Lemma drop_id_absent (i : Id) (l : list A) :
  ~ In i (map key l) -> drop_id key i l = l.
Proof.
  unfold drop_id. induction l as [|a l IH]; simpl; intros H; [reflexivity|].
  assert (E : id_eqb (key a) i = false) by (apply id_eqb_neq; tauto).
  rewrite E. simpl. f_equal. apply IH. tauto.
Qed.

Lemma drop_id_last (x : A) (l : list A) :
  ~ In (key x) (map key l) -> drop_id key (key x) (l ++ [x]) = l.
Proof.
  intros H. unfold drop_id. rewrite filter_app. simpl.
  rewrite id_eqb_refl. simpl. rewrite app_nil_r. apply drop_id_absent, H.
Qed.

Lemma drop_id_gone (i : Id) (l : list A) (x : A) :
  In x (drop_id key i l) -> key x <> i.
Proof.
  unfold drop_id. rewrite filter_In. intros [_ H].
  apply id_eqb_neq. destruct (id_eqb (key x) i); [discriminate|reflexivity].
Qed.
End RemoveFacts.

Lemma found_in_listing {A} (res : Resource) (f : State -> list A)
    (c : A -> bool) (st st' : State) (x : A) :
  bind (bind (http_call (Req GET res)) (fun _ => gets f))
       (fun l => ret (py_next c l)) st = (Ok (Some x), st') ->
  st' = with_log (Req GET res :: log st) st /\ In x (f st') /\ c x = true.
Proof.
  intros H. inv_bind_as H l s0; [congruence|].
  apply listing_inv in Hm as [-> [E|?]]; [|congruence].
  injection E as ->. unfold ret in H. injection H as H <-.
  apply py_next_in in H. split; [reflexivity|exact H].
Qed.

Lemma search_snapshot_found_in (name snapshot_id : option string)
    (st st1 : State) (s : Snapshot.t) :
  search_snapshot name snapshot_id st = (Ok (Some s), st1) ->
  In s (Server.snapshots (server st)).
Proof.
  unfold search_snapshot, get_snapshots. intros H.
  inv_bind_as H u s0; [congruence|].
  apply refresh_project_inv in Hm as [_ [[_ ->]|?]]; [|congruence].
  destruct name as [name|];
    [apply found_in_listing in H as (-> & H & _); exact H|].
  destruct snapshot_id as [[|c i]|]; try (unfold raise in H; congruence).
  apply found_in_listing in H as (-> & H & _); exact H.
Qed.

Lemma search_drawing_found_in (svg drawing_id : option string)
    (st st1 : State) (d : Drawing.t) :
  search_drawing svg drawing_id st = (Ok (Some d), st1) ->
  In d (Server.drawings (server st)).
Proof.
  unfold search_drawing, get_drawings. intros H.
  inv_bind_as H u s0; [congruence|].
  apply refresh_project_inv in Hm as [_ [[_ ->]|?]]; [|congruence].
  destruct svg as [svg|];
    [apply found_in_listing in H as (-> & H & _); exact H|].
  destruct drawing_id as [i|]; try (unfold raise in H; congruence).
  apply found_in_listing in H as (-> & H & _); exact H.
Qed.

Lemma search_node_found_in (name node_id : option string)
    (st st1 : State) (n : Node.t) :
  search_node name node_id st = (Ok (Some n), st1) ->
  In n (Server.nodes (server st)).
Proof.
  unfold search_node, get_nodes. intros H.
  inv_bind_as H u s0; [congruence|].
  apply refresh_project_inv in Hm as [_ [[_ ->]|?]]; [|congruence].
  destruct name as [name|].
  - unfold bind, gets, ret in H. injection H as H _.
    apply py_next_in in H as [H _].
    apply set_of_list_incl in H. exact H.
  - destruct node_id as [i|]; try (unfold raise in H; congruence).
    apply found_in_listing in H as (-> & H & _); exact H.
Qed.

Lemma search_project_quiet (name project_id : option string)
    (st st' : State) (o : Outcome (option Project.t)) :
  search_project name project_id st = (o, st') ->
  only_gets st st' /\ server st' = server st /\ fails st' = fails st
  /\ forall p, o = Ok (Some p) ->
       In (Project.project_id p, Project.name p) (Server.projects (server st))
       /\ p = Project_of_raw (Project.project_id p, Project.name p).
Proof.
  assert (G : forall (c : Project.t -> bool),
             bind get_projects (fun l => ret (py_next c l)) st = (o, st') ->
             only_gets st st' /\ server st' = server st
             /\ fails st' = fails st
             /\ forall p, o = Ok (Some p) ->
                  In (Project.project_id p, Project.name p)
                    (Server.projects (server st))
                  /\ p = Project_of_raw (Project.project_id p, Project.name p)).
  { intros c G. unfold get_projects in G. inv_bind_as G l s0.
    - inv_bind_as Hm u s1.
      + apply http_call_inv in Hm0 as [-> _].
        split; [apply only_gets_one|]. subst.
        split; [reflexivity|]. split; [reflexivity|].
        intros p Hp. discriminate Hp.
      + unfold bind, gets, ret in Hm. congruence.
    - inv_bind_as Hm u s1; [congruence|].
      apply http_call_inv in Hm0 as [-> _].
      unfold bind, gets, ret in Hm. injection Hm as <- <-.
      unfold ret in G. injection G as <- <-.
      split; [apply only_gets_one|].
      split; [reflexivity|]. split; [reflexivity|].
      intros p Hp. injection Hp as Hp. apply py_next_in in Hp as [Hp _].
      apply in_map_iff in Hp. destruct Hp as ([i n] & <- & Hp).
      split; [exact Hp|reflexivity]. }
  unfold search_project. destruct name as [name|]; [apply G|].
  destruct project_id as [i|]; [apply G|].
  unfold raise. intros [= <- <-].
  split; [apply trace_nil|]. split; [reflexivity|]. split; [reflexivity|].
  intros p Hp. discriminate Hp.
Qed.

Lemma search_template_found_in (name template_id : option string)
    (st st1 : State) (t : Template.t) :
  search_template name template_id st = (Ok (Some t), st1) ->
  In t (Server.templates (server st))
  /\ st1 = with_log (Req GET TemplatesR :: log st) st.
Proof.
  unfold search_template, get_templates. intros H.
  assert (G : forall (c : Template.t -> bool),
             bind (bind (http_call (Req GET TemplatesR))
                     (fun _ => gets (fun st => Server.templates (server st))))
               (fun l => ret (py_next c l)) st = (Ok (Some t), st1) ->
             In t (Server.templates (server st))
             /\ st1 = with_log (Req GET TemplatesR :: log st) st).
  { intros c G. pose proof G as G'.
    apply found_in_listing in G as (_ & G & _).
    inv_bind_as G' l s0; [congruence|].
    apply listing_inv in Hm as [-> _]. unfold ret in G'.
    injection G' as _ <-. split; [exact G|reflexivity]. }
  destruct name as [name|]; [eapply G, H|].
  destruct template_id as [i|]; [eapply G, H|].
  unfold raise in H. congruence.
Qed.

(** X11.  When the search of a deletion returns absence, the deletion
    raises the [ValueError] "... not found", [GET] requests only have been
    issued and the server is as it was; the message of [delete_drawing]
    reads "Snapshot not found". *)
Theorem delete_of_absent_raises
    (st st1 : State) (name identifier : option string) :
  (search_project name identifier st = (Ok None, st1) ->
   delete_project name identifier st
   = (Raise (ValueError (NotFound "Project")), st1)
   /\ only_gets st st1 /\ server st1 = server st)
  /\ (search_template name identifier st = (Ok None, st1) ->
      delete_template name identifier st
      = (Raise (ValueError (NotFound "Template")), st1)
      /\ only_gets st st1 /\ server st1 = server st)
  /\ (search_node name identifier st = (Ok None, st1) ->
      delete_node name identifier st
      = (Raise (ValueError (NotFound "Node")), st1)
      /\ only_gets st st1 /\ server st1 = server st)
  /\ (search_snapshot name identifier st = (Ok None, st1) ->
      delete_snapshot name identifier st
      = (Raise (ValueError (NotFound "Snapshot")), st1)
      /\ only_gets st st1 /\ server st1 = server st)
  /\ (search_drawing name identifier st = (Ok None, st1) ->
      delete_drawing name identifier st
      = (Raise (ValueError (NotFound "Snapshot")), st1)
      /\ only_gets st st1 /\ server st1 = server st).
Proof.
  split; [|split; [|split; [|split]]]; intros E.
  - split; [unfold delete_project; erewrite bind_ok by exact E; reflexivity|].
    apply search_project_quiet in E as (Og & Hs & _). auto.
  - split; [unfold delete_template; erewrite bind_ok by exact E; reflexivity|].
    apply search_template_inv in E as [Q _].
    split; [apply quiet_only_gets, Q|apply (q_server _ _ Q)].
  - split; [unfold delete_node; erewrite bind_ok by exact E; reflexivity|].
    apply search_node_inv in E as [Q _].
    split; [apply quiet_only_gets, Q|apply (q_server _ _ Q)].
  - split; [unfold delete_snapshot; erewrite bind_ok by exact E; reflexivity|].
    apply search_snapshot_inv in E as [Q _].
    split; [apply quiet_only_gets, Q|apply (q_server _ _ Q)].
  - split; [unfold delete_drawing; erewrite bind_ok by exact E; reflexivity|].
    apply search_drawing_inv in E as [Q _].
    split; [apply quiet_only_gets, Q|apply (q_server _ _ Q)].
Qed.

Lemma delete_of_absent_raises_witness :
  (exists st1,
     delete_drawing (Some "<svg>none</svg>") None Lab2.st_full
     = (Raise (ValueError (NotFound "Snapshot")), st1)
     /\ only_gets Lab2.st_full st1)
  /\ (exists st1,
        delete_node None (Some "n7") Lab2.st_full
        = (Raise (ValueError (NotFound "Node")), st1)
        /\ only_gets Lab2.st_full st1)
  /\ (exists st1,
        delete_project (Some "lab9") None Lab2.st_full
        = (Raise (ValueError (NotFound "Project")), st1)
        /\ only_gets Lab2.st_full st1).
Proof.
  split; [|split].
  - destruct (search_drawing (Some "<svg>none</svg>") None Lab2.st_full)
      as [o st1] eqn:E.
    assert (E' := E). vm_compute in E'. injection E' as Ho _.
    rewrite <- Ho in E.
    destruct (delete_of_absent_raises Lab2.st_full st1
                (Some "<svg>none</svg>") None) as (_ & _ & _ & _ & G).
    destruct (G E) as (D & Og & _). eauto.
  - destruct (search_node None (Some "n7") Lab2.st_full) as [o st1] eqn:E.
    assert (E' := E). vm_compute in E'. injection E' as Ho _.
    rewrite <- Ho in E.
    destruct (delete_of_absent_raises Lab2.st_full st1 None (Some "n7"))
      as (_ & _ & G & _).
    destruct (G E) as (D & Og & _). eauto.
  - destruct (search_project (Some "lab9") None Lab2.st_full) as [o st1] eqn:E.
    assert (E' := E). vm_compute in E'. injection E' as Ho _.
    rewrite <- Ho in E.
    destruct (delete_of_absent_raises Lab2.st_full st1 (Some "lab9") None)
      as (G & _).
    destruct (G E) as (D & Og & _). eauto.
Defined.

(** The remote delete and the [remove] that follows it, for an entity the
    server lists and a project in step with the server. *)
Lemma delete_found_run {A} (key : A -> Id) (listing : Server.t -> list A)
    (drop : Server.t -> Server.t) (res : Resource)
    (get : Project.t -> list A) (put : list A -> Project.t -> Project.t)
    (x : A) (st : State) :
  healthy st ->
  In x (listing (server st)) ->
  get (project st) = set_of_list key (listing (server st)) ->
  bind (remote_delete key listing drop res (key x))
       (fun _ => remove_from key get put x) st
  = (Ok tt,
     with_project
       (put (set_of_list key (drop_id key (key x) (listing (server st))))
          (project st))
       (with_server (drop (server st))
          (with_log (Req DELETE res :: log st) st))).
Proof.
  intros H Hx Hs.
  erewrite bind_ok.
  2:{ rewrite remote_delete_healthy by exact H.
      rewrite (has_id_in key x _ Hx). reflexivity. }
  unfold remove_from, bind, gets.
  cbn [project with_server with_log].
  rewrite Hs, (set_remove_set_of_list key x _ Hx). reflexivity.
Qed.

Lemma not_member_after_drop {A} (key : A -> Id) (x : A) (l : list A) :
  set_mem key x (set_of_list key (drop_id key (key x) l)) = false.
Proof.
  apply set_mem_false. intros H. apply in_map_iff in H.
  destruct H as (y & E & Hy). apply set_of_list_incl in Hy.
  apply drop_id_gone in Hy. congruence.
Qed.

Lemma one_write_after_quiet (w : Request) (st st1 : State) :
  quiet st st1 ->
  exists l, w :: log st1 = w :: l ++ log st
            /\ Forall (fun r => is_get r = true) l.
Proof.
  intros Q. destruct (q_log _ _ Q) as (l & -> & Hl). eauto.
Qed.

Lemma delete_snapshot_found
    (st st1 : State) (name identifier : option string) :
  healthy st ->
  forall s,
     search_snapshot name identifier st = (Ok (Some s), st1) ->
     exists st',
       delete_snapshot name identifier st = (Ok tt, st')
       /\ Server.snapshots (server st')
          = drop_id Snapshot.snapshot_id (Snapshot.snapshot_id s)
              (Server.snapshots (server st))
       /\ Project.snapshots (project st')
          = set_of_list Snapshot.snapshot_id (Server.snapshots (server st'))
       /\ set_mem Snapshot.snapshot_id s (Project.snapshots (project st'))
          = false
       /\ exists l,
            log st' = Req DELETE (SnapshotR (Snapshot.snapshot_id s))
                      :: l ++ log st
            /\ Forall (fun r => is_get r = true) l.
Proof.
  intros H s E.
  pose proof (search_snapshot_found_in _ _ _ _ _ E) as Hin.
  pose proof (search_snapshot_inv _ _ _ _ _ E) as [Q S].
  specialize (S _ eq_refl). destruct S as (_ & _ & _ & SS).
  pose proof (quiet_healthy _ _ Q H) as H1.
  rewrite <- (q_server _ _ Q) in Hin.
  unfold delete_snapshot. erewrite bind_ok by exact E.
  unfold Snapshot_delete.
  rewrite (delete_found_run Snapshot.snapshot_id Server.snapshots _ _
             Project.snapshots Project.with_snapshots s st1 H1 Hin SS).
  eexists. split; [reflexivity|].
  cbn [server project with_project with_server with_log log
       Server.snapshots Server.with_snapshots
       Project.snapshots Project.with_snapshots].
  rewrite (q_server _ _ Q).
  split; [reflexivity|]. split; [reflexivity|].
  split; [apply not_member_after_drop|].
  apply one_write_after_quiet, Q.
Qed.

Lemma delete_drawing_found
    (st st1 : State) (name identifier : option string) :
  healthy st ->
  forall d,
        search_drawing name identifier st = (Ok (Some d), st1) ->
        exists st',
          delete_drawing name identifier st = (Ok tt, st')
          /\ Server.drawings (server st')
             = drop_id Drawing.drawing_id (Drawing.drawing_id d)
                 (Server.drawings (server st))
          /\ Project.drawings (project st')
             = set_of_list Drawing.drawing_id (Server.drawings (server st'))
          /\ set_mem Drawing.drawing_id d (Project.drawings (project st'))
             = false
          /\ exists l,
               log st' = Req DELETE (DrawingR (Drawing.drawing_id d))
                         :: l ++ log st
               /\ Forall (fun r => is_get r = true) l.
Proof.
  intros H d E.
  pose proof (search_drawing_found_in _ _ _ _ _ E) as Hin.
  pose proof (search_drawing_inv _ _ _ _ _ E) as [Q S].
  specialize (S _ eq_refl). destruct S as (_ & _ & SD & _).
  pose proof (quiet_healthy _ _ Q H) as H1.
  rewrite <- (q_server _ _ Q) in Hin.
  unfold delete_drawing. erewrite bind_ok by exact E.
  unfold Drawing_delete.
  rewrite (delete_found_run Drawing.drawing_id Server.drawings _ _
             Project.drawings Project.with_drawings d st1 H1 Hin SD).
  eexists. split; [reflexivity|].
  cbn [server project with_project with_server with_log log
       Server.drawings Server.with_drawings
       Project.drawings Project.with_drawings].
  rewrite (q_server _ _ Q).
  split; [reflexivity|]. split; [reflexivity|].
  split; [apply not_member_after_drop|].
  apply one_write_after_quiet, Q.
Qed.

Lemma delete_node_found
    (st st1 : State) (name identifier : option string) :
  healthy st ->
  forall n,
        search_node name identifier st = (Ok (Some n), st1) ->
        exists st',
          delete_node name identifier st = (Ok tt, st')
          /\ Server.nodes (server st')
             = drop_id Node.node_id (Node.node_id n) (Server.nodes (server st))
          /\ Project.nodes (project st')
             = set_of_list Node.node_id (Server.nodes (server st'))
          /\ set_mem Node.node_id n (Project.nodes (project st')) = false
          /\ exists l,
               log st' = Req DELETE (NodeR (Node.node_id n)) :: l ++ log st
               /\ Forall (fun r => is_get r = true) l.
Proof.
  intros H n E.
  pose proof (search_node_found_in _ _ _ _ _ E) as Hin.
  pose proof (search_node_inv _ _ _ _ _ E) as [Q S].
  specialize (S _ eq_refl). destruct S as ((SN & _) & _).
  pose proof (quiet_healthy _ _ Q H) as H1.
  rewrite <- (q_server _ _ Q) in Hin.
  unfold delete_node. erewrite bind_ok by exact E.
  unfold Node_delete.
  rewrite (delete_found_run Node.node_id Server.nodes _ _
             Project.nodes Project.with_nodes n st1 H1 Hin SN).
  eexists. split; [reflexivity|].
  cbn [server project with_project with_server with_log log
       Server.nodes Server.with_nodes Project.nodes Project.with_nodes].
  rewrite (q_server _ _ Q).
  split; [reflexivity|]. split; [reflexivity|].
  split; [apply not_member_after_drop|].
  apply one_write_after_quiet, Q.
Qed.

(** X12.  With a transport that does not fail, when the search of
    [delete_snapshot], [delete_drawing] or [delete_node] finds an entity,
    the deletion returns: the [DELETE] on the identifier of the entity is
    the only request that is not a [GET], the server no longer lists an
    entity under that identifier, and the set of the project is the set of
    the server's new listing, in which the entity is no longer a member. *)
Theorem delete_removes_found
    (st st1 : State) (name identifier : option string) :
  healthy st ->
  (forall s,
     search_snapshot name identifier st = (Ok (Some s), st1) ->
     exists st',
       delete_snapshot name identifier st = (Ok tt, st')
       /\ Server.snapshots (server st')
          = drop_id Snapshot.snapshot_id (Snapshot.snapshot_id s)
              (Server.snapshots (server st))
       /\ Project.snapshots (project st')
          = set_of_list Snapshot.snapshot_id (Server.snapshots (server st'))
       /\ set_mem Snapshot.snapshot_id s (Project.snapshots (project st'))
          = false
       /\ exists l,
            log st' = Req DELETE (SnapshotR (Snapshot.snapshot_id s))
                      :: l ++ log st
            /\ Forall (fun r => is_get r = true) l)
  /\ (forall d,
        search_drawing name identifier st = (Ok (Some d), st1) ->
        exists st',
          delete_drawing name identifier st = (Ok tt, st')
          /\ Server.drawings (server st')
             = drop_id Drawing.drawing_id (Drawing.drawing_id d)
                 (Server.drawings (server st))
          /\ Project.drawings (project st')
             = set_of_list Drawing.drawing_id (Server.drawings (server st'))
          /\ set_mem Drawing.drawing_id d (Project.drawings (project st'))
             = false
          /\ exists l,
               log st' = Req DELETE (DrawingR (Drawing.drawing_id d))
                         :: l ++ log st
               /\ Forall (fun r => is_get r = true) l)
  /\ (forall n,
        search_node name identifier st = (Ok (Some n), st1) ->
        exists st',
          delete_node name identifier st = (Ok tt, st')
          /\ Server.nodes (server st')
             = drop_id Node.node_id (Node.node_id n) (Server.nodes (server st))
          /\ Project.nodes (project st')
             = set_of_list Node.node_id (Server.nodes (server st'))
          /\ set_mem Node.node_id n (Project.nodes (project st')) = false
          /\ exists l,
               log st' = Req DELETE (NodeR (Node.node_id n)) :: l ++ log st
               /\ Forall (fun r => is_get r = true) l).
Proof.
  intros H. split; [|split].
  - apply delete_snapshot_found, H.
  - apply delete_drawing_found, H.
  - apply delete_node_found, H.
Qed.

Lemma delete_removes_found_witness :
  healthy Lab2.st_full
  /\ (exists st',
        delete_snapshot (Some "monday") None Lab2.st_full = (Ok tt, st')
        /\ Server.snapshots (server st') = []
        /\ Project.snapshots (project st') = [])
  /\ (exists st',
        delete_node None (Some "n2") Lab2.st_full = (Ok tt, st')
        /\ Server.nodes (server st') = [Lab.R1; Lab.R3]
        /\ Project.nodes (project st') = [Lab.R1; Lab.R3]).
Proof.
  split; [apply lab_healthy|]. split.
  - destruct (search_snapshot (Some "monday") None Lab2.st_full)
      as [o st1] eqn:E.
    assert (E' := E). vm_compute in E'. injection E' as Ho _.
    rewrite <- Ho in E.
    destruct (delete_removes_found Lab2.st_full st1 (Some "monday") None
                (lab_healthy _ _ _)) as (G & _).
    destruct (G _ E) as (st' & D & Hs & Hp & _).
    exists st'. split; [exact D|]. split; [exact Hs|].
    rewrite Hp, Hs. reflexivity.
  - destruct (search_node None (Some "n2") Lab2.st_full) as [o st1] eqn:E.
    assert (E' := E). vm_compute in E'. injection E' as Ho _.
    rewrite <- Ho in E.
    destruct (delete_removes_found Lab2.st_full st1 None (Some "n2")
                (lab_healthy _ _ _)) as (_ & _ & G).
    destruct (G _ E) as (st' & D & Hs & Hp & _).
    exists st'. split; [exact D|]. split; [exact Hs|].
    rewrite Hp, Hs. reflexivity.
Defined.

(** X13.  With a transport that does not fail, when the search of
    [delete_project] or [delete_template] finds an entity, the deletion
    returns: the [DELETE] on the identifier of the entity is the only
    request that is not a [GET], the server no longer lists an entity
    under that identifier, and the [Project] object at hand is as it
    was. *)
Theorem delete_project_or_template_found
    (st st1 : State) (name identifier : option string) :
  healthy st ->
  (forall p,
     search_project name identifier st = (Ok (Some p), st1) ->
     exists st',
       delete_project name identifier st = (Ok tt, st')
       /\ Server.projects (server st')
          = drop_id fst (Project.project_id p) (Server.projects (server st))
       /\ project st' = project st
       /\ exists l,
            log st' = Req DELETE (ProjectR (Project.project_id p))
                      :: l ++ log st
            /\ Forall (fun r => is_get r = true) l)
  /\ (forall t,
        search_template name identifier st = (Ok (Some t), st1) ->
        exists st',
          delete_template name identifier st = (Ok tt, st')
          /\ Server.templates (server st')
             = drop_id Template.template_id (Template.template_id t)
                 (Server.templates (server st))
          /\ project st' = project st
          /\ exists l,
               log st' = Req DELETE (TemplateR (Template.template_id t))
                         :: l ++ log st
               /\ Forall (fun r => is_get r = true) l).
Proof.
  intros H. split.
  - intros p E.
    pose proof (search_project_quiet _ _ _ _ _ E) as (Og & Hs & Hf & G).
    destruct (G p eq_refl) as (Hin & _).
    pose proof (search_project_inv _ _ _ _ _ E) as Hp.
    assert (H1 : healthy st1) by (intros n; rewrite Hf; apply H).
    unfold delete_project. erewrite bind_ok by exact E.
    unfold Project_delete. rewrite remote_delete_healthy by exact H1.
    rewrite <- Hs in Hin.
    pose proof (has_id_in fst (Project.project_id p, Project.name p) _ Hin)
      as Hh.
    cbn [fst] in Hh. cbn [server with_log]. rewrite Hh.
    eexists. split; [reflexivity|].
    cbn [server project with_server with_log log
         Server.projects Server.with_projects].
    rewrite Hs. split; [reflexivity|]. split; [exact Hp|].
    destruct Og as (l & -> & Hl). eauto.
  - intros t E.
    pose proof (search_template_found_in _ _ _ _ _ E) as (Hin & ->).
    unfold delete_template. erewrite bind_ok by exact E.
    unfold Template_delete. rewrite remote_delete_healthy by auto.
    cbn [server with_log].
    rewrite (has_id_in Template.template_id t _ Hin).
    eexists. split; [reflexivity|].
    split; [reflexivity|]. split; [reflexivity|].
    exists [Req GET TemplatesR]. split; [reflexivity|repeat constructor].
Qed.

Lemma delete_project_or_template_found_witness :
  healthy Lab2.st_full
  /\ (exists st',
        delete_project (Some "lab1") None Lab2.st_full = (Ok tt, st')
        /\ Server.projects (server st') = [(Some "p2", "lab2")])
  /\ (exists st',
        delete_template None (Some "t1") Lab2.st_full = (Ok tt, st')
        /\ Server.templates (server st') = []).
Proof.
  split; [apply lab_healthy|]. split.
  - destruct (search_project (Some "lab1") None Lab2.st_full)
      as [o st1] eqn:E.
    assert (E' := E). vm_compute in E'. injection E' as Ho _.
    rewrite <- Ho in E.
    destruct (delete_project_or_template_found Lab2.st_full st1
                (Some "lab1") None (lab_healthy _ _ _)) as (G & _).
    destruct (G _ E) as (st' & D & Hs & _). eauto.
  - destruct (search_template None (Some "t1") Lab2.st_full)
      as [o st1] eqn:E.
    assert (E' := E). vm_compute in E'. injection E' as Ho _.
    rewrite <- Ho in E.
    destruct (delete_project_or_template_found Lab2.st_full st1
                None (Some "t1") (lab_healthy _ _ _)) as (_ & G).
    destruct (G _ E) as (st' & D & Hs & _). eauto.
Defined.

(** X14.  With a transport that does not fail, deleting by its name what
    was just created under a free name undoes the creation: after
    [create_snapshot] then [delete_snapshot], [create_drawing] then
    [delete_drawing], [create_node] then [delete_node], the server's
    listing of the kind is what it was before the creation, and the set of
    the project is the set of that listing. *)
Theorem create_then_delete_restores (st : State) (name : string) :
  healthy st ->
  ((forall s, In s (Server.snapshots (server st)) -> Snapshot.name s <> name) ->
   exists s st' st'',
     create_snapshot name st = (Ok s, st')
     /\ delete_snapshot (Some name) None st' = (Ok tt, st'')
     /\ Server.snapshots (server st'') = Server.snapshots (server st)
     /\ Project.snapshots (project st'')
        = set_of_list Snapshot.snapshot_id (Server.snapshots (server st)))
  /\ ((forall d, In d (Server.drawings (server st)) -> Drawing.svg d <> name) ->
      exists d st' st'',
        create_drawing name st = (Ok d, st')
        /\ delete_drawing (Some name) None st' = (Ok tt, st'')
        /\ Server.drawings (server st'') = Server.drawings (server st)
        /\ Project.drawings (project st'')
           = set_of_list Drawing.drawing_id (Server.drawings (server st)))
  /\ (forall template_name x y t,
        (forall n, In n (set_of_list Node.node_id (Server.nodes (server st))) ->
                   Node.name n <> name) ->
        py_next (fun t => String.eqb (Template.name t) template_name)
          (Server.templates (server st)) = Some t ->
        exists n st' st'',
          create_node name template_name x y st = (Ok n, st')
          /\ delete_node (Some name) None st' = (Ok tt, st'')
          /\ Server.nodes (server st'') = Server.nodes (server st)
          /\ Project.nodes (project st'')
             = set_of_list Node.node_id (Server.nodes (server st))).
Proof.
  intros H. split; [|split].
  - intros Hn.
    pose proof (py_next_absent _ (fun s => Snapshot.name s = name) _
                  (fun s => proj1 (String.eqb_eq _ _)) Hn) as N.
    pose proof (create_snapshot_run name st H) as R. cbv zeta in R.
    rewrite N in R.
    set (s := Snapshot.mk _ name) in R. set (st' := mkState _ _ _ _) in R.
    assert (H' : healthy st') by (intros k; apply H).
    pose proof (search_snapshot_healthy name None st' H') as E.
    change (Server.snapshots (server st'))
      with (Server.snapshots (server st) ++ [s]) in E.
    rewrite (py_next_snoc_new _ _ s N (String.eqb_refl name)) in E.
    destruct (delete_snapshot_found st' _ (Some name) None H' s E)
      as (st'' & D & Hs & Hp & _).
    change (Server.snapshots (server st'))
      with (Server.snapshots (server st) ++ [s]) in Hs.
    rewrite (drop_id_last Snapshot.snapshot_id s) in Hs
      by apply fresh_id_fresh.
    exists s, st', st''. rewrite Hp, Hs. auto.
  - intros Hn.
    pose proof (py_next_absent _ (fun d => Drawing.svg d = name) _
                  (fun d => proj1 (String.eqb_eq _ _)) Hn) as N.
    pose proof (create_drawing_run name st H) as R. cbv zeta in R.
    rewrite N in R.
    set (d := Drawing.mk _ name) in R. set (st' := mkState _ _ _ _) in R.
    assert (H' : healthy st') by (intros k; apply H).
    pose proof (search_drawing_healthy name None st' H') as E.
    change (Server.drawings (server st'))
      with (Server.drawings (server st) ++ [d]) in E.
    rewrite (py_next_snoc_new _ _ d N (String.eqb_refl name)) in E.
    destruct (delete_drawing_found st' _ (Some name) None H' d E)
      as (st'' & D & Hs & Hp & _).
    change (Server.drawings (server st'))
      with (Server.drawings (server st) ++ [d]) in Hs.
    rewrite (drop_id_last Drawing.drawing_id d) in Hs
      by apply fresh_id_fresh.
    exists d, st', st''. rewrite Hp, Hs. auto.
  - intros template_name x y t Hn Ht.
    pose proof (py_next_absent _ (fun n => Node.name n = name) _
                  (fun n => proj1 (String.eqb_eq _ _)) Hn) as N.
    pose proof (create_node_run name template_name x y st H) as R.
    cbv zeta in R. rewrite N, Ht in R.
    set (n := Node.mk _ name _ _ x y []) in R.
    set (st' := mkState _ _ _ _) in R.
    assert (H' : healthy st') by (intros k; apply H).
    pose proof (search_node_healthy name None st' H') as E.
    change (Server.nodes (server st'))
      with (Server.nodes (server st) ++ [n]) in E.
    rewrite (set_add_fresh Node.node_id n) in E by apply fresh_id_fresh.
    rewrite (py_next_snoc_new _ _ n N (String.eqb_refl name)) in E.
    destruct (delete_node_found st' _ (Some name) None H' n E)
      as (st'' & D & Hs & Hp & _).
    change (Server.nodes (server st'))
      with (Server.nodes (server st) ++ [n]) in Hs.
    rewrite (drop_id_last Node.node_id n) in Hs by apply fresh_id_fresh.
    exists n, st', st''. rewrite Hp, Hs. auto.
Qed.

Lemma create_then_delete_restores_witness :
  healthy Lab2.st_full
  /\ exists s st' st'',
       create_snapshot "friday" Lab2.st_full = (Ok s, st')
       /\ delete_snapshot (Some "friday") None st' = (Ok tt, st'')
       /\ Server.snapshots (server st'') = [Snapshot.mk (Some "s1") "monday"].
Proof.
  split; [apply lab_healthy|].
  destruct (create_then_delete_restores Lab2.st_full "friday"
              (lab_healthy _ _ _)) as (G & _).
  destruct G as (s & st' & st'' & C & D & Hs & _).
  - intros s [<-|[]]; discriminate.
  - exists s, st', st''. auto.
Defined.

(** ** Membership after a creation or a deletion *)

Lemma create_then_add_ok {A} (create : M A) (key : A -> Id)
    (get : Project.t -> list A) (put : list A -> Project.t -> Project.t)
    (st st' : State) (x : A) :
  (forall s p, get (put s p) = s) ->
  bind create
    (fun y => bind (on_project (fun p => put (set_add key y (get p)) p))
                (fun _ => ret y)) st = (Ok x, st') ->
  set_mem key x (get (project st')) = true.
Proof.
  intros L H. inv_bind_as H y s0; [congruence|].
  unfold bind, on_project, modify, ret in H. injection H as -> <-.
  cbn [project with_project]. rewrite L. apply set_mem_add.
Qed.

Lemma delete_then_remove_ok {A} (delete : M unit) (key : A -> Id)
    (get : Project.t -> list A) (put : list A -> Project.t -> Project.t)
    (x : A) (st st' : State) :
  (forall s p, get (put s p) = s) ->
  (forall s s' o, delete s = (o, s') -> project s' = project s) ->
  is_set key (get (project st)) ->
  bind delete (fun _ => remove_from key get put x) st = (Ok tt, st') ->
  set_mem key x (get (project st')) = false.
Proof.
  intros L Hd Hs H. inv_bind_as H u s0; [congruence|].
  apply Hd in Hm.
  apply remove_from_inv in H as [[? _]|(s & _ & Hr & ->)]; [congruence|].
  cbn [project with_project]. rewrite L. rewrite Hm in Hr.
  eapply set_remove_absent; eassumption.
Qed.

Lemma search_link_ok_synced (node_a port_a node_b port_b : string)
    (st st1 : State) (r : option Link.t) :
  search_link node_a port_a node_b port_b st = (Ok r, st1) -> synced st1.
Proof.
  unfold search_link. intros H. inv_bind_as H u s0; [congruence|].
  inv_bind_as H q s1; [congruence|].
  apply _link_nodes_and_ports_inv in Hm0 as (_ & S & _).
  specialize (S _ eq_refl). destruct q as [[[na pa] nb] pb].
  unfold bind, gets, lift in H. injection H as _ <-. exact S.
Qed.

(** X15.  Whatever the transport does: when [create_snapshot],
    [create_drawing] or [create_link] returns an entity, the entity bears
    an identifier and is a member of the project's set of its kind; when
    [delete_snapshot], [delete_drawing] or [delete_link] returns, the
    entity its search had found is no longer a member of that set. *)
Theorem membership_after_create_and_delete (st : State) :
  (forall name s st',
     create_snapshot name st = (Ok s, st') ->
     (exists i, Snapshot.snapshot_id s = Some i)
     /\ set_mem Snapshot.snapshot_id s (Project.snapshots (project st')) = true)
  /\ (forall svg d st',
        create_drawing svg st = (Ok d, st') ->
        (exists i, Drawing.drawing_id d = Some i)
        /\ set_mem Drawing.drawing_id d (Project.drawings (project st'))
           = true)
  /\ (forall node_a port_a node_b port_b l st',
        create_link node_a port_a node_b port_b st = (Ok l, st') ->
        (exists i, Link.link_id l = Some i)
        /\ set_mem Link.link_id l (Project.links (project st')) = true)
  /\ (forall name identifier s st1 st',
        search_snapshot name identifier st = (Ok (Some s), st1) ->
        delete_snapshot name identifier st = (Ok tt, st') ->
        set_mem Snapshot.snapshot_id s (Project.snapshots (project st'))
        = false)
  /\ (forall svg identifier d st1 st',
        search_drawing svg identifier st = (Ok (Some d), st1) ->
        delete_drawing svg identifier st = (Ok tt, st') ->
        set_mem Drawing.drawing_id d (Project.drawings (project st')) = false)
  /\ (forall node_a port_a node_b port_b l st1 st',
        search_link node_a port_a node_b port_b st = (Ok (Some l), st1) ->
        delete_link node_a port_a node_b port_b st = (Ok tt, st') ->
        set_mem Link.link_id l (Project.links (project st')) = false).
Proof.
  split; [|split; [|split; [|split; [|split]]]].
  - intros name s st' H. unfold create_snapshot in H.
    inv_bind_as H r s1; [congruence|].
    destruct r as [r|]; [unfold raise in H; congruence|].
    pose proof H as H'.
    apply (create_then_add_ok _ Snapshot.snapshot_id Project.snapshots
             Project.with_snapshots) in H; [|reflexivity].
    split; [|exact H].
    inv_bind_as H' y s2; [congruence|].
    apply remote_create_inv in Hm0 as [[? _]|[E _]]; [congruence|].
    unfold bind, on_project, modify, ret in H'. injection H' as <- _.
    injection E as ->. simpl. unfold fresh_id. eauto.
  - intros svg d st' H. unfold create_drawing in H.
    inv_bind_as H r s1; [congruence|].
    destruct r as [r|]; [unfold raise in H; congruence|].
    pose proof H as H'.
    apply (create_then_add_ok _ Drawing.drawing_id Project.drawings
             Project.with_drawings) in H; [|reflexivity].
    split; [|exact H].
    inv_bind_as H' y s2; [congruence|].
    apply remote_create_inv in Hm0 as [[? _]|[E _]]; [congruence|].
    unfold bind, on_project, modify, ret in H'. injection H' as <- _.
    injection E as ->. simpl. unfold fresh_id. eauto.
  - intros node_a port_a node_b port_b l st' H.
    apply create_link_ok_inv in H
      as (na & pa & nb & pb & s1 & _ & _ & _ & _ & _ & El & ->).
    split; [rewrite El; simpl; unfold fresh_id; eauto|].
    cbn [project Project.links Project.with_links]. apply set_mem_add.
  - intros name identifier s st1 st' E H. unfold delete_snapshot in H.
    rewrite (bind_ok _ _ _ _ _ E) in H.
    apply search_snapshot_inv in E as [_ S].
    destruct (S _ eq_refl) as (_ & _ & _ & SS).
    revert H. apply delete_then_remove_ok; [reflexivity| |].
    + intros s0 s' o D. eapply remote_delete_project, D.
    + rewrite SS. apply set_of_list_is_set.
  - intros svg identifier d st1 st' E H. unfold delete_drawing in H.
    rewrite (bind_ok _ _ _ _ _ E) in H.
    apply search_drawing_inv in E as [_ S].
    destruct (S _ eq_refl) as (_ & _ & SD & _).
    revert H. apply delete_then_remove_ok; [reflexivity| |].
    + intros s0 s' o D. eapply remote_delete_project, D.
    + rewrite SD. apply set_of_list_is_set.
  - intros node_a port_a node_b port_b l st1 st' E H. unfold delete_link in H.
    rewrite (bind_ok _ _ _ _ _ E) in H.
    apply search_link_ok_synced in E. destruct E as (_ & SL & _).
    revert H. apply delete_then_remove_ok; [reflexivity| |].
    + intros s0 s' o D. eapply remote_delete_project, D.
    + rewrite SL. apply set_of_list_is_set.
Qed.

Lemma membership_after_create_and_delete_witness :
  (exists l st',
     create_link "R2" "Eth0" "R3" "Eth0" Lab2.st_full = (Ok l, st')
     /\ set_mem Link.link_id l (Project.links (project st')) = true)
  /\ (exists st',
        delete_link "R2" "Eth0" "R1" "Eth0" Lab2.st_full = (Ok tt, st')
        /\ set_mem Link.link_id Lab.L12 (Project.links (project st')) = false)
  /\ (exists st',
        delete_drawing None (Some "d1") Lab2.st_full = (Ok tt, st')
        /\ set_mem Drawing.drawing_id (Drawing.mk (Some "d1") "<svg/>")
             (Project.drawings (project st')) = false).
Proof.
  destruct (membership_after_create_and_delete Lab2.st_full)
    as (_ & _ & CL & _ & DD & DL).
  split; [|split].
  - destruct (create_link "R2" "Eth0" "R3" "Eth0" Lab2.st_full)
      as [o st'] eqn:E.
    assert (E' := E). vm_compute in E'. injection E' as Ho _.
    destruct o as [l|e]; [|discriminate Ho].
    exists l, st'. split; [reflexivity|]. apply (CL _ _ _ _ _ _ E).
  - destruct (delete_link "R2" "Eth0" "R1" "Eth0" Lab2.st_full)
      as [o st'] eqn:E.
    assert (E' := E). vm_compute in E'. injection E' as Ho _.
    rewrite <- Ho in E. exists st'. rewrite <- Ho. split; [reflexivity|].
    destruct (search_link "R2" "Eth0" "R1" "Eth0" Lab2.st_full)
      as [r st1] eqn:F.
    assert (F' := F). vm_compute in F'. injection F' as Hr _.
    rewrite <- Hr in F. apply (DL _ _ _ _ _ _ _ F E).
  - destruct (delete_drawing None (Some "d1") Lab2.st_full) as [o st'] eqn:E.
    assert (E' := E). vm_compute in E'. injection E' as Ho _.
    rewrite <- Ho in E. exists st'. rewrite <- Ho. split; [reflexivity|].
    destruct (search_drawing None (Some "d1") Lab2.st_full) as [r st1] eqn:F.
    assert (F' := F). vm_compute in F'. injection F' as Hr _.
    rewrite <- Hr in F. apply (DD _ _ _ _ _ F E).
Defined.

(** ** The endpoints of a link that do not resolve *)





(** ** Searching, creating and deleting links *)

Lemma search_link_two_sided_run (node_a port_a node_b port_b : string)
    (st : State) (na nb : Node.t) (pa pb : Port.t) :
  healthy st ->
  resolve (server st) node_a port_a = Some (na, pa) ->
  resolve (server st) node_b port_b = Some (nb, pb) ->
  Forall two_sided (set_of_list Link.link_id (Server.links (server st))) ->
  exists st',
    search_link node_a port_a node_b port_b st
    = (Ok (py_next (fun l => connects l (endpoint na pa) (endpoint nb pb))
             (set_of_list Link.link_id (Server.links (server st)))), st')
    /\ quiet st st' /\ synced st' /\ healthy st'.
Proof.
  intros H Ra Rb W.
  destruct (search_link_healthy node_a port_a node_b port_b st na nb pa pb
              H Ra Rb) as (st1 & Q & S & H1 & E).
  pose proof (quiet_links _ _ Q S) as HL.
  rewrite _search_link_two_sided in E by (rewrite HL; exact W).
  rewrite HL in E. eauto.
Qed.



(** ** A link with a single endpoint *)

Lemma link_matches_single (l : Link.t) (a : Node.t) (pa : Port.t)
    (b : Node.t) (pb : Port.t) :
  List.length (Link.nodes l) = 1 ->
  link_matches l a pa b pb = Raise IndexError.
Proof.
  unfold link_matches, side_is, nodes_at, and_then.
  destruct (Link.nodes l) as [|q [|q' t]]; simpl; try discriminate.
  intros _.
  destruct (id_eqb (Port.node_id q) (Node.node_id a)
            && Z.eqb (Port.adapter_number q) (Port.adapter_number pa)
            && Z.eqb (Port.port_number q) (Port.port_number pa));
    reflexivity.
Qed.

Lemma link_matches_raises (l : Link.t) (a : Node.t) (pa : Port.t)
    (b : Node.t) (pb : Port.t) (e : Exn) :
  link_matches l a pa b pb = Raise e -> e = IndexError.
Proof.
  destruct (Nat.eq_dec (List.length (Link.nodes l)) 1) as [E|E].
  - rewrite link_matches_single by exact E. congruence.
  - rewrite link_matches_connects by exact E. discriminate.
Qed.





(** ** A link that is created *)


Lemma search_link_after_create (node_a port_a node_b port_b : string)
    (st st' : State) (l : Link.t) :
  healthy st ->
  create_link node_a port_a node_b port_b st = (Ok l, st') ->
  (exists st2,
     search_link node_a port_a node_b port_b st' = (Ok (Some l), st2))
  /\ (exists st2,
        search_link node_b port_b node_a port_a st' = (Ok (Some l), st2)).
Proof.
  intros H Hc.
  destruct (create_link_ok_inv _ _ _ _ _ _ _ Hc)
    as (na & pa & nb & pb & st1 & Ra & Rb & Q & S & Hs & El & Est).
  pose proof (quiet_links _ _ Q S) as HL.
  apply _search_link_ok_inv in Hs as [W Hn]. rewrite HL in W, Hn.
  symmetry in Hn. rewrite py_next_none in Hn.
  assert (H' : healthy st') by (subst st'; intros n; apply H).
  assert (Ra' : resolve (server st') node_a port_a = Some (na, pa))
    by (subst st'; exact Ra).
  assert (Rb' : resolve (server st') node_b port_b = Some (nb, pb))
    by (subst st'; exact Rb).
  assert (HS : set_of_list Link.link_id (Server.links (server st'))
               = set_of_list Link.link_id (Server.links (server st)) ++ [l]).
  { subst st'. cbn [server Server.links Server.with_links].
    apply set_add_fresh. rewrite El. simpl. apply fresh_id_fresh. }
  assert (W' : Forall two_sided
                 (set_of_list Link.link_id (Server.links (server st')))).
  { rewrite HS. apply Forall_app. split; [exact W|].
    constructor; [|constructor]. rewrite El. unfold two_sided. simpl. lia. }
  assert (C : connects l (endpoint na pa) (endpoint nb pb) = true).
  { rewrite El. unfold connects. simpl.
    rewrite !same_port_refl. reflexivity. }
  split.
  - destruct (search_link_two_sided_run _ _ _ _ st' na nb pa pb H' Ra' Rb' W')
      as (st2 & E & _).
    rewrite HS in E. rewrite py_next_snoc_new in E; eauto.
    apply py_next_none, Hn.
  - destruct (search_link_two_sided_run _ _ _ _ st' nb na pb pa H' Rb' Ra' W')
      as (st2 & E & _).
    rewrite HS in E. rewrite py_next_snoc_new in E; eauto.
    + apply py_next_none. intros y Hy. rewrite connects_comm. auto.
    + rewrite connects_comm. exact C.
Qed.



(** ** A link that is deleted *)

Lemma search_link_found_in (node_a port_a node_b port_b : string)
    (st st1 : State) (l : Link.t) :
  search_link node_a port_a node_b port_b st = (Ok (Some l), st1) ->
  In l (Server.links (server st)).
Proof.
  intros E.
  pose proof (search_link_inv _ _ _ _ _ _ _ E) as Q.
  pose proof (search_link_ok_synced _ _ _ _ _ _ _ E) as S.
  pose proof (quiet_links _ _ Q S) as HL.
  unfold search_link in E. inv_bind_as E u s0; [congruence|].
  inv_bind_as E q s1; [congruence|].
  destruct q as [[[na pa] nb] pb].
  unfold bind, gets, lift in E. injection E as Hr <-.
  apply _search_link_ok_inv in Hr as [_ Hr]. symmetry in Hr.
  apply py_next_in in Hr as [Hin _]. rewrite HL in Hin.
  apply set_of_list_incl in Hin. exact Hin.
Qed.

Lemma delete_link_found (node_a port_a node_b port_b : string)
    (st st1 : State) :
  healthy st ->
  forall l,
    search_link node_a port_a node_b port_b st = (Ok (Some l), st1) ->
    exists st',
      delete_link node_a port_a node_b port_b st = (Ok tt, st')
      /\ Server.links (server st')
         = drop_id Link.link_id (Link.link_id l) (Server.links (server st))
      /\ Project.links (project st')
         = set_of_list Link.link_id (Server.links (server st'))
      /\ set_mem Link.link_id l (Project.links (project st')) = false
      /\ exists g,
           log st' = Req DELETE (LinkR (Link.link_id l)) :: g ++ log st
           /\ Forall (fun r => is_get r = true) g.
Proof.
  intros H l E.
  pose proof (search_link_found_in _ _ _ _ _ _ _ E) as Hin.
  pose proof (search_link_inv _ _ _ _ _ _ _ E) as Q.
  pose proof (search_link_ok_synced _ _ _ _ _ _ _ E) as (_ & SL & _).
  pose proof (quiet_healthy _ _ Q H) as H1.
  rewrite <- (q_server _ _ Q) in Hin.
  unfold delete_link. erewrite bind_ok by exact E.
  unfold Link_delete. cbv zeta.
  rewrite (delete_found_run Link.link_id Server.links _ _
             Project.links Project.with_links l st1 H1 Hin SL).
  eexists. split; [reflexivity|].
  cbn [server project with_project with_server with_log log
       Server.links Server.with_links Project.links Project.with_links].
  rewrite (q_server _ _ Q).
  split; [reflexivity|]. split; [reflexivity|].
  split; [apply not_member_after_drop|].
  apply one_write_after_quiet, Q.
Qed.



(** X21.  With a transport that does not fail, [delete_link] undoes the
    [create_link] that went before it, whichever way round the two ends
    are named: the server's listing of the links is what it was before
    the creation, and the project's link set is the set of that
    listing. *)
Theorem create_link_then_delete_restores
    (st : State) (node_a port_a node_b port_b : string)
    (l : Link.t) (st' : State) :
  healthy st ->
  create_link node_a port_a node_b port_b st = (Ok l, st') ->
  (exists st'',
     delete_link node_a port_a node_b port_b st' = (Ok tt, st'')
     /\ Server.links (server st'') = Server.links (server st)
     /\ Project.links (project st'')
        = set_of_list Link.link_id (Server.links (server st)))
  /\ (exists st'',
        delete_link node_b port_b node_a port_a st' = (Ok tt, st'')
        /\ Server.links (server st'') = Server.links (server st)
        /\ Project.links (project st'')
           = set_of_list Link.link_id (Server.links (server st))).
Proof.
  intros H Hc.
  destruct (search_link_after_create _ _ _ _ _ _ _ H Hc)
    as [(s1 & F1) (s2 & F2)].
  destruct (create_link_ok_inv _ _ _ _ _ _ _ Hc)
    as (na & pa & nb & pb & st1 & _ & _ & _ & _ & _ & El & Est).
  assert (H' : healthy st') by (subst st'; intros n; apply H).
  assert (Hs : Server.links (server st') = Server.links (server st) ++ [l])
    by (subst st'; reflexivity).
  assert (Hd : drop_id Link.link_id (Link.link_id l)
                 (Server.links (server st'))
               = Server.links (server st)).
  { rewrite Hs. apply drop_id_last. rewrite El. simpl. apply fresh_id_fresh. }
  split.
  - destruct (delete_link_found _ _ _ _ st' s1 H' l F1)
      as (st'' & D & Hl & Hp & _).
    exists st''. rewrite Hp, Hl, Hd. auto.
  - destruct (delete_link_found _ _ _ _ st' s2 H' l F2)
      as (st'' & D & Hl & Hp & _).
    exists st''. rewrite Hp, Hl, Hd. auto.
Qed.

Lemma create_link_then_delete_restores_witness :
  healthy Lab.st1
  /\ exists l st' st'',
       create_link "R1" "Eth1" "R2" "Eth0" Lab.st1 = (Ok l, st')
       /\ delete_link "R2" "Eth0" "R1" "Eth1" st' = (Ok tt, st'')
       /\ Server.links (server st'') = [Lab.L13].
Proof.
  split; [apply lab_healthy|].
  destruct (create_link "R1" "Eth1" "R2" "Eth0" Lab.st1) as [o st'] eqn:E.
  pose proof (f_equal fst E) as F. vm_compute in F.
  destruct o as [l|e]; [|discriminate F].
  destruct (create_link_then_delete_restores Lab.st1 "R1" "Eth1" "R2" "Eth0"
              l st' (lab_healthy _ _ _) E) as (_ & (st'' & D & Hs & _)).
  exists l, st', st''. split; [reflexivity|]. split; [exact D|exact Hs].
Defined.

(** ** The summary of the links *)

Lemma first_where_py_next {A} (cond : A -> bool) (it : list A) :
  first_where cond it
  = match py_next cond it with
    | Some x => Ok x
    | None => Raise IndexError
    end.
Proof.
  unfold first_where. rewrite <- hd_error_filter.
  destruct (filter cond it); reflexivity.
Qed.

Lemma summary_side_ok (p : Project.t) (e : Port.t)
    (nm : string * option string) :
  summary_side p e = Ok nm -> names_side (Project.nodes p) e nm.
Proof.
  unfold summary_side. rewrite !first_where_py_next.
  destruct (py_next _ (Project.nodes p)) as [n|] eqn:En; [|discriminate].
  rewrite first_where_py_next.
  destruct (py_next _ (Node.ports n)) as [q|] eqn:Eq; [|discriminate].
  intros [= <-]. apply py_next_in in En as [Hn Cn].
  apply py_next_in in Eq as [Hq Cq]. exists n, q.
  repeat split; try assumption.
  unfold same_port, endpoint. simpl. rewrite Cn. simpl.
  unfold port_numbered in Cq. apply andb_true_iff in Cq as [-> ->].
  reflexivity.
Qed.

Lemma summary_side_raises (p : Project.t) (e : Port.t) (x : Exn) :
  summary_side p e = Raise x -> x = IndexError.
Proof.
  unfold summary_side. rewrite first_where_py_next.
  destruct (py_next _ (Project.nodes p)) as [n|]; [|congruence].
  rewrite first_where_py_next.
  destruct (py_next _ (Node.ports n)); congruence.
Qed.

Lemma summary_side_dangling (p : Project.t) (e : Port.t) :
  dangling (Project.nodes p) e -> summary_side p e = Raise IndexError.
Proof.
  intros D. destruct (summary_side p e) as [nm|x] eqn:E.
  - apply summary_side_ok in E as (n & q & Hn & Hq & C & _).
    rewrite (D n q Hn Hq) in C. discriminate.
  - apply summary_side_raises in E. congruence.
Qed.

Lemma links_summary_row_raises (p : Project.t) (l : Link.t) (x : Exn) :
  links_summary_row p l = Raise x -> x = IndexError.
Proof.
  unfold links_summary_row, nodes_at.
  destruct (Link.nodes l) as [|e0 [|e1 rest]]; simpl; try congruence.
  destruct (summary_side p e0) as [[a pa]|y] eqn:E0.
  - destruct (summary_side p e1) as [[b pb]|y] eqn:E1; [discriminate|].
    apply summary_side_raises in E1. congruence.
  - apply summary_side_raises in E0. congruence.
Qed.



Lemma links_summary_loop_raises (p : Project.t) (links : list Link.t)
    (acc : list Row) (x : Exn) :
  links_summary_loop p links acc = Raise x -> x = IndexError.
Proof.
  revert acc. induction links as [|l links IH]; simpl; intros acc;
    [discriminate|].
  destruct (links_summary_row p l) as [[r|]|y] eqn:E; try apply IH.
  apply links_summary_row_raises in E. congruence.
Qed.














(** ** The ports of a node and the restoring of a snapshot *)

(** X24.  With a transport that does not fail, [search_port] reads the node
    again from the server, by one [GET] on the identifier of the node, and
    searches the ports the server holds for it, not those of the object
    passed: it returns the first of these ports that bears the name, and
    [None] when none does; a port without a name is never returned. *)
Theorem search_port_first_named
    (st : State) (node m : Node.t) (name : string) :
  healthy st ->
  py_next (fun y => id_eqb (Node.node_id y) (Node.node_id node))
    (Server.nodes (server st)) = Some m ->
  exists r st',
    search_port node name st = (Ok r, st')
    /\ first_match (fun p => Port.name p = Some name) (Node.ports m) r
    /\ log st' = Req GET (NodeR (Node.node_id node)) :: log st
    /\ server st' = server st.
Proof.
  intros H Hm. unfold search_port, Node_get. cbv zeta.
  erewrite bind_ok.
  2:{ erewrite bind_ok by (apply http_call_healthy, H).
      unfold bind, gets. cbn [server with_log]. rewrite Hm.
      unfold on_project, modify, ret. reflexivity. }
  eexists. eexists. split; [reflexivity|].
  split; [|split; reflexivity].
  apply py_next_first_match. intros p. unfold port_named.
  destruct (Port.name p) as [n|].
  - rewrite String.eqb_eq. split; congruence.
  - split; discriminate.
Qed.

Lemma search_port_first_named_witness :
  healthy Lab2.st_full
  /\ exists st',
       search_port (Node.mk (Some "n1") "stale" None None 0 0 []) "Eth1"
         Lab2.st_full
       = (Ok (Some (Lab.eth 0 1 "Eth1")), st').
Proof.
  split; [apply lab_healthy|].
  destruct (search_port_first_named Lab2.st_full
              (Node.mk (Some "n1") "stale" None None 0 0 []) Lab.R1 "Eth1"
              (lab_healthy _ _ _) eq_refl) as (r & st' & E & _).
  pose proof (f_equal fst E) as F. vm_compute in F. rewrite <- F in E.
  exists st'. exact E.
Defined.

(** X25.  With a transport that does not fail, when the search of
    [restore_snapshot] finds a snapshot, [restore_snapshot] returns [True]:
    the [POST] on the restore address of that snapshot is the last request
    and the only one that is not a [GET], and the [Project] object is left
    as the search left it, no refresh following the restoring. *)
Theorem restore_snapshot_found
    (st st1 : State) (name snapshot_id : option string) (s : Snapshot.t) :
  healthy st ->
  search_snapshot name snapshot_id st = (Ok (Some s), st1) ->
  exists st',
    restore_snapshot name snapshot_id st = (Ok true, st')
    /\ project st' = project st1
    /\ exists g,
         log st' = Req POST (SnapshotRestoreR (Snapshot.snapshot_id s))
                   :: g ++ log st
         /\ Forall (fun r => is_get r = true) g.
Proof.
  intros H E.
  pose proof (search_snapshot_found_in _ _ _ _ _ E) as Hin.
  pose proof (search_snapshot_inv _ _ _ _ _ E) as [Q _].
  pose proof (quiet_healthy _ _ Q H) as H1.
  rewrite <- (q_server _ _ Q) in Hin.
  unfold restore_snapshot. erewrite bind_ok by exact E.
  unfold post_restore.
  erewrite bind_ok.
  2:{ erewrite bind_ok by (apply http_call_healthy, H1).
      unfold bind, gets. cbn [server with_log].
      rewrite (has_id_in Snapshot.snapshot_id s _ Hin). reflexivity. }
  simpl. eexists. split; [reflexivity|]. split; [reflexivity|].
  cbn [log with_log]. apply one_write_after_quiet, Q.
Qed.

Lemma restore_snapshot_found_witness :
  healthy Lab2.st_full
  /\ exists st',
       restore_snapshot (Some "monday") None Lab2.st_full = (Ok true, st')
       /\ log st' = [Req POST (SnapshotRestoreR (Some "s1"));
                     Req GET SnapshotsR;
                     Req GET LinksR; Req GET NodesR; Req GET DrawingsR;
                     Req GET SnapshotsR].
Proof.
  split; [apply lab_healthy|].
  destruct (search_snapshot (Some "monday") None Lab2.st_full)
    as [o st1] eqn:E.
  pose proof (f_equal fst E) as F. vm_compute in F. rewrite <- F in E.
  destruct (restore_snapshot_found Lab2.st_full st1 (Some "monday") None _
              (lab_healthy _ _ _) E) as (st' & R & _).
  exists st'. split; [exact R|].
  pose proof (f_equal snd R) as G. vm_compute in G. rewrite <- G.
  reflexivity.
Defined.

(** ** Searches only read *)

Lemma search_port_only_reads (n : Node.t) (name : string)
    (st st' : State) (o : Outcome (option Port.t)) :
  search_port n name st = (o, st') ->
  log st' = Req GET (NodeR (Node.node_id n)) :: log st
  /\ server st' = server st
  /\ ((exists r, o = Ok r) \/ o = Raise TransportError).
Proof.
  unfold search_port, Node_get. cbv zeta. intros H.
  inv_bind_as H m s0.
  - inv_bind_as Hm u s1.
    + apply http_call_inv in Hm0 as [-> [?|?]]; [congruence|].
      split; [reflexivity|]. split; [reflexivity|]. right. congruence.
    + apply http_call_inv in Hm0 as [-> _].
      unfold bind, gets in Hm. cbn [server with_log] in Hm.
      destruct (py_next _ (Server.nodes (server st))) as [m|].
      * unfold on_project, modify, ret in Hm. congruence.
      * unfold raise in Hm. injection Hm as <- <-.
        split; [reflexivity|]. split; [reflexivity|]. right. exact Ho.
  - unfold ret in H. injection H as <- <-.
    inv_bind_as Hm u s1; [congruence|].
    apply http_call_inv in Hm0 as [-> _].
    unfold bind, gets in Hm. cbn [server with_log] in Hm.
    destruct (py_next _ (Server.nodes (server st))) as [m'|].
    + unfold on_project, modify, ret in Hm. injection Hm as _ <-.
      split; [reflexivity|]. split; [reflexivity|]. left. eauto.
    + unfold raise in Hm. congruence.
Qed.

Lemma _search_link_raises (p : Project.t) (a : Node.t) (pa : Port.t)
    (b : Node.t) (pb : Port.t) (e : Exn) :
  _search_link p a pa b pb = Raise e -> e = IndexError.
Proof.
  unfold _search_link.
  assert (G : forall links acc,
             _search_link_loop links a pa b pb acc = Raise e ->
             e = IndexError).
  { induction links as [|l links IH]; simpl; intros acc; [discriminate|].
    destruct (link_matches l a pa b pb) as [[|]|x] eqn:E; try apply IH.
    apply link_matches_raises in E. congruence. }
  destruct (_search_link_loop _ a pa b pb []) eqn:E; [discriminate|].
  intros [= <-]. eapply G, E.
Qed.

Lemma search_link_raises (node_a port_a node_b port_b : string)
    (st st' : State) (e : Exn) :
  search_link node_a port_a node_b port_b st = (Raise e, st') ->
  e = TransportError \/ e = IndexError
  \/ exists w, e = ValueError (NotFound w).
Proof.
  unfold search_link. intros H. inv_bind_as H u s0.
  - apply refresh_project_inv in Hm as [_ [[? _]|?]]; [congruence|].
    left. congruence.
  - inv_bind_as H r s1.
    + apply _link_nodes_and_ports_inv in Hm0 as (_ & _ & G).
      injection Ho as ->. destruct (G _ eq_refl) as [->|(w & ->)]; eauto.
    + destruct r as [[[na pa] nb] pb].
      unfold bind, gets, lift in H. injection H as H _.
      apply _search_link_raises in H. auto.
Qed.

Lemma links_summary_inv (st st' : State) (o : Outcome (list Row)) :
  links_summary st = (o, st') ->
  quiet st st'
  /\ (forall e, o = Raise e -> e = TransportError \/ e = IndexError).
Proof.
  unfold links_summary. intros H. inv_bind_as H u s0.
  - apply refresh_project_inv in Hm as [Q [[? _]|?]]; [congruence|].
    subst. split; [exact Q|]. intros e' [= <-]. left. congruence.
  - apply refresh_project_inv in Hm as [Q _].
    unfold bind, gets, lift in H. injection H as H <-.
    split; [exact Q|]. intros e ->.
    apply links_summary_loop_raises in H. auto.
Qed.

(** X26.  Whatever the transport does and whatever they return or raise,
    the searching functions and [links_summary] only issue [GET] requests
    and leave the server as it is; [search_project] and [search_template]
    leave the [Project] object as it is as well, and [search_port] issues
    exactly one request.  What [search_link] raises is the exception of
    the transport, [IndexError] or the [ValueError] of an endpoint that is
    not found; what [links_summary] raises is the exception of the
    transport or [IndexError]; what [search_port] raises is the
    exception of the transport. *)
Theorem searches_only_read (st st' : State) (name identifier : option string) :
  (forall o, search_project name identifier st = (o, st') ->
     only_gets st st' /\ server st' = server st /\ project st' = project st)
  /\ (forall o, search_template name identifier st = (o, st') ->
        only_gets st st' /\ server st' = server st
        /\ project st' = project st)
  /\ (forall o, search_node name identifier st = (o, st') ->
        only_gets st st' /\ server st' = server st)
  /\ (forall o, search_drawing name identifier st = (o, st') ->
        only_gets st st' /\ server st' = server st)
  /\ (forall o, search_snapshot name identifier st = (o, st') ->
        only_gets st st' /\ server st' = server st)
  /\ (forall node_a port_a node_b port_b o,
        search_link node_a port_a node_b port_b st = (o, st') ->
        only_gets st st' /\ server st' = server st
        /\ forall e, o = Raise e ->
             e = TransportError \/ e = IndexError
             \/ exists w, e = ValueError (NotFound w))
  /\ (forall o, links_summary st = (o, st') ->
        only_gets st st' /\ server st' = server st
        /\ forall e, o = Raise e -> e = TransportError \/ e = IndexError)
  /\ (forall node port o, search_port node port st = (o, st') ->
        log st' = Req GET (NodeR (Node.node_id node)) :: log st
        /\ server st' = server st
        /\ forall e, o = Raise e -> e = TransportError).
Proof.
  repeat match goal with |- _ /\ _ => split end.
  - intros o H.
    pose proof (search_project_inv _ _ _ _ _ H) as P.
    apply search_project_quiet in H as (Og & S & _). auto.
  - intros o H. apply search_template_inv in H as [Q P].
    split; [apply quiet_only_gets, Q|]. split; [apply (q_server _ _ Q)|exact P].
  - intros o H. apply search_node_inv in H as [Q _].
    split; [apply quiet_only_gets, Q|apply (q_server _ _ Q)].
  - intros o H. apply search_drawing_inv in H as [Q _].
    split; [apply quiet_only_gets, Q|apply (q_server _ _ Q)].
  - intros o H. apply search_snapshot_inv in H as [Q _].
    split; [apply quiet_only_gets, Q|apply (q_server _ _ Q)].
  - intros node_a port_a node_b port_b o H.
    pose proof (search_link_inv _ _ _ _ _ _ _ H) as Q.
    split; [apply quiet_only_gets, Q|]. split; [apply (q_server _ _ Q)|].
    intros e ->. eapply search_link_raises, H.
  - intros o H. apply links_summary_inv in H as [Q G].
    split; [apply quiet_only_gets, Q|]. split; [apply (q_server _ _ Q)|exact G].
  - intros node port o H.
    apply search_port_only_reads in H as (L & S & [(r & ->) | ->]).
    + split; [exact L|]. split; [exact S|]. discriminate.
    + split; [exact L|]. split; [exact S|]. congruence.
Qed.

Lemma searches_only_read_witness :
  exists st',
    search_node (Some "R2") None Lab2.st_third = (Raise TransportError, st')
    /\ only_gets Lab2.st_third st'
    /\ server st' = server Lab2.st_third.
Proof.
  destruct (search_node (Some "R2") None Lab2.st_third) as [o st'] eqn:E.
  pose proof (f_equal fst E) as F. vm_compute in F. rewrite <- F in E.
  destruct (searches_only_read Lab2.st_third st' (Some "R2") None)
    as (_ & _ & G & _).
  exists st'. rewrite <- F. split; [reflexivity|]. exact (G _ E).
Defined.
